(** * Sigen client: session lifecycle, telemetry decoding and the MQTT loop

    A shallow embedding of the parts of the [sigen] package that carry
    behaviour: [auth.TokenManager], [northbound.NorthboundClient],
    [modes.get_current_operational_mode], [mqtt.TelemetryData] and
    [mqtt.SigenMQTT]; further on, [station.fetch_station_info],
    [modes.fetch_operational_modes], [NorthboundClient.query_mode], the
    methods of [client.Sigen] that use them, and [smart_loads].

    Python values coming off the wire are untyped, so they are modelled by
    one inductive type of JSON-shaped values.  Python floats are IEEE
    binary64 and are modelled by Rocq's primitive floats.  Coroutines are
    modelled in a state-and-exception monad over an explicit world (a tick
    counter and the trace of externally visible actions); what the network,
    the broker, the clock and the user callbacks answer is read from an
    environment indexed by the tick. *)

From Stdlib Require Import ZArith Bool List Ascii String Lia.
From Stdlib Require Import DecimalString.
From Stdlib Require Import Floats.
Import ListNotations.

Local Set Warnings "-register-all,-inexact-float".
Local Open Scope string_scope.
Local Open Scope Z_scope.

(* ================================================================== *)
(** * Python values and exceptions *)
(* ================================================================== *)

(** Values as [json.loads] produces them ([None], [bool], [int], [float],
    [str], [list], [dict]).  A [dict] is kept as an association list in
    insertion order; lookup takes the first binding of a key.  A [str] is
    kept as the bytes of its UTF-8 encoding. *)
Inductive pyval : Type :=
| PNone
| PBool (b : bool)
| PInt (z : Z)
| PFloat (f : float)
| PStr (s : string)
| PList (l : list pyval)
| PDict (d : list (string * pyval)).

(** The exception classes that the modelled code raises, catches or lets
    through.  [CancelledError], [SystemExit] and [KeyboardInterrupt] derive
    from [BaseException] only; all the others derive from [Exception]. *)
Inductive exn : Type :=
| MqttError
| CancelledError
| RuntimeError (msg : string)
| SigenAuthError
| SigenTokenExpiredError
| AttributeError
| TypeError
| ValueError
| JSONDecodeError
| KeyError
| OverflowError
| OtherException (name : string)
| SystemExit
| KeyboardInterrupt.

(** [isinstance(e, Exception)] *)
Definition is_Exception (e : exn) : bool :=
  match e with
  | CancelledError | SystemExit | KeyboardInterrupt => false
  | _ => true
  end.

(** [isinstance(e, aiomqtt.MqttError)] *)
Definition is_MqttError (e : exn) : bool :=
  match e with MqttError => true | _ => false end.

(** [isinstance(e, asyncio.CancelledError)] *)
Definition is_CancelledError (e : exn) : bool :=
  match e with CancelledError => true | _ => false end.

(** [isinstance(e, (ValueError, TypeError))]; [json.JSONDecodeError] is a
    subclass of [ValueError]. *)
Definition is_ValueError_or_TypeError (e : exn) : bool :=
  match e with ValueError | JSONDecodeError | TypeError => true | _ => false end.

(** [isinstance(e, (json.JSONDecodeError, TypeError))] *)
Definition is_JSONDecodeError_or_TypeError (e : exn) : bool :=
  match e with JSONDecodeError | TypeError => true | _ => false end.

(** The outcome of evaluating a Python expression or running a coroutine:
    a value, a raised exception, or no answer yet (a loop that is still
    running when its fuel is spent, an await that is never resumed). *)
Inductive result (A : Type) : Type :=
| Ok (a : A)
| Raise (e : exn)
| Pending.
Arguments Ok {A} a.
Arguments Raise {A} e.
Arguments Pending {A}.

Definition rbind {A B : Type} (r : result A) (k : A -> result B) : result B :=
  match r with
  | Ok a => k a
  | Raise e => Raise e
  | Pending => Pending
  end.

Notation "'let?' x ':=' r 'in' k" := (rbind r (fun x => k))
  (at level 10, x pattern, r at level 100, k at level 200).

(** ** Dictionaries *)

Fixpoint assoc {V : Type} (d : list (string * V)) (k : string) : option V :=
  match d with
  | [] => None
  | (k', v) :: d' => if String.eqb k' k then Some v else assoc d' k
  end.

(** [k in d] *)
Definition dict_has (d : list (string * pyval)) (k : string) : bool :=
  match assoc d k with Some _ => true | None => false end.

(** [d.get(k)] on a dict: [None] when the key is absent. *)
Definition dict_get (d : list (string * pyval)) (k : string) : pyval :=
  match assoc d k with Some v => v | None => PNone end.

(** [d.get(k, default)] *)
Definition dict_get_default (d : list (string * pyval)) (k : string)
    (default : pyval) : pyval :=
  match assoc d k with Some v => v | None => default end.

(** [x.get(k, default)] on an arbitrary value: only a dict has [get]. *)
Definition py_get (x : pyval) (k : string) (default : pyval) : result pyval :=
  match x with
  | PDict d => Ok (dict_get_default d k default)
  | _ => Raise AttributeError
  end.

(** [x[k]] with a string key: [KeyError] on a dict without the key,
    [TypeError] on every value that is not a dict (a list or a string wants
    an integer index, the others are not subscriptable). *)
Definition py_getitem (x : pyval) (k : string) : result pyval :=
  match x with
  | PDict d => match assoc d k with Some v => Ok v | None => Raise KeyError end
  | _ => Raise TypeError
  end.

(** ** Floats *)


(** Truthiness, as [not x], [x and ...] and [if x] use it. *)
Definition truthy (x : pyval) : bool :=
  match x with
  | PNone => false
  | PBool b => b
  | PInt z => negb (z =? 0)
  | PFloat f => negb (PrimFloat.eqb f 0%float)
  | PStr s => negb (String.eqb s "")
  | PList l => match l with [] => false | _ => true end
  | PDict d => match d with [] => false | _ => true end
  end.

(** [float(z)] for an [int]: the nearest binary64 (ties to even);
    [OverflowError] when the integer is beyond the finite range. *)
Definition float_of_int (z : Z) : result float :=
  match binary_normalize prec emax z 0 false with
  | S754_infinity _ => Raise OverflowError
  | sf => Ok (SF2Prim sf)
  end.

(** The nearest binary64 to [m * 10^e10] for an integer [m >= 0], with the
    sign [neg].  For a negative exponent the quotient is taken with more
    than 62 significant bits and a sticky bit for the remainder, which
    rounds as the exact quotient does. *)
Definition round_decimal (neg : bool) (m e10 : Z) : float :=
  let sgn (x : Z) := if neg then Z.opp x else x in
  if m =? 0 then (if neg then (-0)%float else 0%float)
  else if 0 <=? e10 then
    SF2Prim (binary_normalize prec emax (sgn (m * 10 ^ e10)) 0 neg)
  else
    let d := 10 ^ (- e10) in
    let s := Z.max 0 (Z.log2 d - Z.log2 m + 64) in
    let n := m * 2 ^ s in
    let q := n / d in
    let sticky := if n mod d =? 0 then 0 else 1 in
    SF2Prim (binary_normalize prec emax (sgn (2 * q + sticky)) (- (s + 1)) neg).

(** ** Text outside ASCII

    A [str] is kept as the bytes of its UTF-8 encoding.  Before it parses
    a number, CPython replaces every character outside ASCII: whitespace
    ([str.isspace]) by a space and a decimal digit (category Nd) by the
    ASCII digit of its value; any other such character ends the
    conversion with [ValueError], and so does DEL. *)

Definition is_unicode_space (cp : Z) : bool :=
  ((cp =? 0x85) || (cp =? 0xa0) || (cp =? 0x1680) ||
   ((0x2000 <=? cp) && (cp <=? 0x200a)) || (cp =? 0x2028) || (cp =? 0x2029) ||
   (cp =? 0x202f) || (cp =? 0x205f) || (cp =? 0x3000))%bool.

(** The first code points of the runs of ten decimal digits, [0] to [9],
    outside ASCII (Unicode 14.0, as CPython 3.11 has it). *)
Definition digit_runs : list Z :=
    [ 0x660; 0x6f0; 0x7c0; 0x966; 0x9e6; 0xa66; 0xae6; 0xb66; 0xbe6; 0xc66;
      0xce6; 0xd66; 0xde6; 0xe50; 0xed0; 0xf20; 0x1040; 0x1090; 0x17e0;
      0x1810; 0x1946; 0x19d0; 0x1a80; 0x1a90; 0x1b50; 0x1bb0; 0x1c40;
      0x1c50; 0xa620; 0xa8d0; 0xa900; 0xa9d0; 0xa9f0; 0xaa50; 0xabf0;
      0xff10; 0x104a0; 0x10d30; 0x11066; 0x110f0; 0x11136; 0x111d0;
      0x112f0; 0x11450; 0x114d0; 0x11650; 0x116c0; 0x11730; 0x118e0;
      0x11950; 0x11c50; 0x11d50; 0x11da0; 0x16a60; 0x16ac0; 0x16b50;
      0x1d7ce; 0x1d7d8; 0x1d7e2; 0x1d7ec; 0x1d7f6; 0x1e140; 0x1e2f0;
      0x1e950; 0x1fbf0 ].

Definition unicode_digit (cp : Z) : option Z :=
  match find (fun start => ((start <=? cp) && (cp <? start + 10))%bool)
          digit_runs with
  | Some start => Some (cp - start)
  | None => None
  end.

Definition to_ascii (cp : Z) : option ascii :=
  if is_unicode_space cp then Some " "%char
  else
    match unicode_digit cp with
    | Some d => Some (ascii_of_nat (Z.to_nat (48 + d)))
    | None => None
    end.

Definition byte (c : ascii) : Z := Z.of_nat (nat_of_ascii c).

(** The six payload bits of a continuation byte. *)
Definition trail (c : ascii) : option Z :=
  let n := byte c in
  if ((128 <=? n) && (n <? 192))%bool then Some (n - 128) else None.

Definition glue (c : option ascii) (s : option string) : option string :=
  match c, s with
  | Some c', Some s' => Some (String c' s')
  | _, _ => None
  end.

(** The text with every character outside ASCII replaced; [None] when one
    of them is neither whitespace nor a decimal digit. *)
Fixpoint ascii_of_text (s : string) : option string :=
  match s with
  | EmptyString => Some EmptyString
  | String c rest =>
      let n := byte c in
      if n <? 127 then glue (Some c) (ascii_of_text rest)
      else if n <? 194 then None
      else
        match rest with
        | String c1 rest1 =>
            match trail c1 with
            | None => None
            | Some t1 =>
                if n <? 224 then
                  glue (to_ascii ((n - 192) * 64 + t1)) (ascii_of_text rest1)
                else
                  match rest1 with
                  | String c2 rest2 =>
                      match trail c2 with
                      | None => None
                      | Some t2 =>
                          if n <? 240 then
                            glue (to_ascii (((n - 224) * 64 + t1) * 64 + t2))
                              (ascii_of_text rest2)
                          else
                            match rest2 with
                            | String c3 rest3 =>
                                match trail c3 with
                                | None => None
                                | Some t3 =>
                                    glue (to_ascii
                                            ((((n - 240) * 64 + t1) * 64 + t2)
                                             * 64 + t3))
                                      (ascii_of_text rest3)
                                end
                            | EmptyString => None
                            end
                      end
                  | EmptyString => None
                  end
            end
        | EmptyString => None
        end
  end.

(** [float(s)] for a [str], after CPython's grammar: optional surrounding
    whitespace, an optional sign, then [inf], [infinity] or [nan] in any
    letter case, or a decimal number with an optional fraction and an
    optional exponent; single underscores may separate digits.  The
    grammar is read off the text made ASCII. *)
Definition is_space (c : ascii) : bool :=
  let n := nat_of_ascii c in
  (n =? 32)%nat || ((9 <=? n)%nat && (n <=? 13)%nat).

Definition digit_of (c : ascii) : option Z :=
  let n := nat_of_ascii c in
  if ((48 <=? n)%nat && (n <=? 57)%nat)%bool then Some (Z.of_nat (n - 48))
  else None.

Definition lower (c : ascii) : ascii :=
  let n := nat_of_ascii c in
  if ((65 <=? n)%nat && (n <=? 90)%nat)%bool then ascii_of_nat (n + 32) else c.

Fixpoint lstrip (s : string) : string :=
  match s with
  | String c s' => if is_space c then lstrip s' else s
  | EmptyString => EmptyString
  end.

Fixpoint rstrip (s : string) : string :=
  match s with
  | String c s' =>
      match rstrip s' with
      | EmptyString => if is_space c then EmptyString else String c EmptyString
      | r => String c r
      end
  | EmptyString => EmptyString
  end.

Fixpoint lowercase (s : string) : string :=
  match s with
  | String c s' => String (lower c) (lowercase s')
  | EmptyString => EmptyString
  end.

(** The rest of a digit run whose first digit is already read: [acc] is
    the value so far and [n] the number of digits.  An underscore is taken
    only when a digit follows it. *)
Fixpoint digits_tail (s : string) (acc : Z) (n : Z) : Z * Z * string :=
  match s with
  | String c s' =>
      match digit_of c with
      | Some d => digits_tail s' (10 * acc + d) (n + 1)
      | None =>
          if Ascii.eqb c "_" then
            match s' with
            | String c' s'' =>
                match digit_of c' with
                | Some d => digits_tail s'' (10 * acc + d) (n + 1)
                | None => (acc, n, s)
                end
            | EmptyString => (acc, n, s)
            end
          else (acc, n, s)
      end
  | EmptyString => (acc, n, s)
  end.

(** A digit run continuing the value [acc]; [None] when no digit is there. *)
Definition digitpart (s : string) (acc : Z) : option (Z * Z * string) :=
  match s with
  | String c s' =>
      match digit_of c with
      | Some d => Some (digits_tail s' (10 * acc + d) 1)
      | None => None
      end
  | EmptyString => None
  end.

Definition take_sign (s : string) : bool * string :=
  match s with
  | String c s' =>
      if Ascii.eqb c "-" then (true, s')
      else if Ascii.eqb c "+" then (false, s')
      else (false, s)
  | EmptyString => (false, s)
  end.

(** The exponent part; an [e] that no digits follow is not an exponent,
    and is left in the input. *)
Definition exponent (s : string) : Z * string :=
  match s with
  | String c s' =>
      if Ascii.eqb (lower c) "e" then
        let '(neg, s1) := take_sign s' in
        match digitpart s1 0 with
        | Some (e, _, rest) => (if neg then - e else e, rest)
        | None => (0, s)
        end
      else (0, s)
  | EmptyString => (0, s)
  end.

(** Mantissa and decimal exponent of [digits [. digits] [exponent]] or
    [. digits [exponent]]; the whole input must be used. *)
Definition decimal_number (s : string) : option (Z * Z) :=
  let finish (m nfrac : Z) (rest : string) :=
    let '(e, rest') := exponent rest in
    match rest' with
    | EmptyString => Some (m, e - nfrac)
    | _ => None
    end in
  match digitpart s 0 with
  | Some (i, _, String c rest) =>
      if Ascii.eqb c "." then
        match digitpart rest i with
        | Some (m, nf, rest') => finish m nf rest'
        | None => finish i 0 rest
        end
      else finish i 0 (String c rest)
  | Some (i, _, EmptyString) => Some (i, 0)
  | None =>
      match s with
      | String c rest =>
          if Ascii.eqb c "." then
            match digitpart rest 0 with
            | Some (m, nf, rest') => finish m nf rest'
            | None => None
            end
          else None
      | EmptyString => None
      end
  end.

Definition float_of_ascii (s : string) : result float :=
  let '(neg, body) := take_sign (rstrip (lstrip s)) in
  let word := lowercase body in
  if (String.eqb word "inf" || String.eqb word "infinity")%bool then
    Ok (if neg then neg_infinity else infinity)
  else if String.eqb word "nan" then Ok nan
  else
    match decimal_number body with
    | Some (m, e10) => Ok (round_decimal neg m e10)
    | None => Raise ValueError
    end.

Definition float_of_str (s : string) : result float :=
  match ascii_of_text s with
  | Some s' => float_of_ascii s'
  | None => Raise ValueError
  end.

(** [float(v)] *)
Definition py_float (v : pyval) : result float :=
  match v with
  | PBool b => Ok (if b then 1%float else 0%float)
  | PInt z => float_of_int z
  | PFloat f => Ok f
  | PStr s => float_of_str s
  | PNone | PList _ | PDict _ => Raise TypeError
  end.

(** [t + v] for a float [t]: an [int] or [bool] operand is converted to
    float first, anything that is not a number is a [TypeError]. *)
Definition py_float_add (t : float) (v : pyval) : result float :=
  match v with
  | PBool b => Ok (t + (if b then 1 else 0))%float
  | PInt z => let? f := float_of_int z in Ok (t + f)%float
  | PFloat f => Ok (t + f)%float
  | PNone | PStr _ | PList _ | PDict _ => Raise TypeError
  end.

(** [v == z] for a small integer literal [z] (exact below 2^53). *)
Definition py_eq_int (v : pyval) (z : Z) : bool :=
  match v with
  | PBool b => (if b then 1 else 0) =? z
  | PInt n => n =? z
  | PFloat f => match float_of_int z with
                | Ok g => PrimFloat.eqb f g
                | _ => false
                end
  | _ => false
  end.

(** ** Strings *)

Fixpoint prefix_of (p s : string) : bool :=
  match p, s with
  | EmptyString, _ => true
  | String a p', String b s' => (Ascii.eqb a b && prefix_of p' s')%bool
  | String _ _, EmptyString => false
  end.

(** [needle in hay] for two strings *)
Fixpoint contains (needle hay : string) : bool :=
  (prefix_of needle hay ||
   match hay with
   | String _ hay' => contains needle hay'
   | EmptyString => false
   end)%bool.

(** [str(z)] for an [int] *)
Definition str_of_int (z : Z) : string := NilZero.string_of_int (Z.to_int z).

(** [str(v)], as an f-string applies it.  What CPython prints for a float
    or a container is its [repr], which is taken as a parameter. *)
Definition py_str (repr : pyval -> string) (v : pyval) : string :=
  match v with
  | PNone => "None"
  | PBool true => "True"
  | PBool false => "False"
  | PInt z => str_of_int z
  | PStr s => s
  | PFloat _ | PList _ | PDict _ => repr v
  end.

(** [base64.b64encode(s.encode()).decode()] *)
Definition b64_alphabet : string :=
  "ABCDEFGHIJKLMNOPQRSTUVWXYZabcdefghijklmnopqrstuvwxyz0123456789+/".

Definition b64_char (n : nat) : ascii :=
  match String.get n b64_alphabet with Some c => c | None => "="%char end.

Fixpoint b64encode_bytes (bs : list nat) : string :=
  match bs with
  | [] => ""
  | [a] =>
      String (b64_char (a / 4))
        (String (b64_char (a mod 4 * 16)) "==")
  | [a; b] =>
      String (b64_char (a / 4))
        (String (b64_char (a mod 4 * 16 + b / 16))
           (String (b64_char (b mod 16 * 4)) "="))
  | a :: b :: c :: rest =>
      String (b64_char (a / 4))
        (String (b64_char (a mod 4 * 16 + b / 16))
           (String (b64_char (b mod 16 * 4 + c / 64))
              (String (b64_char (c mod 64)) (b64encode_bytes rest))))
  end%nat.

Definition b64encode (s : string) : string :=
  b64encode_bytes (map nat_of_ascii (list_ascii_of_string s)).

(** [k in x] for a string [k]: key membership in a dict, substring test in
    a string, element test in a list (only another string can equal [k]);
    the other values are not containers. *)
Definition py_contains (x : pyval) (k : string) : result bool :=
  match x with
  | PDict d => Ok (dict_has d k)
  | PStr s => Ok (contains k s)
  | PList l =>
      Ok (existsb (fun v => match v with PStr s => String.eqb s k | _ => false end) l)
  | PNone | PBool _ | PInt _ | PFloat _ => Raise TypeError
  end.

(** ** Equality and iteration *)

(** [z == f] for an [int] and a [float]: Python compares the exact
    values. *)
Definition int_eq_float (z : Z) (f : float) : bool :=
  match Prim2SF f with
  | S754_zero _ => z =? 0
  | S754_finite sgn m e =>
      let mag := if sgn then Z.neg m else Z.pos m in
      if 0 <=? e then z =? mag * 2 ^ e
      else (z * 2 ^ (- e) =? mag)
  | S754_infinity _ | S754_nan => false
  end.

Definition int_of_bool (b : bool) : Z := if b then 1 else 0.

(** [a == b].  Numbers compare by value across [bool], [int] and [float];
    lists compare element by element; dicts compare as maps. *)
Fixpoint py_eq (a b : pyval) {struct a} : bool :=
  match a, b with
  | PNone, PNone => true
  | PStr s, PStr s' => String.eqb s s'
  | PBool x, PBool y => Bool.eqb x y
  | PBool x, PInt z | PInt z, PBool x => int_of_bool x =? z
  | PBool x, PFloat f | PFloat f, PBool x => int_eq_float (int_of_bool x) f
  | PInt x, PInt y => x =? y
  | PInt z, PFloat f | PFloat f, PInt z => int_eq_float z f
  | PFloat f, PFloat g => PrimFloat.eqb f g
  | PList l, PList l' =>
      (fix eq_list (xs ys : list pyval) {struct xs} : bool :=
         match xs, ys with
         | [], [] => true
         | x :: xs', y :: ys' => (py_eq x y && eq_list xs' ys')%bool
         | _, _ => false
         end) l l'
  | PDict d, PDict d' =>
      ((List.length d =? List.length d')%nat &&
       (fix eq_items (items : list (string * pyval)) {struct items} : bool :=
          match items with
          | [] => true
          | (k, v) :: items' =>
              match assoc d' k with
              | Some v' => (py_eq v v' && eq_items items')%bool
              | None => false
              end
          end) d)%bool
  | _, _ => false
  end.

(** The characters of a text: every byte that is not a continuation byte
    starts a character, which takes the continuation bytes after it.
    [split_characters] gives the continuation bytes the text begins with,
    and the characters after them. *)
Fixpoint split_characters (s : string) : string * list string :=
  match s with
  | EmptyString => (EmptyString, [])
  | String c rest =>
      let '(tail, chars) := split_characters rest in
      match trail c with
      | Some _ => (String c tail, chars)
      | None => (EmptyString, String c tail :: chars)
      end
  end.

Definition characters (s : string) : list string := snd (split_characters s).

(** The elements a [for] loop draws from a value: the items of a list, the
    keys of a dict, the characters of a string; nothing else is iterable. *)
Definition py_iter (x : pyval) : result (list pyval) :=
  match x with
  | PList l => Ok l
  | PDict d => Ok (map (fun kv => PStr (fst kv)) d)
  | PStr s => Ok (map PStr (characters s))
  | PNone | PBool _ | PInt _ | PFloat _ => Raise TypeError
  end.

(* ================================================================== *)
(** * Telemetry decoder ([mqtt.TelemetryData]) *)
(* ================================================================== *)

Module TelemetryData.

Record t : Type := mk {
  timestamp : pyval;
  system_id : pyval;
  device_type : pyval;
  pv_power_kw : float;
  battery_power_kw : float;
  soc_percent : float;
  grid_power_kw : float;
  load_power_kw : float;
  raw : pyval
}.

(** The local helper [_float(key, default=0.0)] of [from_mqtt_payload],
    closed over [values]. *)
Definition _float (values : pyval) (key : string) (default : float)
    : result float :=
  let? v := py_get values key PNone in
  match v with
  | PNone => Ok default
  | _ =>
      match py_float v with
      | Raise e => if is_ValueError_or_TypeError e then Ok default else Raise e
      | r => r
      end
  end.

Definition from_mqtt_payload (data : pyval) : result t :=
  let? values := py_get data "value" (PDict []) in
  let? sigen_battery_w := _float values "storageChargeDischargePowerW" 0 in
  let battery_kw := (- sigen_battery_w / 1000)%float in
  let? ts := py_get data "statisticsTime" (PStr "") in
  let? sid := py_get data "systemId" (PStr "") in
  let? dt := py_get data "deviceType" (PStr "") in
  let? pv := _float values "pvPowerW" 0 in
  let? soc := _float values "storageSOC%" 0 in
  let? grid := _float values "gridActivePowerW" 0 in
  let? load := _float values "loadActivePowerW" 0 in
  Ok {| timestamp := ts;
        system_id := sid;
        device_type := dt;
        pv_power_kw := (pv / 1000)%float;
        battery_power_kw := battery_kw;
        soc_percent := soc;
        grid_power_kw := (grid / 1000)%float;
        load_power_kw := (load / 1000)%float;
        raw := values |}.

End TelemetryData.

(* ================================================================== *)
(** * The world outside the process *)
(* ================================================================== *)

(** What an HTTP exchange hands back: the status line, the body text and
    what [await response.json()] gives. *)
Record response : Type := mk_response {
  status : Z;
  text : string;
  json : result pyval
}.

(** An inbound MQTT message: [str(message.topic)] and what
    [json.loads(message.payload)] gives. *)
Record message : Type := mk_message {
  topic : string;
  payload_json : result pyval
}.

(** Externally visible actions, recorded when they are started. *)
Inductive event : Type :=
| ETlsContext (cafile : string)
| ELoadCertChain (certfile keyfile : string)
| EHttpPost (url : string) (payload : pyval)
| EHttpGet (url : string) (headers : list (string * string))
| EConnect (hostname : string) (port : Z) (username : string) (password : pyval)
| EPublish (topic : string) (payload : pyval)
| ESubscribe (topic : string)
| ESleep (seconds : Z)
| ETelemetry (data : TelemetryData.t)
| ESystem (payload : pyval)
| EAlarm (payload : pyval).

Record world : Type := mk_world {
  tick : nat;
  trace : list event
}.

(** The answers of the outside world, by tick: whether the task is
    cancelled while it is suspended there, the wall clock, the HTTP
    exchange, whether what is waited for (a broker operation, a user
    callback, the reading of a response body) fails, and the next inbound
    message ([None]: the message iterator is exhausted).
    [json_loads] is the JSON parser applied to a string. *)
Record env : Type := mk_env {
  env_cancel : nat -> bool;
  env_time : nat -> float;
  env_http : nat -> result response;
  env_io : nat -> option exn;
  env_message : nat -> option (result message);
  json_loads : string -> result pyval
}.

(** ** Coroutines: state, world and exceptions *)

Definition M (St A : Type) : Type := St -> world -> result A * St * world.

Definition ret {St A : Type} (a : A) : M St A := fun s w => (Ok a, s, w).

Definition raise {St A : Type} (e : exn) : M St A := fun s w => (Raise e, s, w).

Definition bind {St A B : Type} (m : M St A) (k : A -> M St B) : M St B :=
  fun s w =>
    match m s w with
    | (Ok a, s', w') => k a s' w'
    | (Raise e, s', w') => (Raise e, s', w')
    | (Pending, s', w') => (Pending, s', w')
    end.

Declare Scope coro_scope.
Delimit Scope coro_scope with coro.
Notation "x <- m ;; k" := (bind m (fun x => k))
  (at level 61, m at next level, right associativity) : coro_scope.
Notation "m ;; k" := (bind m (fun _ => k))
  (at level 61, right associativity) : coro_scope.
Local Open Scope coro_scope.

Definition get {St : Type} : M St St := fun s w => (Ok s, s, w).

Definition modify {St : Type} (f : St -> St) : M St unit := fun s w => (Ok tt, f s, w).

(** A pure outcome inside a coroutine. *)
Definition lift {St A : Type} (r : result A) : M St A := fun s w => (r, s, w).

(** [try: m  except ...: h e] where [h] re-raises what no clause matches. *)
Definition try_except {St A : Type} (m : M St A) (h : exn -> M St A) : M St A :=
  fun s w =>
    match m s w with
    | (Raise e, s', w') => h e s' w'
    | r => r
    end.

(** Runs a coroutine of a component on the component stored in a larger
    object; the component is one shared object, so what the coroutine did to
    it stays done when it raises. *)
Definition on_part {St P A : Type} (proj : St -> P) (upd : P -> St -> St)
    (m : M P A) : M St A :=
  fun s w => let '(r, p', w') := m (proj s) w in (r, upd p' s, w').

Definition emit {St : Type} (ev : event) : M St unit :=
  fun s w => (Ok tt, s, {| tick := tick w; trace := trace w ++ [ev] |}).

Definition next_tick {St : Type} : M St nat :=
  fun s w => (Ok (tick w), s, {| tick := S (tick w); trace := trace w |}).

Section Effects.

Variable E : env.

(** A suspension point: the task may be cancelled while it waits. *)
Definition suspend {St : Type} : M St nat :=
  t <- next_tick ;;
  if env_cancel E t then raise CancelledError else ret t.

(** [time.time()] *)
Definition time_time {St : Type} : M St float :=
  t <- next_tick ;; ret (env_time E t).

(** [async with session.post(url, ...) as response] *)
Definition session_post {St : Type} (url : string) (payload : pyval) : M St response :=
  emit (EHttpPost url payload) ;;
  t <- suspend ;;
  lift (env_http E t).

(** [async with session.get(url, headers=...) as response] *)
Definition session_get {St : Type} (url : string)
    (headers : list (string * string)) : M St response :=
  emit (EHttpGet url headers) ;;
  t <- suspend ;;
  lift (env_http E t).

(** [await response.text()]: the task waits while the body is read,
    and reading it may fail. *)
Definition response_text {St : Type} (response : response) : M St string :=
  t <- suspend ;;
  match env_io E t with
  | Some e => raise e
  | None => ret (text response)
  end.

(** A call that does not suspend (loading a certificate file): it
    completes or raises. *)
Definition call {St : Type} (ev : event) : M St unit :=
  emit ev ;;
  t <- next_tick ;;
  match env_io E t with
  | Some e => raise e
  | None => ret tt
  end.

(** A broker operation or a user callback: the action is started, the task
    waits for it, and it completes or raises. *)
Definition perform {St : Type} (ev : event) : M St unit :=
  emit ev ;;
  t <- suspend ;;
  match env_io E t with
  | Some e => raise e
  | None => ret tt
  end.

(** [await asyncio.sleep(seconds)]: only a cancellation ends it early. *)
Definition asyncio_sleep {St : Type} (seconds : Z) : M St unit :=
  emit (ESleep seconds) ;;
  _ <- suspend ;; ret tt.

End Effects.

(* ================================================================== *)
(** * Password mechanism ([auth.TokenManager]) *)
(* ================================================================== *)

Module TokenManager.

Record t : Type := mk {
  access_token : pyval;
  refresh_token : pyval;
  token_expiry : option float
}.

(** [TokenManager()] *)
Definition init : t :=
  {| access_token := PNone; refresh_token := PNone; token_expiry := None |}.

Definition set_access_token (v : pyval) (s : t) : t :=
  {| access_token := v; refresh_token := refresh_token s;
     token_expiry := token_expiry s |}.

Definition set_refresh_token (v : pyval) (s : t) : t :=
  {| access_token := access_token s; refresh_token := v;
     token_expiry := token_expiry s |}.

Definition set_token_expiry (x : option float) (s : t) : t :=
  {| access_token := access_token s; refresh_token := refresh_token s;
     token_expiry := x |}.

(** The [headers] property. *)
Definition headers (repr : pyval -> string) (s : t) : list (string * string) :=
  [ ("Authorization", "Bearer " ++ py_str repr (access_token s));
    ("Content-Type", "application/json") ].

(** [not response_data or "access_token" not in response_data or ...],
    evaluated left to right and stopping at the first true operand. *)
Definition response_incomplete (response_data : pyval) : result bool :=
  if negb (truthy response_data) then Ok true
  else
    let? a := py_contains response_data "access_token" in
    if negb a then Ok true
    else
      let? r := py_contains response_data "refresh_token" in
      if negb r then Ok true
      else
        let? x := py_contains response_data "expires_in" in
        Ok (negb x).

Section WithEnv.

Variable E : env.

(** The three assignments that close both [get_access_token] and
    [refresh_access_token]. *)
Definition install (response_data : pyval) : M t unit :=
  a <- lift (py_getitem response_data "access_token") ;;
  modify (set_access_token a) ;;
  r <- lift (py_getitem response_data "refresh_token") ;;
  modify (set_refresh_token r) ;;
  now <- time_time E ;;
  x <- lift (py_getitem response_data "expires_in") ;;
  expiry <- lift (py_float_add now x) ;;
  modify (set_token_expiry (Some expiry)).

Definition get_access_token (base_url username encrypted_pw : string)
    : M t unit :=
  let url := base_url ++ "auth/oauth/token" in
  let data := PDict [ ("username", PStr username);
                      ("password", PStr encrypted_pw);
                      ("grant_type", PStr "password") ] in
  response <- session_post E url data ;;
  if status response =? 401 then
    _ <- response_text E response ;; raise SigenAuthError
  else if negb (status response =? 200) then
    _ <- response_text E response ;; raise SigenAuthError
  else
    response_json <- lift (json response) ;;
    response_data <- lift (py_get response_json "data" PNone) ;;
    bad <- lift (response_incomplete response_data) ;;
    if bad then raise SigenAuthError
    else install response_data.

Definition refresh_access_token (base_url : string) : M t unit :=
  let url := base_url ++ "auth/oauth/token" in
  s <- get ;;
  let data := PDict [ ("grant_type", PStr "refresh_token");
                      ("refresh_token", refresh_token s) ] in
  response <- session_post E url data ;;
  if negb (status response =? 200) then
    _ <- response_text E response ;; raise SigenTokenExpiredError
  else
    response_json <- lift (json response) ;;
    response_data <- lift (py_get response_json "data" PNone) ;;
    bad <- lift (response_incomplete response_data) ;;
    if bad then raise SigenTokenExpiredError
    else install response_data.

Definition ensure_valid_token (base_url : string) : M t unit :=
  s <- get ;;
  match token_expiry s with
  | None => ret tt
  | Some expiry =>
      now <- time_time E ;;
      if PrimFloat.leb expiry now then refresh_access_token base_url
      else ret tt
  end.

End WithEnv.

End TokenManager.

(* ================================================================== *)
(** * Key mechanism ([northbound.NorthboundClient]) *)
(* ================================================================== *)

Module NorthboundClient.

(** [_app_key] holds [(self._app_key, self._app_secret)] when the instance
    was made by [from_app_key], so that [hasattr(self, "_app_key")] is
    [_app_key <> None]. *)
Record t : Type := mk {
  base_url : string;
  username : pyval;
  password : pyval;
  access_token : pyval;
  token_expiry : option float;
  _app_key : option (string * string)
}.

Definition set_access_token (v : pyval) (s : t) : t :=
  {| base_url := base_url s; username := username s; password := password s;
     access_token := v; token_expiry := token_expiry s;
     _app_key := _app_key s |}.

Definition set_token_expiry (x : option float) (s : t) : t :=
  {| base_url := base_url s; username := username s; password := password s;
     access_token := access_token s; token_expiry := x;
     _app_key := _app_key s |}.

(** [self.token_expiry and time.time() >= self.token_expiry] tests the
    truth of the expiry first: [None] and [0.0] are false. *)
Definition expiry_truthy (x : option float) : bool :=
  match x with
  | None => false
  | Some e => truthy (PFloat e)
  end.

Section WithEnv.

Variable E : env.

(** What [login] and [login_with_key] do with the response. *)
Definition accept_login (resp : response) : M t pyval :=
  body <- lift (json resp) ;;
  code <- lift (py_get body "code" PNone) ;;
  if negb (py_eq_int code 0) then raise SigenAuthError
  else
    data_str <- lift (py_get body "data" (PStr "{}")) ;;
    data <- lift (match data_str with
                  | PStr s => json_loads E s
                  | _ => Ok data_str
                  end) ;;
    a <- lift (py_getitem data "accessToken") ;;
    modify (set_access_token a) ;;
    now <- time_time E ;;
    x <- lift (py_get data "expiresIn" (PInt 43199)) ;;
    expiry <- lift (py_float_add now x) ;;
    modify (set_token_expiry (Some expiry)) ;;
    s <- get ;;
    ret (access_token s).

Definition login : M t pyval :=
  s <- get ;;
  let url := base_url s ++ "openapi/auth/login/password" in
  let payload := PDict [ ("username", username s);
                         ("password", password s) ] in
  resp <- session_post E url payload ;;
  accept_login resp.

Definition login_with_key : M t pyval :=
  s <- get ;;
  match _app_key s with
  | None => raise AttributeError
  | Some (app_key, app_secret) =>
      let key := b64encode (app_key ++ ":" ++ app_secret) in
      let url := base_url s ++ "openapi/auth/login/key" in
      let payload := PDict [ ("key", PStr key) ] in
      resp <- session_post E url payload ;;
      accept_login resp
  end.

(** [if hasattr(self, "_app_key"): await self.login_with_key()
    else: await self.login()] *)
Definition relogin : M t pyval :=
  s <- get ;;
  match _app_key s with
  | Some _ => login_with_key
  | None => login
  end.

Definition ensure_token : M t pyval :=
  s <- get ;;
  stale <- (if negb (truthy (access_token s)) then ret true
            else if negb (expiry_truthy (token_expiry s)) then ret false
            else
              now <- time_time E ;;
              ret (match token_expiry s with
                   | Some expiry => PrimFloat.leb expiry now
                   | None => false
                   end)) ;;
  (if stale : bool then _ <- relogin ;; ret tt else ret tt) ;;
  s' <- get ;;
  ret (access_token s').

(** [NorthboundClient.from_app_key(base_url, app_key, app_secret)]: the
    new instance and what building it did to the world. *)
Definition from_app_key (url app_key app_secret : string)
    : world -> result t * world :=
  fun w =>
    let instance := {| base_url := url; username := PNone;
                       password := PNone; access_token := PNone;
                       token_expiry := None;
                       _app_key := Some (app_key, app_secret) |} in
    match login_with_key instance w with
    | (Ok _, instance', w') => (Ok instance', w')
    | (Raise e, _, w') => (Raise e, w')
    | (Pending, _, w') => (Pending, w')
    end.

End WithEnv.

End NorthboundClient.

(* ================================================================== *)
(** * Operational modes ([modes.py]) *)
(* ================================================================== *)

Module Modes.

(** [for mode in modes: if mode[key] == wanted: return mode[out]]; the
    answer is [None] when the loop ends without returning. *)
Fixpoint first_match (modes : list pyval) (key : string) (wanted : pyval)
    (out : string) : result (option pyval) :=
  match modes with
  | [] => Ok None
  | mode :: rest =>
      let? v := py_getitem mode key in
      if py_eq v wanted then
        let? l := py_getitem mode out in Ok (Some l)
      else first_match rest key wanted out
  end.

(** The part of [get_current_operational_mode] after the response is
    read. *)
Definition current_mode_label (repr : pyval -> string)
    (response_data cached_modes : pyval) : result pyval :=
  let? current_mode := py_getitem response_data "currentMode" in
  let? current_profile_id := py_getitem response_data "currentProfileId" in
  let? found :=
    if negb (py_eq_int current_mode 9) then
      let? container := py_getitem cached_modes "defaultWorkingModes" in
      let? modes := py_iter container in
      first_match modes "value" (PStr (py_str repr current_mode)) "label"
    else
      let? container := py_getitem cached_modes "energyProfileItems" in
      let? modes := py_iter container in
      first_match modes "profileId" current_profile_id "name" in
  match found with
  | Some label => Ok label
  | None => Ok (PStr "Unknown mode")
  end.

Section WithEnv.

Variable E : env.
Variable repr : pyval -> string.

Definition get_current_operational_mode (base_url station_id : string)
    (cached_modes : pyval) : M TokenManager.t pyval :=
  TokenManager.ensure_valid_token E base_url ;;
  let url := base_url ++ "device/energy-profile/mode/current/" ++ station_id in
  token_mgr <- get ;;
  response <- session_get E url (TokenManager.headers repr token_mgr) ;;
  body <- lift (json response) ;;
  response_data <- lift (py_getitem body "data") ;;
  lift (current_mode_label repr response_data cached_modes).

End WithEnv.

End Modes.

(* ================================================================== *)
(** * Stream session ([mqtt.SigenMQTT]) *)
(* ================================================================== *)

Module SigenMQTT.

(** The live [aiomqtt.Client], as the arguments it was built with. *)
Record client : Type := mk_client {
  hostname : string;
  client_port : Z;
  username : string;
  password : pyval
}.

Record t : Type := mk {
  app_key : string;
  app_secret : string;
  app_identifier : string;
  system_ids : list string;
  ca_cert_path : string;
  client_cert_path : option string;
  client_key_path : option string;
  broker : string;
  port : Z;
  base_url : string;
  _nb_client : option NorthboundClient.t;
  _mqtt_client : option client;
  _connected : bool;
  _telemetry_logged : bool
}.

Definition set_nb_client (x : option NorthboundClient.t) (s : t) : t :=
  {| app_key := app_key s; app_secret := app_secret s;
     app_identifier := app_identifier s; system_ids := system_ids s;
     ca_cert_path := ca_cert_path s; client_cert_path := client_cert_path s;
     client_key_path := client_key_path s; broker := broker s;
     port := port s; base_url := base_url s;
     _nb_client := x; _mqtt_client := _mqtt_client s;
     _connected := _connected s; _telemetry_logged := _telemetry_logged s |}.

Definition set_mqtt_client (x : option client) (s : t) : t :=
  {| app_key := app_key s; app_secret := app_secret s;
     app_identifier := app_identifier s; system_ids := system_ids s;
     ca_cert_path := ca_cert_path s; client_cert_path := client_cert_path s;
     client_key_path := client_key_path s; broker := broker s;
     port := port s; base_url := base_url s;
     _nb_client := _nb_client s; _mqtt_client := x;
     _connected := _connected s; _telemetry_logged := _telemetry_logged s |}.

Definition set_connected (x : bool) (s : t) : t :=
  {| app_key := app_key s; app_secret := app_secret s;
     app_identifier := app_identifier s; system_ids := system_ids s;
     ca_cert_path := ca_cert_path s; client_cert_path := client_cert_path s;
     client_key_path := client_key_path s; broker := broker s;
     port := port s; base_url := base_url s;
     _nb_client := _nb_client s; _mqtt_client := _mqtt_client s;
     _connected := x; _telemetry_logged := _telemetry_logged s |}.

Definition set_telemetry_logged (x : bool) (s : t) : t :=
  {| app_key := app_key s; app_secret := app_secret s;
     app_identifier := app_identifier s; system_ids := system_ids s;
     ca_cert_path := ca_cert_path s; client_cert_path := client_cert_path s;
     client_key_path := client_key_path s; broker := broker s;
     port := port s; base_url := base_url s;
     _nb_client := _nb_client s; _mqtt_client := _mqtt_client s;
     _connected := _connected s; _telemetry_logged := x |}.

(** The two assignments every [except] clause of [listen] starts with. *)
Definition mark_disconnected (s : t) : t :=
  set_mqtt_client None (set_connected false s).

(** Which handlers [listen] was given ([true]: not [None]). *)
Record callbacks : Type := mk_callbacks {
  on_telemetry : bool;
  on_system : bool;
  on_alarm : bool
}.

(** The three topics allocated to one system. *)
Definition topics_of (key system_id : string) : list string :=
  [ "openapi/period/" ++ key ++ "/" ++ system_id;
    "openapi/change/" ++ key ++ "/" ++ system_id;
    "openapi/alarm/" ++ key ++ "/" ++ system_id ].

(** The document [_subscribe] serialises with [json.dumps]; the trace
    carries the document, not its text. *)
Definition sub_payload (token : pyval) (ids : list string) : pyval :=
  PDict [ ("accessToken", token); ("systemIdList", PList (map PStr ids)) ].

Definition command_payload (token : pyval) (commands : list pyval) : pyval :=
  PDict [ ("accessToken", token); ("commands", PList commands) ].

(** The arguments of the diagnostic log line of [_handle_telemetry]:
    [len(values)] and [sorted(values.keys())]. *)
Definition log_fields (values : pyval) : result unit :=
  match values with
  | PDict _ => Ok tt
  | PStr _ | PList _ => Raise AttributeError
  | PNone | PBool _ | PInt _ | PFloat _ => Raise TypeError
  end.

Section WithEnv.

Variable E : env.

Definition authenticate : M t pyval :=
  fun s w =>
    match NorthboundClient.from_app_key E (base_url s) (app_key s)
            (app_secret s) w with
    | (Ok nb, w') =>
        (Ok (NorthboundClient.access_token nb), set_nb_client (Some nb) s, w')
    | (Raise e, w') => (Raise e, s, w')
    | (Pending, w') => (Pending, s, w')
    end.

Definition _ensure_token : M t pyval :=
  s <- get ;;
  match _nb_client s with
  | None => authenticate
  | Some nb =>
      on_part (fun _ => nb) (fun nb' => set_nb_client (Some nb'))
        (NorthboundClient.ensure_token E)
  end.

Definition _build_tls_context : M t unit :=
  s <- get ;;
  call E (ETlsContext (ca_cert_path s)) ;;
  match client_cert_path s, client_key_path s with
  | Some cert, Some key =>
      if (negb (String.eqb cert "") && negb (String.eqb key ""))%bool
      then call E (ELoadCertChain cert key)
      else ret tt
  | _, _ => ret tt
  end.

Definition connect : M t unit :=
  _ <- _ensure_token ;; ret tt.

(** [for t in topics: await client.subscribe(t)] *)
Fixpoint subscribe_topics (topics : list string) : M t unit :=
  match topics with
  | [] => ret tt
  | tp :: rest => perform E (ESubscribe tp) ;; subscribe_topics rest
  end.

(** [for system_id in self.system_ids: ...] *)
Fixpoint subscribe_systems (key : string) (ids : list string) : M t unit :=
  match ids with
  | [] => ret tt
  | system_id :: rest =>
      subscribe_topics (topics_of key system_id) ;;
      subscribe_systems key rest
  end.

Definition _subscribe : M t unit :=
  token <- _ensure_token ;;
  s <- get ;;
  let payload := sub_payload token (system_ids s) in
  perform E (EPublish "openapi/subscription/period" payload) ;;
  perform E (EPublish "openapi/subscription/change" payload) ;;
  perform E (EPublish "openapi/subscription/alarm" payload) ;;
  subscribe_systems (app_key s) (system_ids s).

(** The body of the [try] inside the loop of [_handle_telemetry]. *)
Definition process_entry (entry : pyval) : M t unit :=
  s <- get ;;
  (if negb (_telemetry_logged s) then
     modify (set_telemetry_logged true) ;;
     values <- lift (py_get entry "value" (PDict [])) ;;
     lift (log_fields values)
   else ret tt) ;;
  data <- lift (TelemetryData.from_mqtt_payload entry) ;;
  perform E (ETelemetry data).

Fixpoint handle_entries (entries : list pyval) : M t unit :=
  match entries with
  | [] => ret tt
  | entry :: rest =>
      try_except (process_entry entry)
        (fun e => if is_Exception e then ret tt else raise e) ;;
      handle_entries rest
  end.

Definition _handle_telemetry (payload : pyval) : M t unit :=
  let entries := match payload with
                 | PList l => l
                 | _ => [payload]
                 end in
  handle_entries entries.

(** The body of [async for message in client.messages]. *)
Definition dispatch (cbs : callbacks) (msg : message) : M t unit :=
  match payload_json msg with
  | Raise e =>
      if is_JSONDecodeError_or_TypeError e then ret tt else raise e
  | Pending => lift Pending
  | Ok payload =>
      if (contains "/period/" (topic msg) && on_telemetry cbs)%bool then
        _handle_telemetry payload
      else if (contains "/change/" (topic msg) && on_system cbs)%bool then
        perform E (ESystem payload)
      else if (contains "/alarm/" (topic msg) && on_alarm cbs)%bool then
        perform E (EAlarm payload)
      else ret tt
  end.

(** [async for message in client.messages: ...], at most [fuel]
    messages long. *)
Fixpoint stream (fuel : nat) (cbs : callbacks) : M t unit :=
  match fuel with
  | O => lift Pending
  | S fuel' =>
      tk <- suspend E ;;
      match env_message E tk with
      | None => ret tt
      | Some r =>
          msg <- lift r ;;
          dispatch cbs msg ;;
          stream fuel' cbs
      end
  end.

(** The body of the [try] of [listen]: one connection, from the token
    to the end of its message stream.  Leaving the [async with] block
    closes the connection; that is not recorded. *)
Definition listen_body (fuel : nat) (cbs : callbacks) : M t unit :=
  token <- _ensure_token ;;
  s <- get ;;
  let c := {| hostname := broker s; client_port := port s;
              username := app_key s; password := token |} in
  perform E (EConnect (broker s) (port s) (app_key s) token) ;;
  modify (set_mqtt_client (Some c)) ;;
  modify (set_connected true) ;;
  _subscribe ;;
  stream fuel cbs.

(** The three [except] clauses of [listen], in their order. *)
Definition listen_except (e : exn) : M t unit :=
  if is_MqttError e then
    modify mark_disconnected ;;
    asyncio_sleep E 30
  else if is_CancelledError e then
    modify mark_disconnected ;;
    raise e
  else if is_Exception e then
    modify mark_disconnected ;;
    asyncio_sleep E 60
  else raise e.

(** [while True: try: ... except ...], at most [fuel] rounds long. *)
Fixpoint listen_loop (fuel : nat) (cbs : callbacks) : M t unit :=
  match fuel with
  | O => lift Pending
  | S fuel' =>
      try_except (listen_body fuel' cbs) listen_except ;;
      listen_loop fuel' cbs
  end.

Definition listen (fuel : nat) (cbs : callbacks) : M t unit :=
  _build_tls_context ;;
  listen_loop fuel cbs.

Definition send_battery_commands (commands : list pyval) : M t unit :=
  s <- get ;;
  match _mqtt_client s with
  | Some _ =>
      if _connected s then
        token <- _ensure_token ;;
        perform E (EPublish "openapi/instruction/command"
                     (command_payload token commands))
      else raise (RuntimeError "MQTT not connected")
  | None => raise (RuntimeError "MQTT not connected")
  end.

End WithEnv.

End SigenMQTT.

(* ================================================================== *)
(** * The subscription protocol, as a property of traces *)
(* ================================================================== *)

Section Protocol.

(** The application key and the system ids of the session observed. *)
Variable key : string.
Variable ids : list string.

(** Where a connection stands: no connection being set up ([Idle]), a
    connection opened and nothing published yet ([Connected]), the first
    [n] subscription requests published with the token [token]
    ([Requested]), all three published and the topics in [remaining] still
    to subscribe ([Subscribing]); with nothing remaining the connection is
    streaming. *)
Inductive phase : Type :=
| Idle
| Connected
| Requested (n : nat) (token : pyval)
| Subscribing (remaining : list string).

(** The phases in which a round of the listen loop may start. *)
Definition startable (ph : phase) : Prop :=
  ph = Idle \/ ph = Subscribing [].

(** What the protocol asks of a subscription request, the access token
    and the list of system ids, and the three topics it allots to a
    system; both are written out here, apart from what the code
    builds. *)
Definition request_payload (token : pyval) : pyval :=
  PDict [ ("accessToken", token); ("systemIdList", PList (map PStr ids)) ].

Definition system_topics (system_id : string) : list string :=
  [ "openapi/period/" ++ key ++ "/" ++ system_id;
    "openapi/change/" ++ key ++ "/" ++ system_id;
    "openapi/alarm/" ++ key ++ "/" ++ system_id ].

Inductive step : phase -> event -> phase -> Prop :=
| step_login (ph : phase) (url : string) (payload : pyval) :
    startable ph \/ ph = Connected ->
    step ph (EHttpPost url payload) ph
| step_connect (ph : phase) (host : string) (prt : Z) (token : pyval) :
    startable ph ->
    step ph (EConnect host prt key token) Connected
| step_period (token : pyval) :
    step Connected
      (EPublish "openapi/subscription/period" (request_payload token))
      (Requested 1 token)
| step_change (token : pyval) :
    step (Requested 1 token)
      (EPublish "openapi/subscription/change" (request_payload token))
      (Requested 2 token)
| step_alarm (token : pyval) :
    step (Requested 2 token)
      (EPublish "openapi/subscription/alarm" (request_payload token))
      (Subscribing (flat_map system_topics ids))
| step_subscribe (tp : string) (rest : list string) :
    step (Subscribing (tp :: rest)) (ESubscribe tp) (Subscribing rest)
| step_on_telemetry (data : TelemetryData.t) :
    step (Subscribing []) (ETelemetry data) (Subscribing [])
| step_on_system (payload : pyval) :
    step (Subscribing []) (ESystem payload) (Subscribing [])
| step_on_alarm (payload : pyval) :
    step (Subscribing []) (EAlarm payload) (Subscribing [])
| step_sleep (ph : phase) (seconds : Z) :
    seconds = 30 \/ seconds = 60 ->
    step ph (ESleep seconds) Idle.

(** A trace that follows the protocol from one phase to another. *)
Inductive run : phase -> list event -> phase -> Prop :=
| run_nil (ph : phase) : run ph [] ph
| run_cons (ph ph' ph'' : phase) (ev : event) (evs : list event) :
    step ph ev ph' -> run ph' evs ph'' -> run ph (ev :: evs) ph''.

(** What [_subscribe] sends once it has the token: the three subscription
    requests, then one subscribe per topic of every system. *)
Definition subscription_script (token : pyval) : list event :=
  [ EPublish "openapi/subscription/period" (request_payload token);
    EPublish "openapi/subscription/change" (request_payload token);
    EPublish "openapi/subscription/alarm" (request_payload token) ]
  ++ map ESubscribe (flat_map system_topics ids).

End Protocol.

Definition is_callback (ev : event) : Prop :=
  match ev with
  | ETelemetry _ | ESystem _ | EAlarm _ => True
  | _ => False
  end.

(* ================================================================== *)
(** * Vocabulary of the statements, and example data *)
(* ================================================================== *)

(** The raw entry of the decoding example. *)
Definition example_entry : pyval :=
  PDict [ ("statisticsTime", PStr "t1");
          ("systemId", PStr "S1");
          ("deviceType", PStr "ESS");
          ("value", PDict [ ("pvPowerW", PStr "1200");
                            ("storageChargeDischargePowerW", PStr "-500");
                            ("storageSOC%", PStr "87.5");
                            ("gridActivePowerW", PStr "-300");
                            ("loadActivePowerW", PStr "900") ]) ].

(** The mapping under [value] of an entry that carries the five numeric
    fields as floats. *)
Definition numeric_values (pv battery soc grid load : float) : pyval :=
  PDict [ ("pvPowerW", PFloat pv);
          ("storageChargeDischargePowerW", PFloat battery);
          ("storageSOC%", PFloat soc);
          ("gridActivePowerW", PFloat grid);
          ("loadActivePowerW", PFloat load) ].

(** The numeric fields [from_mqtt_payload] reads. *)
Definition expected_fields : list string :=
  [ "storageChargeDischargePowerW"; "pvPowerW"; "storageSOC%";
    "gridActivePowerW"; "loadActivePowerW" ].

(** A field that [_float] resolves to its default: absent, [None], or a
    value on which [float(v)] raises [ValueError] or [TypeError]. *)
Definition defaulted (values : list (string * pyval)) (key : string) : bool :=
  match assoc values key with
  | None | Some PNone => true
  | Some v =>
      match py_float v with
      | Raise e => is_ValueError_or_TypeError e
      | _ => false
      end
  end.

(** A no-break space (U+00A0), which [float] takes for whitespace. *)
Definition nbsp : string :=
  String (ascii_of_nat 194) (String (ascii_of_nat 160) "").

(** No expected field is an [int] too large for a float. *)
Definition ints_in_range (values : list (string * pyval)) : bool :=
  forallb (fun key =>
             match assoc values key with
             | Some (PInt z) =>
                 match float_of_int z with Ok _ => true | _ => false end
             | _ => true
             end) expected_fields.

(** [m[key]] for a cached mode that is a mapping with that key. *)
Definition field (m : pyval) (key : string) : pyval :=
  match m with
  | PDict d => dict_get d key
  | _ => PNone
  end.

(** The cached mode is a mapping that has both keys. *)
Definition has_fields (key out : string) (m : pyval) : bool :=
  match m with
  | PDict d => (dict_has d key && dict_has d out)%bool
  | _ => false
  end.

(** The modes cached for the dispatch examples. *)
Definition example_modes : pyval :=
  PDict [ ("defaultWorkingModes",
           PList [ PDict [ ("label", PStr "Maximum Self-Consumption"); ("value", PStr "0") ];
                   PDict [ ("label", PStr "Fully Feed-in to Grid"); ("value", PStr "5") ];
                   PDict [ ("label", PStr "Nine"); ("value", PStr "9") ] ]);
          ("energyProfileItems",
           PList [ PDict [ ("name", PStr "Winter"); ("profileId", PInt 41) ];
                   PDict [ ("name", PStr "Summer"); ("profileId", PInt 42) ] ]) ].

(** A token manager after a login whose response gave no expiry to track. *)
Definition logged_in_store : TokenManager.t :=
  TokenManager.mk (PStr "A1") (PStr "R1") None.

(** The mode endpoint answers 200 with the current mode and profile id. *)
Definition mode_env (mode profile_id : Z) : env :=
  {| env_cancel := fun _ => false;
     env_time := fun _ => 1000%float;
     env_http := fun _ =>
       Ok {| status := 200;
             text := "";
             json := Ok (PDict [ ("data",
                                  PDict [ ("currentMode", PInt mode);
                                          ("currentProfileId", PInt profile_id) ]) ]) |};
     env_io := fun _ => None;
     env_message := fun _ => None;
     json_loads := fun _ => Raise JSONDecodeError |}.




(** An outside world in which nothing fails and nothing arrives: the clock
    stands at 1000 s, every HTTP exchange answers 500, the parser rejects
    every text. *)
Definition silent_env : env :=
  {| env_cancel := fun _ => false;
     env_time := fun _ => 1000%float;
     env_http := fun _ => Ok {| status := 500; text := ""; json := Raise JSONDecodeError |};
     env_io := fun _ => None;
     env_message := fun _ => None;
     json_loads := fun _ => Raise JSONDecodeError |}.

Definition start : world := {| tick := 0; trace := [] |}.

(** A store that holds an expired token pair. *)
Definition expired_store : TokenManager.t :=
  TokenManager.mk (PStr "A1") (PStr "R1") (Some 500%float).

(** The token endpoint answers 200 with a complete [data] envelope whose
    [expires_in] is a string. *)
Definition text_expiry_env : env :=
  {| env_cancel := fun _ => false;
     env_time := fun _ => 1000%float;
     env_http := fun _ =>
       Ok {| status := 200;
             text := "";
             json := Ok (PDict [ ("data",
                                  PDict [ ("access_token", PStr "A2");
                                          ("refresh_token", PStr "R2");
                                          ("expires_in", PStr "3600") ]) ]) |};
     env_io := fun _ => None;
     env_message := fun _ => None;
     json_loads := fun _ => Raise JSONDecodeError |}.

Definition is_http (ev : event) : Prop :=
  match ev with
  | EHttpPost _ _ => True
  | _ => False
  end.

(** The application key and the system ids of a session never change. *)
Definition same_config (s s' : SigenMQTT.t) : Prop :=
  SigenMQTT.app_key s' = SigenMQTT.app_key s /\
  SigenMQTT.system_ids s' = SigenMQTT.system_ids s.

(** A coroutine of the session that adds only events satisfying [P] to
    the trace and keeps the configuration. *)
Definition frames {A : Type} (P : event -> Prop) (m : M SigenMQTT.t A) : Prop :=
  forall (s : SigenMQTT.t) (w : world),
  exists evs,
    trace (snd (m s w)) = (trace w ++ evs)%list /\
    Forall P evs /\
    same_config s (snd (fst (m s w))).

(** A session that is streaming: it holds a token that expires at 5000 s
    and a live broker client. *)
Definition streaming_session : SigenMQTT.t :=
  {| SigenMQTT.app_key := "key";
     SigenMQTT.app_secret := "secret";
     SigenMQTT.app_identifier := "app";
     SigenMQTT.system_ids := [ "S1"; "S2" ];
     SigenMQTT.ca_cert_path := "/etc/ssl/ca.pem";
     SigenMQTT.client_cert_path := None;
     SigenMQTT.client_key_path := None;
     SigenMQTT.broker := "mqtt-eu.sigencloud.com";
     SigenMQTT.port := 8883;
     SigenMQTT.base_url := "https://api-eu.sigencloud.com/";
     SigenMQTT._nb_client :=
       Some (NorthboundClient.mk "https://api-eu.sigencloud.com/" PNone PNone
               (PStr "T1") (Some 5000%float) (Some ("key", "secret")));
     SigenMQTT._mqtt_client :=
       Some (SigenMQTT.mk_client "mqtt-eu.sigencloud.com" 8883 "key" (PStr "T1"));
     SigenMQTT._connected := true;
     SigenMQTT._telemetry_logged := false |}.

(** The same session before any connection. *)
Definition idle_session : SigenMQTT.t :=
  SigenMQTT.mark_disconnected streaming_session.

(** A batch of 25 commands, numbered 1 to 25. *)
Definition batch_25 : list pyval :=
  map (fun n => PDict [ ("systemId", PStr "S1"); ("slot", PInt (Z.of_nat n)) ])
      (seq 1 25).

(** The session once [listen] has opened a connection with [token]. *)
Definition connected_with (token : pyval) (s : SigenMQTT.t) : SigenMQTT.t :=
  SigenMQTT.set_connected true
    (SigenMQTT.set_mqtt_client
       (Some (SigenMQTT.mk_client (SigenMQTT.broker s) (SigenMQTT.port s)
                (SigenMQTT.app_key s) token)) s).

(** The world after an action started at the current tick. *)
Definition after (ev : event) (w : world) : world :=
  {| tick := S (tick w); trace := trace w ++ [ev] |}.

(** A broker that accepts every connection, request and subscription;
    then waiting for a message always raises [e]. *)
Definition fault_env (e : exn) : env :=
  {| env_cancel := fun _ => false;
     env_time := fun _ => 1000%float;
     env_http := fun _ => Ok {| status := 500; text := ""; json := Raise JSONDecodeError |};
     env_io := fun _ => None;
     env_message := fun _ => Some (Raise e);
     json_loads := fun _ => Raise JSONDecodeError |}.

(** The handlers given to [listen] in the examples: all three. *)
Definition all_callbacks : SigenMQTT.callbacks :=
  SigenMQTT.mk_callbacks true true true.

(** What one connection of the example session puts on the trace. *)
Definition example_round : list event :=
  EConnect "mqtt-eu.sigencloud.com" 8883 "key" (PStr "T1")
  :: subscription_script "key" [ "S1"; "S2" ] (PStr "T1").

(* ================================================================== *)
(** * Further vocabulary: the stream session *)
(* ================================================================== *)

(** An event that the handlers given to [listen] permit: a handler that was
    not given is never invoked. *)
Definition permitted (cbs : SigenMQTT.callbacks) (ev : event) : Prop :=
  match ev with
  | ETelemetry _ => SigenMQTT.on_telemetry cbs = true
  | ESystem _ => SigenMQTT.on_system cbs = true
  | EAlarm _ => SigenMQTT.on_alarm cbs = true
  | _ => True
  end.

(** An event that a message on [topic] may cause. *)
Definition routed (topic : string) (ev : event) : Prop :=
  match ev with
  | ETelemetry _ => contains "/period/" topic = true
  | ESystem _ => contains "/change/" topic = true
  | EAlarm _ => contains "/alarm/" topic = true
  | _ => False
  end.

(** The world after [n] suspensions that recorded nothing. *)
Definition waited (n : nat) (w : world) : world :=
  {| tick := n + tick w; trace := trace w |}.

(** A message whose payload is not JSON. *)
Definition garbled_message : message :=
  {| topic := "openapi/period/key/S1"; payload_json := Raise JSONDecodeError |}.

(** The broker delivers the garbled message once, then drops the link. *)
Definition garbled_env : env :=
  {| env_cancel := fun _ => false;
     env_time := fun _ => 1000%float;
     env_http := fun _ => Ok {| status := 500; text := ""; json := Raise JSONDecodeError |};
     env_io := fun _ => None;
     env_message := fun t => if (t =? 0)%nat then Some (Ok garbled_message)
                             else Some (Raise MqttError);
     json_loads := fun _ => Raise JSONDecodeError |}.

(** The session once [_handle_telemetry] has seen an entry. *)
Definition logged (s : SigenMQTT.t) : SigenMQTT.t :=
  SigenMQTT.set_telemetry_logged true s.

(** The world after the telemetry handler was called on each record of
    [records] in turn. *)
Definition delivered (records : list TelemetryData.t) (w : world) : world :=
  {| tick := List.length records + tick w;
     trace := trace w ++ map ETelemetry records |}.

(** A telemetry entry whose [value] is not a mapping, and a payload that
    has it in front of a well-formed entry. *)
Definition bad_entry : pyval := PDict [ ("value", PNone) ].

Definition mixed_payload : pyval := PList [ bad_entry; example_entry ].

(** The numeric field [key] of [values] is not an [int] too large for a
    float. *)
Definition field_in_range (values : list (string * pyval)) (key : string) : bool :=
  match assoc values key with
  | Some (PInt z) => match float_of_int z with Ok _ => true | _ => false end
  | _ => true
  end.

(** An outside world in which every user callback raises [e] and nothing
    else happens. *)
Definition failing_handler_env (e : exn) : env :=
  {| env_cancel := fun _ => false;
     env_time := fun _ => 1000%float;
     env_http := fun _ => Ok {| status := 500; text := ""; json := Raise JSONDecodeError |};
     env_io := fun _ => Some e;
     env_message := fun _ => None;
     json_loads := fun _ => Raise JSONDecodeError |}.

(** Events of building the TLS context. *)
Definition is_tls (ev : event) : Prop :=
  match ev with
  | ETlsContext _ | ELoadCertChain _ _ => True
  | _ => False
  end.

(** What [_build_tls_context] starts when loading the CA file succeeds:
    the client certificate chain is loaded only if both of its paths are
    given and not empty. *)
Definition tls_script (s : SigenMQTT.t) : list event :=
  ETlsContext (SigenMQTT.ca_cert_path s)
  :: match SigenMQTT.client_cert_path s, SigenMQTT.client_key_path s with
     | Some cert, Some key =>
         if (negb (String.eqb cert "") && negb (String.eqb key ""))%bool
         then [ ELoadCertChain cert key ]
         else []
     | _, _ => []
     end.

(** The request of a login with the application key. *)
Definition key_login_request (base_url app_key app_secret : string) : event :=
  EHttpPost (base_url ++ "openapi/auth/login/key")
    (PDict [ ("key", PStr (b64encode (app_key ++ ":" ++ app_secret))) ]).

(** The request of a login with user name and password. *)
Definition password_login_request (s : NorthboundClient.t) : event :=
  EHttpPost (NorthboundClient.base_url s ++ "openapi/auth/login/password")
    (PDict [ ("username", NorthboundClient.username s);
             ("password", NorthboundClient.password s) ]).

(** [json.loads(data_str) if isinstance(data_str, str) else data_str] *)
Definition decoded_data (E : env) (data_str : pyval) : result pyval :=
  match data_str with
  | PStr str => json_loads E str
  | _ => Ok data_str
  end.

(** An outside world whose every HTTP exchange answers [status] with the
    JSON body [body], whose clock stands at 1000 s and whose parser is
    [parse]. *)
Definition answer_env (status : Z) (body : pyval)
    (parse : string -> result pyval) : env :=
  {| env_cancel := fun _ => false;
     env_time := fun _ => 1000%float;
     env_http := fun _ => Ok {| status := status; text := ""; json := Ok body |};
     env_io := fun _ => None;
     env_message := fun _ => None;
     json_loads := parse |}.

(** [json.loads] on the one text that the example worlds parse. *)
Definition parse_only (known : string) (value : pyval) (str : string)
    : result pyval :=
  if String.eqb str known then Ok value else Raise JSONDecodeError.

(** The double quote, and the [data] of the example login answer: the
    JSON text of an object with the one member [accessToken], and the
    mapping that [json.loads] decodes it to. *)
Definition quote : string := String (ascii_of_nat 34) "".

Definition token_text : string :=
  "{" ++ quote ++ "accessToken" ++ quote ++ ": " ++ quote ++ "T2" ++ quote ++ "}".

Definition token_data : pyval := PDict [ ("accessToken", PStr "T2") ].

Definition login_answer : pyval :=
  PDict [ ("code", PInt 0); ("data", PStr token_text) ].

(** The login endpoint answers [status] with the example answer. *)
Definition login_env (status : Z) : env :=
  answer_env status login_answer (parse_only token_text token_data).

(** A key client that has not logged in yet. *)
Definition fresh_key_client : NorthboundClient.t :=
  NorthboundClient.mk "https://api-eu.sigencloud.com/" PNone PNone PNone None
    (Some ("key", "secret")).

(** The request of the password grant and of the refresh grant. *)
Definition password_grant_request (base_url username encrypted_pw : string)
    : event :=
  EHttpPost (base_url ++ "auth/oauth/token")
    (PDict [ ("username", PStr username); ("password", PStr encrypted_pw);
             ("grant_type", PStr "password") ]).

Definition refresh_grant_request (base_url : string) (s : TokenManager.t)
    : event :=
  EHttpPost (base_url ++ "auth/oauth/token")
    (PDict [ ("grant_type", PStr "refresh_token");
             ("refresh_token", TokenManager.refresh_token s) ]).

(** The three keys of a complete token envelope. *)
Definition envelope_complete (d : list (string * pyval)) : bool :=
  (dict_has d "access_token" && dict_has d "refresh_token" &&
   dict_has d "expires_in")%bool.

(* ================================================================== *)
(** * Stream session: [disconnect] *)
(* ================================================================== *)

Module Teardown.

(** The task held in [_listen_task], as [disconnect] looks at it.  The
    class only ever stores [None] there; a task is what a caller has put
    in its place. *)
Record task : Type := mk_task {
  done : bool
}.

Section WithEnv.

Variable E : env.

(** [await self._listen_task]: the caller waits for the task, and the
    exception that ended the task, if any, is raised in the caller. *)
Definition await_task : M SigenMQTT.t unit :=
  t <- suspend E ;;
  match env_io E t with
  | Some e => raise e
  | None => ret tt
  end.

(** [SigenMQTT.disconnect], with the value of [self._listen_task].
    [cancel()] asks the task to stop; what comes of it is what the
    wait for the task then raises. *)
Definition disconnect (_listen_task : option task) : M SigenMQTT.t unit :=
  modify (SigenMQTT.set_connected false) ;;
  match _listen_task with
  | Some tk =>
      if negb (done tk) then
        try_except await_task
          (fun e => if is_CancelledError e then ret tt else raise e)
      else ret tt
  | None => ret tt
  end ;;
  modify (SigenMQTT.set_mqtt_client None).

End WithEnv.

End Teardown.

(* ================================================================== *)
(** * Endpoints of the password mechanism ([station.py], [modes.py]) *)
(* ================================================================== *)

Module Endpoints.

(** The keys of the station data that [fetch_station_info] reads for its
    log lines, in the order of the lines. *)
Definition logged_keys : list string :=
  [ "stationId"; "hasPv"; "hasEv"; "hasAcCharger"; "acSnList"; "dcSnList";
    "onGrid"; "pvCapacity"; "batteryCapacity" ].

(** [data[key]] for each key in turn: the arguments of the log calls
    are evaluated whatever the log level is. *)
Fixpoint read_keys (data : pyval) (keys : list string) : result unit :=
  match keys with
  | [] => Ok tt
  | key :: rest => let? _ := py_getitem data key in read_keys data rest
  end.

Section WithEnv.

Variable E : env.
Variable repr : pyval -> string.

(** [station.fetch_station_info] *)
Definition fetch_station_info (base_url : string) : M TokenManager.t pyval :=
  TokenManager.ensure_valid_token E base_url ;;
  let url := base_url ++ "device/owner/station/home" in
  token_mgr <- get ;;
  response <- session_get E url (TokenManager.headers repr token_mgr) ;;
  body <- lift (json response) ;;
  data <- lift (py_getitem body "data") ;;
  lift (read_keys data logged_keys) ;;
  ret data.

(** [modes.fetch_operational_modes] *)
Definition fetch_operational_modes (base_url : string) (station_id : pyval)
    : M TokenManager.t pyval :=
  TokenManager.ensure_valid_token E base_url ;;
  let url := base_url ++ "device/energy-profile/mode/all/"
             ++ py_str repr station_id in
  token_mgr <- get ;;
  response <- session_get E url (TokenManager.headers repr token_mgr) ;;
  body <- lift (json response) ;;
  lift (py_getitem body "data").

End WithEnv.

End Endpoints.

(* ================================================================== *)
(** * Key mechanism: [NorthboundClient.query_mode] *)
(* ================================================================== *)

Module Instructions.

Section WithEnv.

Variable E : env.
Variable repr : pyval -> string.

Definition query_mode (system_id : pyval) : M NorthboundClient.t pyval :=
  token <- NorthboundClient.ensure_token E ;;
  s <- get ;;
  let url := NorthboundClient.base_url s ++ "openapi/instruction/"
             ++ py_str repr system_id ++ "/settings" in
  let headers := [ ("Authorization", "Bearer " ++ py_str repr token) ] in
  resp <- session_get E url headers ;;
  body <- lift (json resp) ;;
  code <- lift (py_get body "code" PNone) ;;
  if negb (py_eq_int code 0) then raise (OtherException "SigenAPIError")
  else
    data <- lift (py_getitem body "data") ;;
    lift (py_getitem data "energyStorageOperationMode").

End WithEnv.

End Instructions.

(* ================================================================== *)
(** * The client ([client.Sigen]) *)
(* ================================================================== *)

Module Sigen.

Record t : Type := mk {
  username : string;
  _raw_password : string;
  password : string;
  base_url : string;
  _token_mgr : TokenManager.t;
  _nb_client : option NorthboundClient.t;
  station_id : pyval;
  ac_sn : pyval;
  dc_sn : pyval;
  operational_modes : pyval;
  smart_loads : pyval;
  smart_load_id_map : list (pyval * pyval)
}.

Definition set_token_mgr (x : TokenManager.t) (s : t) : t :=
  {| username := username s; _raw_password := _raw_password s;
     password := password s; base_url := base_url s;
     _token_mgr := x; _nb_client := _nb_client s;
     station_id := station_id s; ac_sn := ac_sn s; dc_sn := dc_sn s;
     operational_modes := operational_modes s;
     smart_loads := smart_loads s;
     smart_load_id_map := smart_load_id_map s |}.

Definition set_nb_client (x : option NorthboundClient.t) (s : t) : t :=
  {| username := username s; _raw_password := _raw_password s;
     password := password s; base_url := base_url s;
     _token_mgr := _token_mgr s; _nb_client := x;
     station_id := station_id s; ac_sn := ac_sn s; dc_sn := dc_sn s;
     operational_modes := operational_modes s;
     smart_loads := smart_loads s;
     smart_load_id_map := smart_load_id_map s |}.

Definition set_station_id (x : pyval) (s : t) : t :=
  {| username := username s; _raw_password := _raw_password s;
     password := password s; base_url := base_url s;
     _token_mgr := _token_mgr s; _nb_client := _nb_client s;
     station_id := x; ac_sn := ac_sn s; dc_sn := dc_sn s;
     operational_modes := operational_modes s;
     smart_loads := smart_loads s;
     smart_load_id_map := smart_load_id_map s |}.

Definition set_ac_sn (x : pyval) (s : t) : t :=
  {| username := username s; _raw_password := _raw_password s;
     password := password s; base_url := base_url s;
     _token_mgr := _token_mgr s; _nb_client := _nb_client s;
     station_id := station_id s; ac_sn := x; dc_sn := dc_sn s;
     operational_modes := operational_modes s;
     smart_loads := smart_loads s;
     smart_load_id_map := smart_load_id_map s |}.

Definition set_dc_sn (x : pyval) (s : t) : t :=
  {| username := username s; _raw_password := _raw_password s;
     password := password s; base_url := base_url s;
     _token_mgr := _token_mgr s; _nb_client := _nb_client s;
     station_id := station_id s; ac_sn := ac_sn s; dc_sn := x;
     operational_modes := operational_modes s;
     smart_loads := smart_loads s;
     smart_load_id_map := smart_load_id_map s |}.

Definition set_operational_modes (x : pyval) (s : t) : t :=
  {| username := username s; _raw_password := _raw_password s;
     password := password s; base_url := base_url s;
     _token_mgr := _token_mgr s; _nb_client := _nb_client s;
     station_id := station_id s; ac_sn := ac_sn s; dc_sn := dc_sn s;
     operational_modes := x;
     smart_loads := smart_loads s;
     smart_load_id_map := smart_load_id_map s |}.

(** [x[0]]: the first element of a list, the first character of a
    string; a mapping (whose keys are strings) has no key [0]; nothing
    else can be indexed. *)
Definition first_item (x : pyval) : result pyval :=
  match x with
  | PList (a :: _) => Ok a
  | PList [] => Raise (OtherException "IndexError")
  | PStr s =>
      match characters s with
      | c :: _ => Ok (PStr c)
      | [] => Raise (OtherException "IndexError")
      end
  | PDict _ => Raise KeyError
  | PNone | PBool _ | PInt _ | PFloat _ => Raise TypeError
  end.

(** [data[key][0] if data.get(key) else None] *)
Definition first_serial (data : pyval) (key : string) : result pyval :=
  let? l := py_get data key PNone in
  if truthy l then
    let? l' := py_getitem data key in first_item l'
  else Ok PNone.

Definition not_initialized : exn :=
  RuntimeError "Northbound client not initialized. Call init_northbound() first.".

Section WithEnv.

Variable E : env.
Variable repr : pyval -> string.

Definition fetch_station_info : M t pyval :=
  s <- get ;;
  data <- on_part _token_mgr set_token_mgr
            (Endpoints.fetch_station_info E repr (base_url s)) ;;
  sid <- lift (py_getitem data "stationId") ;;
  modify (set_station_id sid) ;;
  has_ac <- lift (py_get data "hasAcCharger" PNone) ;;
  (if truthy has_ac then
     sn <- lift (first_serial data "acSnList") ;;
     modify (set_ac_sn sn)
   else ret tt) ;;
  sn <- lift (first_serial data "dcSnList") ;;
  modify (set_dc_sn sn) ;;
  ret data.

Definition fetch_operational_modes : M t pyval :=
  s <- get ;;
  modes <- on_part _token_mgr set_token_mgr
             (Endpoints.fetch_operational_modes E repr (base_url s)
                (station_id s)) ;;
  modify (set_operational_modes modes) ;;
  s' <- get ;;
  ret (operational_modes s').

Definition get_operational_modes : M t pyval :=
  s <- get ;;
  (if negb (truthy (operational_modes s))
   then _ <- fetch_operational_modes ;; ret tt
   else ret tt) ;;
  s' <- get ;;
  ret (operational_modes s').

Definition nb_query_mode : M t pyval :=
  s <- get ;;
  match _nb_client s with
  | None => raise not_initialized
  | Some nb =>
      on_part (fun _ => nb) (fun nb' => set_nb_client (Some nb'))
        (Instructions.query_mode E repr (station_id s))
  end.

End WithEnv.

End Sigen.

(* ================================================================== *)
(** * Smart loads ([smart_loads.py]) *)
(* ================================================================== *)

Module SmartLoads.

(** A request of the module: its verb, URL, headers and query
    parameters. *)
Record request : Type := mk_request {
  verb : string;
  url : string;
  headers : list (string * string);
  params : list (string * pyval)
}.

(** The objects the functions of the module share with their caller,
    the token manager and the cache of smart-load ids, with the requests
    the module has started so far, oldest first. *)
Record store : Type := mk {
  token_mgr : TokenManager.t;
  id_map : list (pyval * pyval);
  sent : list request
}.

Definition set_token_mgr (x : TokenManager.t) (s : store) : store :=
  {| token_mgr := x; id_map := id_map s; sent := sent s |}.

Definition set_id_map (x : list (pyval * pyval)) (s : store) : store :=
  {| token_mgr := token_mgr s; id_map := x; sent := sent s |}.

Definition log (r : request) (s : store) : store :=
  {| token_mgr := token_mgr s; id_map := id_map s; sent := sent s ++ [r] |}.

(** [d[k] = v] on a dict: a key that is present keeps its place, a new
    key goes last. *)
Fixpoint dict_set (d : list (string * pyval)) (k : string) (v : pyval)
    : list (string * pyval) :=
  match d with
  | [] => [ (k, v) ]
  | (k', v') :: d' =>
      if String.eqb k' k then (k', v) :: d' else (k', v') :: dict_set d' k v
  end.

(** [x[k] = v] with a string key: only a dict takes it. *)
Definition py_setitem (x : pyval) (k : string) (v : pyval) : result pyval :=
  match x with
  | PDict d => Ok (PDict (dict_set d k v))
  | _ => Raise TypeError
  end.

(** Lists and dicts cannot be keys of a dict. *)
Definition hashable (k : pyval) : bool :=
  match k with
  | PList _ | PDict _ => false
  | _ => true
  end.

Fixpoint lookup (m : list (pyval * pyval)) (k : pyval) : option pyval :=
  match m with
  | [] => None
  | (k', v) :: m' => if py_eq k' k then Some v else lookup m' k
  end.

(** [id_map.get(k)] *)
Definition map_get (m : list (pyval * pyval)) (k : pyval) : result pyval :=
  if hashable k then
    Ok (match lookup m k with Some v => v | None => PNone end)
  else Raise TypeError.

(** [id_map[k] = v] for a hashable [k] *)
Fixpoint map_set (m : list (pyval * pyval)) (k v : pyval)
    : list (pyval * pyval) :=
  match m with
  | [] => [ (k, v) ]
  | (k', v') :: m' =>
      if py_eq k' k then (k', v) :: m' else (k', v') :: map_set m' k v
  end.

(** How the three fetchers read an answer: [fallback] unless the status
    is 200, the [code] of the body is 0 and the body has [data]. *)
Definition data_or (fallback : pyval) (response : response) : result pyval :=
  if negb (status response =? 200) then Ok fallback
  else
    let? body := json response in
    let? code := py_get body "code" PNone in
    if negb (py_eq_int code 0) then Ok fallback
    else
      let? has_data := py_contains body "data" in
      if negb has_data then Ok fallback
      else py_getitem body "data".

(** [if consumption.get(key): load[key] = consumption[key]] *)
Definition copy_if_set (consumption : pyval) (key : string) (load : pyval)
    : result pyval :=
  let? v := py_get consumption key PNone in
  if truthy v then
    let? v' := py_getitem consumption key in
    py_setitem load key v'
  else Ok load.

Definition list_request (repr : pyval -> string) (base_url : string)
    (station_id : pyval) (s : store) : request :=
  {| verb := "GET";
     url := base_url ++ "device/system/device/systemDevice/card";
     headers := TokenManager.headers repr (token_mgr s);
     params := [ ("stationId", station_id);
                 ("showNewGenerator", PStr "true") ] |}.

Definition details_request (repr : pyval -> string) (base_url : string)
    (station_id load_path : pyval) (s : store) : request :=
  {| verb := "GET";
     url := base_url ++ "device/tp-device/smart-loads";
     headers := TokenManager.headers repr (token_mgr s);
     params := [ ("stationId", station_id); ("loadPath", load_path) ] |}.

Definition consumption_request (repr : pyval -> string) (base_url : string)
    (station_id load_path smart_load_id : pyval) (s : store) : request :=
  {| verb := "GET";
     url := base_url
            ++ "data-process/sigen/station/statistics/real-time-consumption";
     headers := TokenManager.headers repr (token_mgr s);
     params := [ ("stationId", station_id); ("loadPath", load_path);
                 ("smartLoadId", smart_load_id) ] |}.

Definition switch_request (repr : pyval -> string) (base_url : string)
    (station_id load_path state : pyval) (s : store) : request :=
  {| verb := "PATCH";
     url := base_url
            ++ "device/tp-device/smart-loads/control-mode/manual/switch"
            ++ "?stationId=" ++ py_str repr station_id
            ++ "&loadPath=" ++ py_str repr load_path
            ++ "&manualSwitch=" ++ py_str repr state;
     headers := TokenManager.headers repr (token_mgr s);
     params := [] |}.

Section WithEnv.

Variable E : env.
Variable repr : pyval -> string.

(** [async with session.get(...)] or [session.patch(...)]: the request
    is started, the task waits for the answer. *)
Definition session_request (r : request) : M store response :=
  modify (log r) ;;
  t <- suspend E ;;
  lift (env_http E t).

Definition ensure_valid_token (base_url : string) : M store unit :=
  on_part token_mgr set_token_mgr (TokenManager.ensure_valid_token E base_url).

Definition fetch_smart_load_list (base_url : string) (station_id : pyval)
    : M store pyval :=
  ensure_valid_token base_url ;;
  s <- get ;;
  response <- session_request (list_request repr base_url station_id s) ;;
  lift (data_or (PList []) response).

Definition fetch_smart_load_details (base_url : string)
    (station_id load_path : pyval) : M store pyval :=
  s <- get ;;
  response <- session_request
                (details_request repr base_url station_id load_path s) ;;
  lift (data_or PNone response).

Definition fetch_smart_load_consumption (base_url : string)
    (station_id load_path smart_load_id : pyval) : M store pyval :=
  s <- get ;;
  response <- session_request
                (consumption_request repr base_url station_id load_path
                   smart_load_id s) ;;
  lift (data_or (PDict []) response).

(** The first [try] of the loop of [get_smart_loads_with_consumption],
    entered when the cache has no id for the path: the id the details
    give, which is then cached, or [None]. *)
Definition resolve_id (base_url : string) (station_id load_path : pyval)
    : M store pyval :=
  try_except
    (details <- fetch_smart_load_details base_url station_id load_path ;;
     if truthy details then
       smart_load_id <- lift (py_get details "smartLoadId" PNone) ;;
       match smart_load_id with
       | PNone => ret PNone
       | _ =>
           modify (fun s => set_id_map (map_set (id_map s) load_path
                                          smart_load_id) s) ;;
           ret smart_load_id
       end
     else ret PNone)
    (fun e => if is_Exception e then ret PNone else raise e).

(** The second [try] of the loop.  The three copies fail only on a
    [consumption] that is not a mapping, and then at the first of them,
    before the load is written to: the load that the handler sees is
    the load as it was. *)
Definition add_consumption (base_url : string)
    (station_id load_path smart_load_id load : pyval) : M store pyval :=
  try_except
    (consumption <- fetch_smart_load_consumption base_url station_id
                      load_path smart_load_id ;;
     l1 <- lift (copy_if_set consumption "todayConsumption" load) ;;
     l2 <- lift (copy_if_set consumption "monthConsumption" l1) ;;
     lift (copy_if_set consumption "lifetimeConsumption" l2))
    (fun e => if is_Exception e then ret load else raise e).

(** The body of [for load in smart_loads], giving the load as the body
    leaves it.  The name of the load is read for the log lines only. *)
Definition enrich (base_url : string) (station_id load : pyval)
    : M store pyval :=
  l1 <- lift (py_setitem load "todayConsumption" (PStr "0.00 kWh")) ;;
  l2 <- lift (py_setitem l1 "monthConsumption" (PStr "0.00 kWh")) ;;
  l3 <- lift (py_setitem l2 "lifetimeConsumption" (PStr "0.00 kWh")) ;;
  has_path <- lift (py_contains l3 "path") ;;
  if negb has_path then ret l3
  else
    load_path <- lift (py_getitem l3 "path") ;;
    s <- get ;;
    cached <- lift (map_get (id_map s) load_path) ;;
    smart_load_id <- match cached with
                     | PNone => resolve_id base_url station_id load_path
                     | _ => ret cached
                     end ;;
    match smart_load_id with
    | PNone => ret l3
    | _ =>
        l4 <- lift (py_setitem l3 "smartLoadId" smart_load_id) ;;
        add_consumption base_url station_id load_path smart_load_id l4
    end.

Fixpoint enrich_all (base_url : string) (station_id : pyval)
    (loads : list pyval) : M store (list pyval) :=
  match loads with
  | [] => ret []
  | load :: rest =>
      l <- enrich base_url station_id load ;;
      ls <- enrich_all base_url station_id rest ;;
      ret (l :: ls)
  end.

(** The loads of the answer, each as the loop left it; the id map that
    the source returns beside them is the [id_map] of the store. *)
Definition get_smart_loads_with_consumption (base_url : string)
    (station_id : pyval) : M store pyval :=
  ensure_valid_token base_url ;;
  smart_loads <- fetch_smart_load_list base_url station_id ;;
  loads <- lift (py_iter smart_loads) ;;
  enriched <- enrich_all base_url station_id loads ;;
  ret (match smart_loads with
       | PList _ => PList enriched
       | _ => smart_loads
       end).

Definition set_smart_load_state (base_url : string)
    (station_id load_path state : pyval) : M store pyval :=
  if negb (py_eq state (PInt 0) || py_eq state (PInt 1))%bool
  then raise ValueError
  else
    ensure_valid_token base_url ;;
    s <- get ;;
    response <- session_request
                  (switch_request repr base_url station_id load_path state
                     s) ;;
    lift (json response).

End WithEnv.

End SmartLoads.

(** Station data with every key that is logged but [batteryCapacity]. *)
Definition partial_station : pyval :=
  PDict [ ("stationId", PInt 7); ("hasPv", PBool true); ("hasEv", PBool false);
          ("hasAcCharger", PBool false); ("acSnList", PList [ PStr "AC1" ]);
          ("dcSnList", PList []); ("onGrid", PBool true);
          ("pvCapacity", PFloat 10) ].

(** Complete station data: no AC charger, although an AC serial is
    listed, and no DC serial. *)
Definition example_station : pyval :=
  PDict [ ("stationId", PInt 7); ("hasPv", PBool true); ("hasEv", PBool false);
          ("hasAcCharger", PBool false); ("acSnList", PList [ PStr "AC1" ]);
          ("dcSnList", PList []); ("onGrid", PBool true);
          ("pvCapacity", PFloat 10); ("batteryCapacity", PFloat 8) ].

(** Complete station data with an AC charger, one AC serial and two DC
    serials. *)
Definition charger_station : pyval :=
  PDict [ ("stationId", PInt 8); ("hasPv", PBool true); ("hasEv", PBool true);
          ("hasAcCharger", PBool true); ("acSnList", PList [ PStr "AC1" ]);
          ("dcSnList", PList [ PStr "DC1"; PStr "DC2" ]); ("onGrid", PBool true);
          ("pvCapacity", PFloat 10); ("batteryCapacity", PFloat 8) ].

(** An outside world whose every HTTP exchange answers 200 with [data]
    under [data]. *)
Definition data_env (data : pyval) : env :=
  answer_env 200 (PDict [ ("code", PInt 0); ("data", data) ])
    (fun _ => Raise JSONDecodeError).

(** A client that is logged in, knows its station, its serials and its
    modes, and has no northbound client. *)
Definition example_client : Sigen.t :=
  {| Sigen.username := "user@example.com";
     Sigen._raw_password := "secret";
     Sigen.password := "c2VjcmV0";
     Sigen.base_url := "https://api-eu.sigencloud.com/";
     Sigen._token_mgr := logged_in_store;
     Sigen._nb_client := None;
     Sigen.station_id := PInt 7;
     Sigen.ac_sn := PStr "AC0";
     Sigen.dc_sn := PStr "DC0";
     Sigen.operational_modes := example_modes;
     Sigen.smart_loads := PList [];
     Sigen.smart_load_id_map := [] |}.

(** The request of [query_mode]. *)
Definition query_mode_request (repr : pyval -> string) (base_url : string)
    (system_id token : pyval) : event :=
  EHttpGet (base_url ++ "openapi/instruction/" ++ py_str repr system_id
            ++ "/settings")
    [ ("Authorization", "Bearer " ++ py_str repr token) ].

(** A load as [get_smart_loads_with_consumption] returns it: a mapping
    that has the three consumption keys. *)
Definition has_consumption (load : pyval) : bool :=
  match load with
  | PDict d =>
      (dict_has d "todayConsumption" && dict_has d "monthConsumption" &&
       dict_has d "lifetimeConsumption")%bool
  | _ => false
  end.

(** Every id that the cache [m] knows is known to [m'], unchanged. *)
Definition keeps (m m' : list (pyval * pyval)) : Prop :=
  forall k v,
    SmartLoads.lookup m k = Some v -> v <> PNone ->
    SmartLoads.lookup m' k = Some v.

(** A store of the smart-load functions: logged in, the id 501 cached for
    the load path 3, nothing sent yet. *)
Definition example_store : SmartLoads.store :=
  {| SmartLoads.token_mgr := logged_in_store;
     SmartLoads.id_map := [ (PInt 3, PInt 501) ];
     SmartLoads.sent := [] |}.

(** The same store once the password grant has given it tokens that
    expire at 5000 s. *)
Definition granted_store : SmartLoads.store :=
  {| SmartLoads.token_mgr :=
       TokenManager.mk (PStr "A1") (PStr "R1") (Some 5000%float);
     SmartLoads.id_map := [ (PInt 3, PInt 501) ];
     SmartLoads.sent := [] |}.

(** A load on path 3. *)
Definition example_load : pyval :=
  PDict [ ("name", PStr "Boiler"); ("path", PInt 3) ].

(** An outside world that answers every request of the smart-load
    functions with a list of one load, the example load. *)
Definition one_load_env : env := data_env (PList [ example_load ]).

(* ================================================================== *)
(** * Telemetry decoder: properties *)
(* ================================================================== *)

Section DecoderFacts.

Import TelemetryData.

Lemma float_of_int_answers (z : Z) :
  (exists f, float_of_int z = Ok f) \/ float_of_int z = Raise OverflowError.
Proof.
  unfold float_of_int.
  destruct (binary_normalize prec emax z 0 false); eauto.
Qed.

Lemma float_of_str_answers (s : string) :
  (exists f, float_of_str s = Ok f) \/ float_of_str s = Raise ValueError.
Proof.
  unfold float_of_str.
  destruct (ascii_of_text s) as [s'|]; [|eauto].
  unfold float_of_ascii.
  destruct (take_sign (rstrip (lstrip s'))) as [neg body].
  destruct (String.eqb (lowercase body) "inf" || String.eqb (lowercase body) "infinity")%bool;
    [eauto|].
  destruct (String.eqb (lowercase body) "nan"); [eauto|].
  destruct (decimal_number body) as [[m e10]|]; eauto.
Qed.

(** [_float] on a mapping answers with a float unless the field is an
    out-of-range [int], and answers with the default on a defaulted
    field. *)
Lemma _float_on_mapping (values : list (string * pyval)) (key : string)
    (default : float) :
  match assoc values key with
  | Some (PInt z) => exists f, float_of_int z = Ok f
  | _ => True
  end ->
  exists x, _float (PDict values) key default = Ok x /\
            (defaulted values key = true -> x = default).
Proof.
  unfold _float, defaulted, py_get, dict_get_default, rbind.
  destruct (assoc values key) as [v|]; [|eauto].
  destruct v as [ |b|z|f|s|l|d]; simpl; intros H.
  - eauto.
  - eexists; split; [reflexivity|discriminate].
  - destruct H as [f Hf]. rewrite Hf. eexists; split; [reflexivity|discriminate].
  - eexists; split; [reflexivity|discriminate].
  - destruct (float_of_str_answers s) as [[f Hf]|Hf]; rewrite Hf; simpl.
    + eexists; split; [reflexivity|discriminate].
    + eauto.
  - eauto.
  - eauto.
Qed.

(** A field whose value [float] converts is read as that float. *)
Lemma _float_converted (values : list (string * pyval)) (key : string)
    (default : float) (v : pyval) (x : float) :
  assoc values key = Some v ->
  py_float v = Ok x ->
  _float (PDict values) key default = Ok x.
Proof.
  intros Hv Hx. unfold _float, py_get, dict_get_default, rbind.
  rewrite Hv. destruct v; try discriminate Hx; rewrite Hx; reflexivity.
Qed.

Lemma ints_in_range_at (values : list (string * pyval)) (key : string) :
  ints_in_range values = true ->
  In key expected_fields ->
  match assoc values key with
  | Some (PInt z) => exists f, float_of_int z = Ok f
  | _ => True
  end.
Proof.
  unfold ints_in_range. rewrite forallb_forall. intros H Hin.
  specialize (H key Hin).
  destruct (assoc values key) as [[ |b|z|f|s|l|d]|]; trivial.
  destruct (float_of_int z); [eauto|discriminate|discriminate].
Qed.

End DecoderFacts.

(** C5: the documented example entry decodes to pv 1.2 kW, battery 0.5 kW
    (discharging), state of charge 87.5, grid -0.3 kW (exporting) and load
    0.9 kW; and whatever floats the five fields hold, every watt field is
    divided by 1000 and the battery field is negated before that. *)
Theorem decode_example_entry :
  TelemetryData.from_mqtt_payload example_entry =
    Ok {| TelemetryData.timestamp := PStr "t1";
          TelemetryData.system_id := PStr "S1";
          TelemetryData.device_type := PStr "ESS";
          TelemetryData.pv_power_kw := 1.2;
          TelemetryData.battery_power_kw := 0.5;
          TelemetryData.soc_percent := 87.5;
          TelemetryData.grid_power_kw := -0.3;
          TelemetryData.load_power_kw := 0.9;
          TelemetryData.raw :=
            PDict [ ("pvPowerW", PStr "1200");
                    ("storageChargeDischargePowerW", PStr "-500");
                    ("storageSOC%", PStr "87.5");
                    ("gridActivePowerW", PStr "-300");
                    ("loadActivePowerW", PStr "900") ] |}
  /\ forall (ts sid dt : pyval) (pv battery soc grid load : float),
       TelemetryData.from_mqtt_payload
         (PDict [ ("statisticsTime", ts); ("systemId", sid);
                  ("deviceType", dt);
                  ("value", numeric_values pv battery soc grid load) ]) =
       Ok {| TelemetryData.timestamp := ts;
             TelemetryData.system_id := sid;
             TelemetryData.device_type := dt;
             TelemetryData.pv_power_kw := pv / 1000;
             TelemetryData.battery_power_kw := - battery / 1000;
             TelemetryData.soc_percent := soc;
             TelemetryData.grid_power_kw := grid / 1000;
             TelemetryData.load_power_kw := load / 1000;
             TelemetryData.raw := numeric_values pv battery soc grid load |}.
Proof.
  split.
  - vm_compute. reflexivity.
  - intros. reflexivity.
Qed.

(** An entry whose [value] member is [null] makes the decoder raise. *)
Lemma decode_raises_on_null_value :
  TelemetryData.from_mqtt_payload (PDict [ ("value", PNone) ]) =
    Raise AttributeError.
Proof. reflexivity. Qed.

(** C6 (amended): on an entry that is a mapping whose [value] member is
    absent or a mapping, and none of whose expected fields is an integer
    beyond the float range, the decoder returns a record.  Each numeric
    field of the record depends on the value under its own key only: a
    value that is absent, [None] or not convertible by [float] is read as
    the default 0.0, so that the kW fields are 0.0 (and the negated
    battery field -0.0); a value that [float] converts to [x] gives [x]
    for the state of charge, [x / 1000] for the kW fields and
    [- x / 1000] for the battery. *)
Theorem decode_defaults_on_mapping
    (entry values : list (string * pyval)) :
  dict_get_default entry "value" (PDict []) = PDict values ->
  ints_in_range values = true ->
  exists r : TelemetryData.t,
    TelemetryData.from_mqtt_payload (PDict entry) = Ok r /\
    TelemetryData.raw r = PDict values /\
    (defaulted values "pvPowerW" = true ->
       TelemetryData.pv_power_kw r = 0%float) /\
    (defaulted values "storageChargeDischargePowerW" = true ->
       TelemetryData.battery_power_kw r = (-0)%float) /\
    (defaulted values "storageSOC%" = true ->
       TelemetryData.soc_percent r = 0%float) /\
    (defaulted values "gridActivePowerW" = true ->
       TelemetryData.grid_power_kw r = 0%float) /\
    (defaulted values "loadActivePowerW" = true ->
       TelemetryData.load_power_kw r = 0%float) /\
    (forall v x, assoc values "pvPowerW" = Some v -> py_float v = Ok x ->
       TelemetryData.pv_power_kw r = (x / 1000)%float) /\
    (forall v x, assoc values "storageChargeDischargePowerW" = Some v ->
       py_float v = Ok x ->
       TelemetryData.battery_power_kw r = (- x / 1000)%float) /\
    (forall v x, assoc values "storageSOC%" = Some v -> py_float v = Ok x ->
       TelemetryData.soc_percent r = x) /\
    (forall v x, assoc values "gridActivePowerW" = Some v -> py_float v = Ok x ->
       TelemetryData.grid_power_kw r = (x / 1000)%float) /\
    (forall v x, assoc values "loadActivePowerW" = Some v -> py_float v = Ok x ->
       TelemetryData.load_power_kw r = (x / 1000)%float).
Proof.
  intros Hvalue Hrange.
  assert (Hf : forall key, In key expected_fields ->
            exists x, TelemetryData._float (PDict values) key 0 = Ok x /\
                      (defaulted values key = true -> x = 0%float)).
  { intros key Hin. apply _float_on_mapping.
    apply ints_in_range_at; assumption. }
  assert (Hc : forall key v x y,
            TelemetryData._float (PDict values) key 0 = Ok y ->
            assoc values key = Some v -> py_float v = Ok x -> y = x).
  { intros key v x y Hy Hv Hx.
    rewrite (_float_converted values key 0 v x Hv Hx) in Hy.
    injection Hy as <-. reflexivity. }
  destruct (Hf "storageChargeDischargePowerW") as (b & Hb & Db); [simpl; tauto|].
  destruct (Hf "pvPowerW") as (pv & Hpv & Dpv); [simpl; tauto|].
  destruct (Hf "storageSOC%") as (soc & Hsoc & Dsoc); [simpl; tauto|].
  destruct (Hf "gridActivePowerW") as (g & Hg & Dg); [simpl; tauto|].
  destruct (Hf "loadActivePowerW") as (l & Hl & Dl); [simpl; tauto|].
  unfold TelemetryData.from_mqtt_payload.
  unfold py_get at 1. rewrite Hvalue. unfold rbind at 1.
  rewrite Hb, Hpv, Hsoc, Hg, Hl. simpl.
  eexists. split; [reflexivity|]. simpl.
  repeat split.
  - intros D. rewrite (Dpv D). reflexivity.
  - intros D. rewrite (Db D). reflexivity.
  - intros D. rewrite (Dsoc D). reflexivity.
  - intros D. rewrite (Dg D). reflexivity.
  - intros D. rewrite (Dl D). reflexivity.
  - intros v x Hv Hx. rewrite (Hc _ v x pv Hpv Hv Hx). reflexivity.
  - intros v x Hv Hx. rewrite (Hc _ v x b Hb Hv Hx). reflexivity.
  - intros v x Hv Hx. exact (Hc _ v x soc Hsoc Hv Hx).
  - intros v x Hv Hx. rewrite (Hc _ v x g Hg Hv Hx). reflexivity.
  - intros v x Hv Hx. rewrite (Hc _ v x l Hl Hv Hx). reflexivity.
Qed.

(** An entry without [pvPowerW], with a [gridActivePowerW] that is not a
    number, a load given as text and a state of charge given as text
    after a no-break space decodes: the first two are 0.0, the load is
    0.9 kW and the state of charge 87.5. *)
Lemma decode_defaults_on_mapping_witness :
  exists r : TelemetryData.t,
    TelemetryData.from_mqtt_payload
      (PDict [ ("systemId", PStr "S1");
               ("value", PDict [ ("gridActivePowerW", PStr "n/a");
                                 ("loadActivePowerW", PStr "900");
                                 ("storageSOC%", PStr (nbsp ++ "87.5")) ]) ])
      = Ok r /\
    TelemetryData.pv_power_kw r = 0%float /\
    TelemetryData.grid_power_kw r = 0%float /\
    TelemetryData.load_power_kw r = 0.9%float /\
    TelemetryData.soc_percent r = 87.5%float.
Proof.
  destruct (decode_defaults_on_mapping
              [ ("systemId", PStr "S1");
                ("value", PDict [ ("gridActivePowerW", PStr "n/a");
                                  ("loadActivePowerW", PStr "900");
                                  ("storageSOC%", PStr (nbsp ++ "87.5")) ]) ]
              [ ("gridActivePowerW", PStr "n/a");
                ("loadActivePowerW", PStr "900");
                ("storageSOC%", PStr (nbsp ++ "87.5")) ]
              eq_refl eq_refl)
    as (r & Hr & _ & Hpv & _ & _ & Hgrid & _ & _ & _ & Hsoc & _ & Hload).
  exists r. split; [exact Hr|].
  split; [apply Hpv; reflexivity|].
  split; [apply Hgrid; reflexivity|].
  split.
  - rewrite (Hload (PStr "900") 900%float eq_refl); vm_compute; reflexivity.
  - apply (Hsoc (PStr (nbsp ++ "87.5")) 87.5%float eq_refl).
    vm_compute. reflexivity.
Defined.

(* ================================================================== *)
(** * Auth headers and operational modes: properties *)
(* ================================================================== *)

(** C10: [headers] never looks whether a token is there.  For every state
    it is the two-entry mapping of [Authorization] to ["Bearer "] followed
    by [str(access_token)] and of [Content-Type] to ["application/json"];
    with no token installed the [Authorization] value is the literal
    ["Bearer None"], and a request made from a fresh token manager goes on
    the wire with exactly these headers. *)
Theorem headers_without_guard (repr : pyval -> string) :
  (forall s : TokenManager.t,
     TokenManager.headers repr s =
       [ ("Authorization", "Bearer " ++ py_str repr (TokenManager.access_token s));
         ("Content-Type", "application/json") ]) /\
  (forall (r : pyval) (x : option float),
     TokenManager.headers repr (TokenManager.mk PNone r x) =
       [ ("Authorization", "Bearer None");
         ("Content-Type", "application/json") ]) /\
  (forall (E : env) (base_url station_id : string) (cached_modes : pyval)
          (w : world),
     exists (r : result pyval) (w' : world),
       Modes.get_current_operational_mode E repr base_url station_id
         cached_modes TokenManager.init w = (r, TokenManager.init, w') /\
       trace w' =
         (trace w ++
          [ EHttpGet (base_url ++ "device/energy-profile/mode/current/" ++ station_id)
              [ ("Authorization", "Bearer None");
                ("Content-Type", "application/json") ] ])%list).
Proof.
  split; [reflexivity|]. split; [reflexivity|].
  intros E base_url station_id cached_modes w.
  unfold Modes.get_current_operational_mode, TokenManager.ensure_valid_token,
    session_get, suspend, next_tick, emit, bind, get, ret, raise, lift.
  simpl.
  destruct (env_cancel E (tick w)); simpl; [eauto|].
  destruct (env_http E (tick w)) as [resp|e|]; simpl; eauto.
  destruct (json resp) as [body|e|]; simpl; eauto.
  destruct (py_getitem body "data") as [rd|e|]; simpl; eauto.
Qed.

Section ModeFacts.

Lemma getitem_field (m : pyval) (key out : string) :
  has_fields key out m = true ->
  py_getitem m key = Ok (field m key) /\ py_getitem m out = Ok (field m out).
Proof.
  destruct m; simpl; try discriminate.
  unfold dict_has, dict_get. intros H.
  apply andb_true_iff in H as [H1 H2].
  destruct (assoc d key); [|discriminate].
  destruct (assoc d out); [|discriminate].
  split; reflexivity.
Qed.

(** The loop of [get_current_operational_mode] returns what a search for
    the first matching element returns. *)
Lemma first_match_find (modes : list pyval) (key out : string) (wanted : pyval) :
  forallb (has_fields key out) modes = true ->
  Modes.first_match modes key wanted out =
    Ok (option_map (fun m => field m out)
          (find (fun m => py_eq (field m key) wanted) modes)).
Proof.
  induction modes as [|m modes IH]; simpl; [reflexivity|].
  intros H. apply andb_true_iff in H as [Hm Hrest].
  destruct (getitem_field m key out Hm) as [Hk Ho].
  rewrite Hk. simpl.
  destruct (py_eq (field m key) wanted).
  - rewrite Ho. reflexivity.
  - apply IH, Hrest.
Qed.

End ModeFacts.

(** C9: the label of the current mode is looked up by the mode value.
    Once the token is ensured and the response read, a mode other than 9
    gives the [label] of the first cached default working mode whose
    [value] equals [str(currentMode)]; mode 9 gives the [name] of the first
    cached energy-profile item whose [profileId] equals the current profile
    id; the other list is not read; without a match the answer is
    ["Unknown mode"]. *)
Theorem current_mode_dispatch (E : env) (repr : pyval -> string)
    (base_url station_id : string) (s s1 : TokenManager.t) (w w1 w2 : world)
    (resp : response)
    (body response_data cached_modes current_mode current_profile_id container : pyval)
    (modes : list pyval) :
  let custom := py_eq_int current_mode 9 in
  let list_key := if custom then "energyProfileItems" else "defaultWorkingModes" in
  let key := if custom then "profileId" else "value" in
  let out := if custom then "name" else "label" in
  let wanted := if custom then current_profile_id
                else PStr (py_str repr current_mode) in
  TokenManager.ensure_valid_token E base_url s w = (Ok tt, s1, w1) ->
  session_get E (base_url ++ "device/energy-profile/mode/current/" ++ station_id)
    (TokenManager.headers repr s1) s1 w1 = (Ok resp, s1, w2) ->
  json resp = Ok body ->
  py_getitem body "data" = Ok response_data ->
  py_getitem response_data "currentMode" = Ok current_mode ->
  py_getitem response_data "currentProfileId" = Ok current_profile_id ->
  py_getitem cached_modes list_key = Ok container ->
  py_iter container = Ok modes ->
  forallb (has_fields key out) modes = true ->
  Modes.get_current_operational_mode E repr base_url station_id cached_modes s w =
    (Ok (match find (fun m => py_eq (field m key) wanted) modes with
         | Some m => field m out
         | None => PStr "Unknown mode"
         end), s1, w2).
Proof.
  intros custom list_key key out wanted Hensure Hget Hjson Hdata Hmode Hpid
    Hlist Hiter Hfields.
  assert (Hlabel : Modes.current_mode_label repr response_data cached_modes =
                   Ok (match find (fun m => py_eq (field m key) wanted) modes with
                       | Some m => field m out
                       | None => PStr "Unknown mode"
                       end)).
  { unfold Modes.current_mode_label.
    rewrite Hmode, Hpid. simpl.
    subst list_key key out wanted custom.
    destruct (py_eq_int current_mode 9); simpl;
      rewrite Hlist; simpl; rewrite Hiter; simpl;
      rewrite (first_match_find _ _ _ _ Hfields); simpl;
      match goal with |- context [find ?f ?l] => destruct (find f l) end;
      reflexivity. }
  unfold Modes.get_current_operational_mode, bind, get, lift.
  rewrite Hensure, Hget, Hjson, Hdata, Hlabel. reflexivity.
Qed.

(** Mode 5 is found by its value, mode 9 by the profile id, and mode 7,
    which is not cached, is unknown. *)
Lemma current_mode_dispatch_witness :
  let answer mode :=
    fst (fst (Modes.get_current_operational_mode (mode_env mode 42)
                (fun _ => "") "https://api-eu.sigencloud.com/" "ST1"
                example_modes logged_in_store start)) in
  answer 5 = Ok (PStr "Fully Feed-in to Grid") /\
  answer 9 = Ok (PStr "Summer") /\
  answer 7 = Ok (PStr "Unknown mode").
Proof.
  assert (H : forall mode : Z,
            let custom := py_eq_int (PInt mode) 9 in
            let list_key := if custom then "energyProfileItems"
                            else "defaultWorkingModes" in
            let key := if custom then "profileId" else "value" in
            let out := if custom then "name" else "label" in
            forall container modes,
              py_getitem example_modes list_key = Ok container ->
              py_iter container = Ok modes ->
              forallb (has_fields key out) modes = true ->
              fst (fst (Modes.get_current_operational_mode (mode_env mode 42)
                          (fun _ => "") "https://api-eu.sigencloud.com/" "ST1"
                          example_modes logged_in_store start)) =
                Ok (match find (fun m =>
                                  py_eq (field m key)
                                    (if custom then PInt 42
                                     else PStr (py_str (fun _ => "") (PInt mode))))
                            modes with
                    | Some m => field m out
                    | None => PStr "Unknown mode"
                    end)).
  { intros mode custom list_key key out container modes Hlist Hiter Hfields.
    erewrite (current_mode_dispatch (mode_env mode 42) (fun _ => "")
                "https://api-eu.sigencloud.com/" "ST1"
                logged_in_store logged_in_store start start _ _ _ _
                example_modes (PInt mode) (PInt 42) container modes
                eq_refl eq_refl eq_refl eq_refl eq_refl eq_refl Hlist Hiter Hfields).
    reflexivity. }
  cbv zeta. split; [|split].
  - apply (H 5 _ _ eq_refl eq_refl eq_refl).
  - apply (H 9 _ _ eq_refl eq_refl eq_refl).
  - apply (H 7 _ _ eq_refl eq_refl eq_refl).
Defined.

(* ================================================================== *)
(** * Token validity: properties *)
(* ================================================================== *)

Ltac coro_unfold :=
  unfold session_post, session_get, perform, call, asyncio_sleep, time_time,
    suspend, next_tick, emit, on_part, try_except, bind, get, modify, ret,
    raise, lift in *.

Section FloatOrder.




End FloatOrder.




Lemma accept_login_keeps_trace (E : env) (resp : response)
    (s : NorthboundClient.t) (w : world) :
  trace (snd (NorthboundClient.accept_login E resp s w)) = trace w.
Proof.
  unfold NorthboundClient.accept_login. coro_unfold.
  destruct (json resp) as [body|e|]; simpl; try reflexivity.
  destruct (py_get body "code" PNone) as [code|e|]; simpl; try reflexivity.
  destruct (negb (py_eq_int code 0)); simpl; [reflexivity|].
  destruct (py_get body "data" (PStr "{}")) as [ds|e|]; simpl; try reflexivity.
  assert (Hrest : forall data,
            trace (snd
              ((a <- lift (py_getitem data "accessToken") ;;
                modify (NorthboundClient.set_access_token a) ;;
                now <- time_time E ;;
                x <- lift (py_get data "expiresIn" (PInt 43199)) ;;
                expiry <- lift (py_float_add now x) ;;
                modify (NorthboundClient.set_token_expiry (Some expiry)) ;;
                s' <- get ;;
                ret (NorthboundClient.access_token s')) s w)) = trace w).
  { intros data. coro_unfold.
    destruct (py_getitem data "accessToken"); simpl; try reflexivity.
    destruct (py_get data "expiresIn" (PInt 43199)); simpl; try reflexivity.
    destruct (py_float_add _ _); reflexivity. }
  coro_unfold.
  destruct ds as [ |b|z|f|str|l|d];
    try exact (Hrest PNone); try exact (Hrest (PBool b));
    try exact (Hrest (PInt z)); try exact (Hrest (PFloat f));
    try exact (Hrest (PList l)); try exact (Hrest (PDict d)).
  destruct (json_loads E str) as [data|e|]; try reflexivity.
  exact (Hrest data).
Qed.

(** The login that [ensure_token] runs on a stale store. *)
Lemma relogin_trace (E : env) (s : NorthboundClient.t) (w : world) :
  exists url payload,
    trace (snd (NorthboundClient.relogin E s w)) =
      (trace w ++ [ EHttpPost url payload ])%list.
Proof.
  unfold NorthboundClient.relogin, NorthboundClient.login_with_key,
    NorthboundClient.login.
  unfold session_post, suspend, next_tick, emit, bind at 1 2, get.
  destruct (NorthboundClient._app_key s) as [[k sec]|] eqn:Hk; simpl;
    try rewrite Hk; simpl;
    do 2 eexists;
    unfold bind, ret, raise, lift; simpl;
    (destruct (env_cancel E (tick w)); simpl; [reflexivity|]);
    (destruct (env_http E (tick w)) as [resp|e|]; simpl; try reflexivity);
    apply accept_login_keeps_trace.
Qed.




(* ================================================================== *)
(** * Token installation: properties *)
(* ================================================================== *)

(** [install] raises neither of the two authentication errors. *)
Lemma install_raises_no_auth_error (E : env) (response_data : pyval)
    (s s' : TokenManager.t) (w w' : world) (e : exn) :
  TokenManager.install E response_data s w = (Raise e, s', w') ->
  e <> SigenAuthError /\ e <> SigenTokenExpiredError.
Proof.
  unfold TokenManager.install. coro_unfold.
  unfold py_getitem, py_float_add, float_of_int, rbind.
  destruct response_data; simpl; try (intros [= <- _ _]; split; discriminate).
  destruct (assoc d "access_token"); simpl; try (intros [= <- _ _]; split; discriminate).
  destruct (assoc d "refresh_token"); simpl; try (intros [= <- _ _]; split; discriminate).
  destruct (assoc d "expires_in") as [x|]; simpl; try (intros [= <- _ _]; split; discriminate).
  destruct x; simpl; try (intros [= <- _ _]; split; discriminate).
  destruct (binary_normalize prec emax z 0 false); simpl;
    try (intros [= <- _ _]; split; discriminate); discriminate.
Qed.

(** When [get_access_token] raises [SigenAuthError], or
    [refresh_access_token] raises [SigenTokenExpiredError], no field of the
    store has changed. *)
Lemma rejected_response_keeps_store (E : env) (url user pw : string)
    (s s' : TokenManager.t) (w w' : world) :
  (TokenManager.get_access_token E url user pw s w = (Raise SigenAuthError, s', w') ->
   s' = s) /\
  (TokenManager.refresh_access_token E url s w = (Raise SigenTokenExpiredError, s', w') ->
   s' = s).
Proof.
  unfold TokenManager.get_access_token, TokenManager.refresh_access_token.
  unfold session_post, response_text, suspend, next_tick, emit, bind, get, ret,
    raise, lift.
  simpl.
  destruct (env_cancel E (tick w)); simpl; [split; congruence|].
  destruct (env_http E (tick w)) as [resp|e|]; simpl; try (split; congruence).
  split.
  - destruct (status resp =? 401); simpl;
      [destruct (env_cancel E (S (tick w))); simpl;
       [congruence|destruct (env_io E (S (tick w))); simpl; congruence]|].
    destruct (negb (status resp =? 200)); simpl;
      [destruct (env_cancel E (S (tick w))); simpl;
       [congruence|destruct (env_io E (S (tick w))); simpl; congruence]|].
    destruct (json resp) as [body|e|]; simpl; try congruence.
    destruct (py_get body "data" PNone) as [rd|e|]; simpl; try congruence.
    destruct (TokenManager.response_incomplete rd) as [[|]|e|]; simpl; try congruence.
    intros H. apply install_raises_no_auth_error in H. tauto.
  - destruct (negb (status resp =? 200)); simpl;
      [destruct (env_cancel E (S (tick w))); simpl;
       [congruence|destruct (env_io E (S (tick w))); simpl; congruence]|].
    destruct (json resp) as [body|e|]; simpl; try congruence.
    destruct (py_get body "data" PNone) as [rd|e|]; simpl; try congruence.
    destruct (TokenManager.response_incomplete rd) as [[|]|e|]; simpl; try congruence.
    intros H. apply install_raises_no_auth_error in H. tauto.
Qed.

(** C4 (the code at the failing input): a 200 response whose [expires_in]
    is a string passes the completeness test; both [refresh_access_token]
    and [get_access_token] then store the new access and refresh tokens,
    and raise [TypeError] on the addition that computes the expiry, which
    keeps its old value. *)
Theorem token_installation_is_not_atomic :
  (exists w',
     TokenManager.refresh_access_token text_expiry_env
       "https://api-eu.sigencloud.com/" expired_store start =
       (Raise TypeError,
        TokenManager.mk (PStr "A2") (PStr "R2") (Some 500%float), w')) /\
  (exists w',
     TokenManager.get_access_token text_expiry_env
       "https://api-eu.sigencloud.com/" "user@example.com" "pw" expired_store start =
       (Raise TypeError,
        TokenManager.mk (PStr "A2") (PStr "R2") (Some 500%float), w')).
Proof.
  split; eexists; vm_compute; reflexivity.
Qed.

(* ================================================================== *)
(** * Stream session: tokens and outbound commands *)
(* ================================================================== *)

Section TokenFrame.

Variable E : env.

(** [NorthboundClient.ensure_token] adds at most HTTP posts to the trace
    and answers with the token the client then holds. *)
Lemma nb_ensure_token_frame (s : NorthboundClient.t) (w : world) :
  exists evs,
    trace (snd (NorthboundClient.ensure_token E s w)) = (trace w ++ evs)%list /\
    Forall is_http evs /\
    forall tok,
      fst (fst (NorthboundClient.ensure_token E s w)) = Ok tok ->
      tok = NorthboundClient.access_token
              (snd (fst (NorthboundClient.ensure_token E s w))).
Proof.
  assert (Hre : forall w0, trace w0 = trace w ->
            exists evs,
              trace (snd
                (let '(r, s', w') := NorthboundClient.relogin E s w0 in
                 match r with
                 | Ok _ => (Ok (NorthboundClient.access_token s'), s', w')
                 | Raise e => (Raise e, s', w')
                 | Pending => (Pending, s', w')
                 end)) = (trace w ++ evs)%list /\
              Forall is_http evs).
  { intros w0 Hw0.
    destruct (relogin_trace E s w0) as (url & payload & Ht).
    rewrite Hw0 in Ht.
    destruct (NorthboundClient.relogin E s w0) as [[[a|e|] s'] w'];
      simpl in Ht |- *;
      (eexists; split; [exact Ht|repeat constructor]). }
  unfold NorthboundClient.ensure_token, time_time, next_tick, bind, get, ret.
  cbv beta.
  destruct (truthy (NorthboundClient.access_token s)); simpl.
  - destruct (NorthboundClient.token_expiry s) as [expiry|]; simpl.
    + destruct (negb (PrimFloat.eqb expiry 0)); simpl.
      * destruct (PrimFloat.leb expiry (env_time E (tick w))); simpl.
        -- destruct (Hre {| tick := S (tick w); trace := trace w |} eq_refl)
             as (evs & Ht & Hh).
           exists evs.
           destruct (NorthboundClient.relogin E s _) as [[[a|e|] s'] w'];
             simpl in *; (split; [exact Ht|]); (split; [exact Hh|]);
             congruence.
        -- exists []. rewrite app_nil_r.
           split; [reflexivity|]. split; [constructor|congruence].
      * exists []. rewrite app_nil_r.
        split; [reflexivity|]. split; [constructor|congruence].
    + exists []. rewrite app_nil_r.
      split; [reflexivity|]. split; [constructor|congruence].
  - destruct (Hre w eq_refl) as (evs & Ht & Hh).
    exists evs.
    destruct (NorthboundClient.relogin E s w) as [[[a|e|] s'] w'];
      simpl in *; (split; [exact Ht|]); (split; [exact Hh|]);
      congruence.
Qed.

(** [_ensure_token] touches no field but [_nb_client], adds at most HTTP
    posts to the trace, and answers with the token the northbound client
    then holds. *)
Lemma _ensure_token_frame (s : SigenMQTT.t) (w : world) :
  exists (nb' : option NorthboundClient.t) (evs : list event),
    snd (fst (SigenMQTT._ensure_token E s w)) = SigenMQTT.set_nb_client nb' s /\
    trace (snd (SigenMQTT._ensure_token E s w)) = (trace w ++ evs)%list /\
    Forall is_http evs /\
    forall tok,
      fst (fst (SigenMQTT._ensure_token E s w)) = Ok tok ->
      exists nb, nb' = Some nb /\ NorthboundClient.access_token nb = tok.
Proof.
  assert (Heq : SigenMQTT._ensure_token E s w =
                match SigenMQTT._nb_client s with
                | Some nb =>
                    let '(r, nb', w') := NorthboundClient.ensure_token E nb w in
                    (r, SigenMQTT.set_nb_client (Some nb') s, w')
                | None => SigenMQTT.authenticate E s w
                end).
  { unfold SigenMQTT._ensure_token, on_part, bind, get.
    destruct (SigenMQTT._nb_client s); reflexivity. }
  rewrite Heq. clear Heq.
  destruct (SigenMQTT._nb_client s) as [nb|] eqn:Hnb.
  - destruct (nb_ensure_token_frame nb w) as (evs & Ht & Hh & Htok).
    destruct (NorthboundClient.ensure_token E nb w) as [[r nb'] w'].
    simpl in *. exists (Some nb'), evs.
    split; [reflexivity|]. split; [exact Ht|]. split; [exact Hh|].
    intros tok ->. exists nb'. split; [reflexivity|].
    symmetry. apply Htok. reflexivity.
  - unfold SigenMQTT.authenticate, NorthboundClient.from_app_key.
    set (inst := NorthboundClient.mk _ _ _ _ _ _).
    assert (Hk : NorthboundClient.relogin E inst w =
                 NorthboundClient.login_with_key E inst w) by reflexivity.
    destruct (relogin_trace E inst w) as (url & payload & Ht).
    rewrite Hk in Ht.
    destruct (NorthboundClient.login_with_key E inst w) as [[[a|e|] nb'] w']
      eqn:Hlogin; simpl in *.
    + exists (Some nb'), [EHttpPost url payload].
      split; [reflexivity|]. split; [exact Ht|].
      split; [repeat constructor|].
      intros tok [= <-]. exists nb'. split; reflexivity.
    + exists None, [EHttpPost url payload].
      split; [destruct s; simpl in *; subst; reflexivity|].
      split; [exact Ht|]. split; [repeat constructor|]. discriminate.
    + exists None, [EHttpPost url payload].
      split; [destruct s; simpl in *; subst; reflexivity|].
      split; [exact Ht|]. split; [repeat constructor|]. discriminate.
Qed.

End TokenFrame.

(** C7 (the code at the failing input): called on a streaming session with
    a batch of 25 commands, [send_battery_commands] returns normally after
    one publish whose payload carries all 25 commands, unchanged. *)
Theorem send_battery_commands_publishes_25 :
  List.length batch_25 = 25%nat /\
  exists w',
    SigenMQTT.send_battery_commands silent_env batch_25 streaming_session start =
      (Ok tt, streaming_session, w') /\
    trace w' =
      [ EPublish "openapi/instruction/command"
          (PDict [ ("accessToken", PStr "T1"); ("commands", PList batch_25) ]) ].
Proof.
  split; [reflexivity|].
  eexists. split; vm_compute; reflexivity.
Qed.



(* ================================================================== *)
(** * Stream session: the subscription protocol *)
(* ================================================================== *)

Section ProtocolFacts.

Variable key : string.
Variable ids : list string.

Lemma run_app (p q r : phase) (l1 l2 : list event) :
  run key ids p l1 q -> run key ids q l2 r -> run key ids p (l1 ++ l2) r.
Proof.
  induction 1 as [ph|ph ph' ph'' ev evs Hstep Hrun IH]; simpl; intros H2.
  - exact H2.
  - econstructor; [exact Hstep|]. apply IH, H2.
Qed.

Lemma run_prefix (p r : phase) (l1 l2 : list event) :
  run key ids p (l1 ++ l2) r -> exists q, run key ids p l1 q.
Proof.
  revert p. induction l1 as [|ev l1 IH]; simpl; intros p H.
  - exists p. constructor.
  - inversion H as [|ph ph' ph'' ev' evs Hstep Hrun]; subst.
    destruct (IH _ Hrun) as [q Hq].
    exists q. econstructor; eassumption.
Qed.

Lemma run_logins (ph : phase) (evs : list event) :
  startable ph \/ ph = Connected ->
  Forall is_http evs ->
  run key ids ph evs ph.
Proof.
  intros Hph. induction 1 as [|ev evs Hev _ IH]; [constructor|].
  destruct ev; simpl in Hev; try contradiction.
  econstructor; [apply step_login, Hph|exact IH].
Qed.

Lemma run_callbacks (evs : list event) :
  Forall is_callback evs ->
  run key ids (Subscribing []) evs (Subscribing []).
Proof.
  induction 1 as [|ev evs Hev _ IH]; [constructor|].
  destruct ev; simpl in Hev; try contradiction;
    (econstructor; [constructor|exact IH]).
Qed.

Lemma run_subscribes (topics rest : list string) :
  run key ids (Subscribing (topics ++ rest)) (map ESubscribe topics) (Subscribing rest).
Proof.
  induction topics as [|tp topics IH]; simpl; [constructor|].
  econstructor; [constructor|exact IH].
Qed.

Lemma run_script (token : pyval) :
  run key ids Connected (subscription_script key ids token) (Subscribing []).
Proof.
  unfold subscription_script. simpl.
  econstructor; [apply step_period|].
  econstructor; [apply step_change|].
  econstructor; [apply step_alarm|].
  rewrite <- (app_nil_r (flat_map _ ids)) at 1.
  apply run_subscribes.
Qed.

End ProtocolFacts.

Section SessionFrames.

Variable E : env.

Lemma same_config_refl (s : SigenMQTT.t) : same_config s s.
Proof. split; reflexivity. Qed.

Lemma same_config_trans (s1 s2 s3 : SigenMQTT.t) :
  same_config s1 s2 -> same_config s2 s3 -> same_config s1 s3.
Proof. unfold same_config. intros [-> ->] [-> ->]. split; reflexivity. Qed.

(** What a broker operation or a callback does, case by case. *)
Lemma perform_cases (ev : event) (s : SigenMQTT.t) (w : world) :
  perform E ev s w =
    (if env_cancel E (tick w) then Raise CancelledError
     else match env_io E (tick w) with
          | Some e => Raise e
          | None => Ok tt
          end,
     s, {| tick := S (tick w); trace := trace w ++ [ev] |}).
Proof.
  unfold perform, suspend, next_tick, emit, bind, ret, raise. simpl.
  destruct (env_cancel E (tick w)); simpl; [reflexivity|].
  destruct (env_io E (tick w)); reflexivity.
Qed.

Lemma asyncio_sleep_cases (seconds : Z) (s : SigenMQTT.t) (w : world) :
  asyncio_sleep E seconds s w =
    (if env_cancel E (tick w) then Raise CancelledError else Ok tt,
     s, {| tick := S (tick w); trace := trace w ++ [ESleep seconds] |}).
Proof.
  unfold asyncio_sleep, suspend, next_tick, emit, bind, ret, raise. simpl.
  destruct (env_cancel E (tick w)); reflexivity.
Qed.

(** The subscribes of [_subscribe] are started in the order of the
    topics; the loop stops at the first that raises. *)
Lemma subscribe_topics_frame (topics : list string) (s : SigenMQTT.t)
    (w : world) :
  exists done rest,
    topics = (done ++ rest)%list /\
    snd (fst (SigenMQTT.subscribe_topics E topics s w)) = s /\
    trace (snd (SigenMQTT.subscribe_topics E topics s w)) =
      (trace w ++ map ESubscribe done)%list /\
    (fst (fst (SigenMQTT.subscribe_topics E topics s w)) = Ok tt -> rest = []).
Proof.
  revert w. induction topics as [|tp topics IH]; intros w.
  - exists [], []. simpl. rewrite app_nil_r. repeat split; reflexivity.
  - simpl. unfold bind. rewrite perform_cases.
    destruct (if env_cancel E (tick w) then _ else _) as [[]|e|] eqn:Hr.
    + destruct (IH {| tick := S (tick w); trace := trace w ++ [ESubscribe tp] |})
        as (done & rest & Htopics & Hs & Ht & Hok).
      exists (tp :: done), rest. simpl in *.
      split; [rewrite Htopics; reflexivity|].
      split; [exact Hs|].
      split; [rewrite Ht, <- app_assoc; reflexivity|exact Hok].
    + exists [tp], topics. simpl.
      split; [reflexivity|]. split; [reflexivity|].
      split; [reflexivity|discriminate].
    + exists [tp], topics. simpl.
      split; [reflexivity|]. split; [reflexivity|].
      split; [reflexivity|discriminate].
Qed.

Lemma subscribe_systems_frame (k : string) (systems : list string)
    (s : SigenMQTT.t) (w : world) :
  exists done rest,
    flat_map (SigenMQTT.topics_of k) systems = (done ++ rest)%list /\
    snd (fst (SigenMQTT.subscribe_systems E k systems s w)) = s /\
    trace (snd (SigenMQTT.subscribe_systems E k systems s w)) =
      (trace w ++ map ESubscribe done)%list /\
    (fst (fst (SigenMQTT.subscribe_systems E k systems s w)) = Ok tt -> rest = []).
Proof.
  revert w. induction systems as [|system_id systems IH]; intros w.
  - exists [], []. simpl. rewrite app_nil_r. repeat split; reflexivity.
  - change (SigenMQTT.subscribe_systems E k (system_id :: systems))
      with (SigenMQTT.subscribe_topics E (SigenMQTT.topics_of k system_id) ;;
            SigenMQTT.subscribe_systems E k systems).
    change (flat_map (SigenMQTT.topics_of k) (system_id :: systems))
      with (SigenMQTT.topics_of k system_id ++
            flat_map (SigenMQTT.topics_of k) systems)%list.
    unfold bind.
    destruct (subscribe_topics_frame (SigenMQTT.topics_of k system_id) s w)
      as (done1 & rest1 & Htopics & Hs1 & Ht1 & Hok1).
    destruct (SigenMQTT.subscribe_topics E (SigenMQTT.topics_of k system_id) s w)
      as [[r1 s1] w1]. simpl in Hs1, Ht1, Hok1. subst s1.
    destruct r1 as [[]|e|].
    + rewrite (Hok1 eq_refl), app_nil_r in Htopics.
      destruct (IH w1) as (done & rest & Hflat & Hs & Ht & Hok).
      exists (done1 ++ done)%list, rest.
      split; [rewrite Htopics, Hflat, app_assoc; reflexivity|].
      split; [exact Hs|].
      split; [rewrite Ht, Ht1, map_app, app_assoc; reflexivity|exact Hok].
    + exists done1, (rest1 ++ flat_map (SigenMQTT.topics_of k) systems)%list.
      cbn [fst snd]. split; [rewrite Htopics, app_assoc; reflexivity|].
      split; [reflexivity|]. split; [exact Ht1|discriminate].
    + exists done1, (rest1 ++ flat_map (SigenMQTT.topics_of k) systems)%list.
      cbn [fst snd]. split; [rewrite Htopics, app_assoc; reflexivity|].
      split; [reflexivity|]. split; [exact Ht1|discriminate].
Qed.

End SessionFrames.

Section Frames.

Variable E : env.

Lemma frames_ret {A : Type} (P : event -> Prop) (a : A) : frames P (ret a).
Proof.
  intros s w. exists []. simpl. rewrite app_nil_r.
  split; [reflexivity|]. split; [constructor|apply same_config_refl].
Qed.

Lemma frames_lift {A : Type} (P : event -> Prop) (r : result A) :
  frames P (lift r).
Proof.
  intros s w. exists []. simpl. rewrite app_nil_r.
  split; [reflexivity|]. split; [constructor|apply same_config_refl].
Qed.

Lemma frames_raise {A : Type} (P : event -> Prop) (e : exn) :
  frames P (raise e : M SigenMQTT.t A).
Proof. apply (frames_lift P (Raise e)). Qed.

Lemma frames_get (P : event -> Prop) : frames P get.
Proof.
  intros s w. exists []. simpl. rewrite app_nil_r.
  split; [reflexivity|]. split; [constructor|apply same_config_refl].
Qed.

Lemma frames_modify (P : event -> Prop) (f : SigenMQTT.t -> SigenMQTT.t) :
  (forall s, same_config s (f s)) -> frames P (modify f).
Proof.
  intros Hf s w. exists []. simpl. rewrite app_nil_r.
  split; [reflexivity|]. split; [constructor|apply Hf].
Qed.

Lemma frames_bind {A B : Type} (P : event -> Prop) (m : M SigenMQTT.t A)
    (k : A -> M SigenMQTT.t B) :
  frames P m -> (forall a, frames P (k a)) -> frames P (bind m k).
Proof.
  intros Hm Hk s w. unfold bind.
  destruct (Hm s w) as (evs1 & Ht1 & HP1 & Hc1).
  destruct (m s w) as [[[a|e|] s1] w1]; simpl in *.
  - destruct (Hk a s1 w1) as (evs2 & Ht2 & HP2 & Hc2).
    exists (evs1 ++ evs2)%list.
    split; [rewrite Ht2, Ht1, app_assoc; reflexivity|].
    split; [apply Forall_app; split; assumption|].
    eapply same_config_trans; eassumption.
  - exists evs1. split; [assumption|]. split; assumption.
  - exists evs1. split; [assumption|]. split; assumption.
Qed.

Lemma frames_try {A : Type} (P : event -> Prop) (m : M SigenMQTT.t A)
    (h : exn -> M SigenMQTT.t A) :
  frames P m -> (forall e, frames P (h e)) -> frames P (try_except m h).
Proof.
  intros Hm Hh s w. unfold try_except.
  destruct (Hm s w) as (evs1 & Ht1 & HP1 & Hc1).
  destruct (m s w) as [[[a|e|] s1] w1]; simpl in *.
  - exists evs1. split; [assumption|]. split; assumption.
  - destruct (Hh e s1 w1) as (evs2 & Ht2 & HP2 & Hc2).
    exists (evs1 ++ evs2)%list.
    split; [rewrite Ht2, Ht1, app_assoc; reflexivity|].
    split; [apply Forall_app; split; assumption|].
    eapply same_config_trans; eassumption.
  - exists evs1. split; [assumption|]. split; assumption.
Qed.

Lemma frames_suspend (P : event -> Prop) : frames P (suspend E).
Proof.
  intros s w. exists []. unfold suspend, next_tick, bind, ret, raise. simpl.
  destruct (env_cancel E (tick w)); simpl; rewrite app_nil_r;
    (split; [reflexivity|]); (split; [constructor|apply same_config_refl]).
Qed.

Lemma frames_perform (P : event -> Prop) (ev : event) :
  P ev -> frames P (perform E ev).
Proof.
  intros Hev s w. exists [ev]. rewrite perform_cases. simpl.
  split; [reflexivity|]. split; [repeat constructor; exact Hev|].
  apply same_config_refl.
Qed.

Lemma frames__ensure_token : frames is_http (SigenMQTT._ensure_token E).
Proof.
  intros s w.
  destruct (_ensure_token_frame E s w) as (nb' & evs & Hs & Ht & Hh & _).
  exists evs. split; [exact Ht|]. split; [exact Hh|].
  rewrite Hs. split; reflexivity.
Qed.

End Frames.

Ltac frames_step E :=
  first
    [ apply frames_ret
    | apply frames_raise
    | apply frames_lift
    | apply frames_get
    | apply (frames_suspend E)
    | apply (frames_perform E); exact I
    | apply frames_modify; intros ?; split; reflexivity
    | apply frames_bind; [|intros ?]
    | apply frames_try; [|intros ?]
    | match goal with
      | |- frames _ (if ?b then _ else _) => destruct b
      | |- frames _ (match ?x with _ => _ end) => destruct x
      end ].

Section StreamFrames.

Variable E : env.

Lemma frames_handle_entries (entries : list pyval) :
  frames is_callback (SigenMQTT.handle_entries E entries).
Proof.
  induction entries as [|entry entries IH]; simpl.
  - apply frames_ret.
  - apply frames_bind; [|intros _; exact IH].
    unfold SigenMQTT.process_entry. repeat frames_step E.
Qed.

Lemma frames_dispatch (cbs : SigenMQTT.callbacks) (msg : message) :
  frames is_callback (SigenMQTT.dispatch E cbs msg).
Proof.
  unfold SigenMQTT.dispatch, SigenMQTT._handle_telemetry.
  destruct (payload_json msg) as [payload|e|];
    [|repeat frames_step E|apply frames_lift].
  destruct (contains "/period/" (topic msg) && SigenMQTT.on_telemetry cbs)%bool;
    [apply frames_handle_entries|].
  repeat frames_step E.
Qed.

Lemma frames_stream (fuel : nat) (cbs : SigenMQTT.callbacks) :
  frames is_callback (SigenMQTT.stream E fuel cbs).
Proof.
  induction fuel as [|fuel IH]; simpl.
  - apply frames_lift.
  - apply frames_bind; [apply frames_suspend|]. intros tk.
    destruct (env_message E tk) as [r|]; [|apply frames_ret].
    apply frames_bind; [apply frames_lift|]. intros msg.
    apply frames_bind; [apply frames_dispatch|]. intros _. exact IH.
Qed.

(** [_subscribe], once [_ensure_token] has answered: without a token
    nothing more happens; with a token, the events that follow are a
    prefix of the subscription script, and the whole script when
    [_subscribe] returns. *)
Lemma _subscribe_frame (s : SigenMQTT.t) (w : world) :
  match SigenMQTT._ensure_token E s w with
  | (Ok token, s0, w0) =>
      exists done rest,
        subscription_script (SigenMQTT.app_key s) (SigenMQTT.system_ids s) token =
          (done ++ rest)%list /\
        snd (fst (SigenMQTT._subscribe E s w)) = s0 /\
        trace (snd (SigenMQTT._subscribe E s w)) = (trace w0 ++ done)%list /\
        (fst (fst (SigenMQTT._subscribe E s w)) = Ok tt -> rest = [])
  | (Raise e, s0, w0) => SigenMQTT._subscribe E s w = (Raise e, s0, w0)
  | (Pending, s0, w0) => SigenMQTT._subscribe E s w = (Pending, s0, w0)
  end.
Proof.
  destruct (frames__ensure_token E s w) as (evs & _ & _ & Hkey & Hids).
  assert (Heq : SigenMQTT._subscribe E s w =
                match SigenMQTT._ensure_token E s w with
                | (Ok token, s0, w0) =>
                    (let payload :=
                       SigenMQTT.sub_payload token (SigenMQTT.system_ids s0) in
                     perform E (EPublish "openapi/subscription/period" payload) ;;
                     perform E (EPublish "openapi/subscription/change" payload) ;;
                     perform E (EPublish "openapi/subscription/alarm" payload) ;;
                     SigenMQTT.subscribe_systems E (SigenMQTT.app_key s0)
                       (SigenMQTT.system_ids s0)) s0 w0
                | (Raise e, s0, w0) => (Raise e, s0, w0)
                | (Pending, s0, w0) => (Pending, s0, w0)
                end).
  { unfold SigenMQTT._subscribe. unfold bind at 1.
    destruct (SigenMQTT._ensure_token E s w) as [[[token|e|] s0] w0];
      reflexivity. }
  rewrite Heq. clear Heq.
  destruct (SigenMQTT._ensure_token E s w) as [[[token|e|] s0] w0];
    try reflexivity.
  simpl in Hkey, Hids. unfold subscription_script. cbv zeta.
  change (request_payload (SigenMQTT.system_ids s) token)
    with (SigenMQTT.sub_payload token (SigenMQTT.system_ids s)).
  change (system_topics (SigenMQTT.app_key s))
    with (SigenMQTT.topics_of (SigenMQTT.app_key s)).
  rewrite <- Hkey, <- Hids.
  set (payload := SigenMQTT.sub_payload token (SigenMQTT.system_ids s0)).
  set (topics := flat_map (SigenMQTT.topics_of (SigenMQTT.app_key s0))
                   (SigenMQTT.system_ids s0)).
  unfold bind, get. fold payload.
  rewrite perform_cases.
  destruct (if env_cancel E (tick w0) then _ else _) as [[]|e|];
    [|exists [EPublish "openapi/subscription/period" payload]; eexists;
      cbn [fst snd trace];
      (split; [reflexivity|]); (split; [reflexivity|]);
      (split; [reflexivity|discriminate]) ..].
  rewrite perform_cases. cbn [tick trace].
  destruct (if env_cancel E (S (tick w0)) then _ else _) as [[]|e|];
    [|exists [EPublish "openapi/subscription/period" payload;
              EPublish "openapi/subscription/change" payload]; eexists;
      cbn [fst snd trace];
      (split; [reflexivity|]); (split; [reflexivity|]);
      (split; [rewrite <- app_assoc; reflexivity|discriminate]) ..].
  rewrite perform_cases. cbn [tick trace].
  destruct (if env_cancel E (S (S (tick w0))) then _ else _) as [[]|e|];
    [|exists [EPublish "openapi/subscription/period" payload;
              EPublish "openapi/subscription/change" payload;
              EPublish "openapi/subscription/alarm" payload]; eexists;
      cbn [fst snd trace];
      (split; [reflexivity|]); (split; [reflexivity|]);
      (split; [rewrite <- !app_assoc; reflexivity|discriminate]) ..].
  match goal with
  | |- context [SigenMQTT.subscribe_systems E ?k ?l s0 ?w1] =>
      destruct (subscribe_systems_frame E k l s0 w1)
        as (done & rest & Hflat & Hs & Ht & Hok)
  end.
  exists ([EPublish "openapi/subscription/period" payload;
           EPublish "openapi/subscription/change" payload;
           EPublish "openapi/subscription/alarm" payload]
          ++ map ESubscribe done)%list, (map ESubscribe rest).
  split; [fold topics in Hflat; rewrite Hflat, map_app, <- app_assoc; reflexivity|].
  split; [exact Hs|].
  split.
  - rewrite Ht. cbn [trace]. rewrite <- !app_assoc. reflexivity.
  - intros Hr. rewrite (Hok Hr). reflexivity.
Qed.

End StreamFrames.

Section ListenFacts.

Variable E : env.

(** One round of the loop, step by step. *)
Lemma listen_body_eq (fuel : nat) (cbs : SigenMQTT.callbacks)
    (s : SigenMQTT.t) (w : world) :
  SigenMQTT.listen_body E fuel cbs s w =
    match SigenMQTT._ensure_token E s w with
    | (Ok token, s0, w0) =>
        match perform E (EConnect (SigenMQTT.broker s0) (SigenMQTT.port s0)
                           (SigenMQTT.app_key s0) token) s0 w0 with
        | (Ok _, s1, w1) =>
            match SigenMQTT._subscribe E
                    (SigenMQTT.set_connected true
                       (SigenMQTT.set_mqtt_client
                          (Some (SigenMQTT.mk_client (SigenMQTT.broker s0)
                                   (SigenMQTT.port s0) (SigenMQTT.app_key s0)
                                   token)) s1)) w1 with
            | (Ok _, s3, w3) => SigenMQTT.stream E fuel cbs s3 w3
            | (Raise e, s3, w3) => (Raise e, s3, w3)
            | (Pending, s3, w3) => (Pending, s3, w3)
            end
        | (Raise e, s1, w1) => (Raise e, s1, w1)
        | (Pending, s1, w1) => (Pending, s1, w1)
        end
    | (Raise e, s0, w0) => (Raise e, s0, w0)
    | (Pending, s0, w0) => (Pending, s0, w0)
    end.
Proof.
  unfold SigenMQTT.listen_body, bind, get, modify.
  destruct (SigenMQTT._ensure_token E s w) as [[[token|e|] s0] w0];
    reflexivity.
Qed.

(** A round started where a round may start follows the protocol, and
    ends streaming when its message iterator is exhausted. *)
Lemma listen_body_run (fuel : nat) (cbs : SigenMQTT.callbacks)
    (s : SigenMQTT.t) (w : world) (ph : phase) :
  startable ph ->
  exists evs ph',
    trace (snd (SigenMQTT.listen_body E fuel cbs s w)) = (trace w ++ evs)%list /\
    run (SigenMQTT.app_key s) (SigenMQTT.system_ids s) ph evs ph' /\
    same_config s (snd (fst (SigenMQTT.listen_body E fuel cbs s w))) /\
    (fst (fst (SigenMQTT.listen_body E fuel cbs s w)) = Ok tt ->
     ph' = Subscribing []).
Proof.
  intros Hph. rewrite listen_body_eq.
  set (key := SigenMQTT.app_key s). set (ids := SigenMQTT.system_ids s).
  destruct (frames__ensure_token E s w) as (evs0 & Ht0 & Hhttp0 & Hc0).
  destruct (SigenMQTT._ensure_token E s w) as [[[token|e|] s0] w0];
    cbn [fst snd] in Ht0, Hc0;
    [|exists evs0, ph; cbn [fst snd];
      (split; [exact Ht0|]); (split; [apply run_logins; [left; exact Hph|exact Hhttp0]|]);
      (split; [exact Hc0|discriminate]) ..].
  assert (Hrun0 : run key ids ph evs0 ph)
    by (apply run_logins; [left; exact Hph|exact Hhttp0]).
  destruct Hc0 as [Hkey0 Hids0].
  rewrite perform_cases. rewrite Hkey0. fold key.
  set (connect_ev := EConnect _ _ key token).
  assert (Hrun1 : run key ids ph (evs0 ++ [connect_ev]) Connected).
  { eapply run_app; [exact Hrun0|].
    econstructor; [apply step_connect, Hph|constructor]. }
  destruct (if env_cancel E (tick w0) then _ else _) as [[]|e|];
    [|exists (evs0 ++ [connect_ev])%list, Connected; cbn [fst snd trace];
      (split; [rewrite Ht0, app_assoc; reflexivity|]);
      (split; [exact Hrun1|]);
      (split; [split; assumption|discriminate]) ..].
  set (s2 := SigenMQTT.set_connected true _).
  set (w1 := mk_world _ _).
  assert (Hkey2 : SigenMQTT.app_key s2 = key) by exact Hkey0.
  assert (Hids2 : SigenMQTT.system_ids s2 = ids) by exact Hids0.
  assert (Hc02 : same_config s s2) by (split; assumption).
  assert (Ht1 : trace w1 = (trace w ++ evs0 ++ [connect_ev])%list).
  { subst w1. cbn [trace]. rewrite Ht0, app_assoc. reflexivity. }
  pose proof (_subscribe_frame E s2 w1) as Hsub.
  destruct (frames__ensure_token E s2 w1) as (evs2 & Ht2 & Hhttp2 & Hc2).
  assert (Hrun2 : run key ids ph ((evs0 ++ [connect_ev]) ++ evs2) Connected).
  { eapply run_app; [exact Hrun1|].
    apply run_logins; [right; reflexivity|exact Hhttp2]. }
  destruct (SigenMQTT._ensure_token E s2 w1) as [[[token2|e|] s3] w3];
    cbn [fst snd] in Ht2, Hc2;
    [|rewrite Hsub;
      exists ((evs0 ++ [connect_ev]) ++ evs2)%list, Connected; cbn [fst snd];
      (split; [rewrite Ht2, Ht1, !app_assoc; reflexivity|]);
      (split; [exact Hrun2|]);
      (split; [eapply same_config_trans; [exact Hc02|exact Hc2]|discriminate]) ..].
  destruct Hsub as (done & rest & Hscript & Hs3 & Ht3 & Hok3).
  rewrite Hkey2, Hids2 in Hscript.
  pose proof (run_script key ids token2) as Hfull. rewrite Hscript in Hfull.
  assert (Hc3 : same_config s s3)
    by (eapply same_config_trans; [exact Hc02|exact Hc2]).
  destruct (SigenMQTT._subscribe E s2 w1) as [[[[]|e|] s3'] w3'];
    cbn [fst snd] in Hs3, Ht3, Hok3; subst s3'.
  - rewrite (Hok3 eq_refl), app_nil_r in Hfull.
    destruct (frames_stream E fuel cbs s3 w3') as (evs4 & Ht4 & Hcb4 & Hc4).
    exists ((((evs0 ++ [connect_ev]) ++ evs2) ++ done) ++ evs4)%list,
      (Subscribing []).
    split; [rewrite Ht4, Ht3, Ht2, Ht1, !app_assoc; reflexivity|].
    split.
    + eapply run_app; [eapply run_app; [exact Hrun2|exact Hfull]|].
      apply run_callbacks, Hcb4.
    + split; [eapply same_config_trans; eassumption|reflexivity].
  - destruct (run_prefix _ _ _ _ _ _ Hfull) as [q Hq].
    exists (((evs0 ++ [connect_ev]) ++ evs2) ++ done)%list, q. cbn [fst snd].
    split; [rewrite Ht3, Ht2, Ht1, !app_assoc; reflexivity|].
    split; [eapply run_app; [exact Hrun2|exact Hq]|].
    split; [exact Hc3|discriminate].
  - destruct (run_prefix _ _ _ _ _ _ Hfull) as [q Hq].
    exists (((evs0 ++ [connect_ev]) ++ evs2) ++ done)%list, q. cbn [fst snd].
    split; [rewrite Ht3, Ht2, Ht1, !app_assoc; reflexivity|].
    split; [eapply run_app; [exact Hrun2|exact Hq]|].
    split; [exact Hc3|discriminate].
Qed.

(** The [except] clauses, case by case. *)
Lemma listen_except_cases (e : exn) (s : SigenMQTT.t) (w : world) :
  SigenMQTT.listen_except E e s w =
    if is_MqttError e then
      asyncio_sleep E 30 (SigenMQTT.mark_disconnected s) w
    else if is_CancelledError e then
      (Raise e, SigenMQTT.mark_disconnected s, w)
    else if is_Exception e then
      asyncio_sleep E 60 (SigenMQTT.mark_disconnected s) w
    else (Raise e, s, w).
Proof.
  unfold SigenMQTT.listen_except.
  destruct (is_MqttError e); [reflexivity|].
  destruct (is_CancelledError e); [reflexivity|].
  destruct (is_Exception e); reflexivity.
Qed.

Lemma listen_except_run (e : exn) (s : SigenMQTT.t) (w : world) (ph : phase) :
  exists evs ph',
    trace (snd (SigenMQTT.listen_except E e s w)) = (trace w ++ evs)%list /\
    run (SigenMQTT.app_key s) (SigenMQTT.system_ids s) ph evs ph' /\
    same_config s (snd (fst (SigenMQTT.listen_except E e s w))) /\
    (fst (fst (SigenMQTT.listen_except E e s w)) = Ok tt -> ph' = Idle).
Proof.
  rewrite listen_except_cases, !asyncio_sleep_cases.
  destruct (is_MqttError e);
    [|destruct (is_CancelledError e); [|destruct (is_Exception e)]].
  - exists [ESleep 30], Idle. cbn [fst snd trace].
    split; [reflexivity|].
    split; [econstructor; [apply step_sleep; left; reflexivity|constructor]|].
    split; [split; reflexivity|reflexivity].
  - exists [], ph. cbn [fst snd]. rewrite app_nil_r.
    split; [reflexivity|]. split; [constructor|].
    split; [split; reflexivity|discriminate].
  - exists [ESleep 60], Idle. cbn [fst snd trace].
    split; [reflexivity|].
    split; [econstructor; [apply step_sleep; right; reflexivity|constructor]|].
    split; [split; reflexivity|reflexivity].
  - exists [], ph. cbn [fst snd]. rewrite app_nil_r.
    split; [reflexivity|]. split; [constructor|].
    split; [split; reflexivity|discriminate].
Qed.

(** The loop, one round unfolded. *)
Lemma listen_loop_eq (fuel : nat) (cbs : SigenMQTT.callbacks)
    (s : SigenMQTT.t) (w : world) :
  SigenMQTT.listen_loop E (S fuel) cbs s w =
    match SigenMQTT.listen_body E fuel cbs s w with
    | (Ok _, s1, w1) => SigenMQTT.listen_loop E fuel cbs s1 w1
    | (Raise e, s1, w1) =>
        match SigenMQTT.listen_except E e s1 w1 with
        | (Ok _, s2, w2) => SigenMQTT.listen_loop E fuel cbs s2 w2
        | (Raise e', s2, w2) => (Raise e', s2, w2)
        | (Pending, s2, w2) => (Pending, s2, w2)
        end
    | (Pending, s1, w1) => (Pending, s1, w1)
    end.
Proof.
  cbn [SigenMQTT.listen_loop]. unfold bind, try_except.
  destruct (SigenMQTT.listen_body E fuel cbs s w) as [[[[]|e|] s1] w1];
    reflexivity.
Qed.

(** Every run of the loop follows the protocol. *)
Lemma listen_loop_run (fuel : nat) (cbs : SigenMQTT.callbacks) :
  forall (s : SigenMQTT.t) (w : world) (ph : phase),
    startable ph ->
    exists evs ph',
      trace (snd (SigenMQTT.listen_loop E fuel cbs s w)) = (trace w ++ evs)%list /\
      run (SigenMQTT.app_key s) (SigenMQTT.system_ids s) ph evs ph'.
Proof.
  induction fuel as [|fuel IH]; intros s w ph Hph.
  - exists [], ph. simpl. rewrite app_nil_r. split; [reflexivity|constructor].
  - rewrite listen_loop_eq.
    destruct (listen_body_run fuel cbs s w ph Hph)
      as (evs1 & ph1 & Ht1 & Hrun1 & [Hkey1 Hids1] & Hok1).
    destruct (SigenMQTT.listen_body E fuel cbs s w) as [[[[]|e|] s1] w1];
      cbn [fst snd] in Ht1, Hkey1, Hids1, Hok1.
    + destruct (IH s1 w1 ph1) as (evs2 & ph2 & Ht2 & Hrun2).
      { right. apply Hok1. reflexivity. }
      rewrite Hkey1, Hids1 in Hrun2.
      exists (evs1 ++ evs2)%list, ph2.
      split; [rewrite Ht2, Ht1, app_assoc; reflexivity|].
      eapply run_app; eassumption.
    + destruct (listen_except_run e s1 w1 ph1)
        as (evs2 & ph2 & Ht2 & Hrun2 & [Hkey2 Hids2] & Hok2).
      rewrite Hkey1, Hids1 in Hrun2.
      destruct (SigenMQTT.listen_except E e s1 w1) as [[[[]|e'|] s2] w2];
        cbn [fst snd] in Ht2, Hkey2, Hids2, Hok2.
      * destruct (IH s2 w2 ph2) as (evs3 & ph3 & Ht3 & Hrun3).
        { left. apply Hok2. reflexivity. }
        rewrite Hkey2, Hkey1, Hids2, Hids1 in Hrun3.
        exists ((evs1 ++ evs2) ++ evs3)%list, ph3.
        split; [rewrite Ht3, Ht2, Ht1, !app_assoc; reflexivity|].
        eapply run_app; [eapply run_app|]; eassumption.
      * exists (evs1 ++ evs2)%list, ph2. cbn [fst snd].
        split; [rewrite Ht2, Ht1, app_assoc; reflexivity|].
        eapply run_app; eassumption.
      * exists (evs1 ++ evs2)%list, ph2. cbn [fst snd].
        split; [rewrite Ht2, Ht1, app_assoc; reflexivity|].
        eapply run_app; eassumption.
    + exists evs1, ph1. cbn [fst snd]. split; assumption.
Qed.

End ListenFacts.

(* ================================================================== *)
(** * Stream session: the listen loop *)
(* ================================================================== *)

(** C2: on every connection, [_subscribe] publishes the three subscription
    requests (period, change, alarm), each carrying the token that
    [_ensure_token] answered with and the list of system ids, and only then
    subscribes to the three topics of every system id, in order: what it
    adds to the trace is a prefix of that script, and the whole script when
    it returns.  Every round of [listen] whose connect succeeds continues
    with [_subscribe] on the new connection, and every run of the loop,
    whatever its length and whatever fails, follows the protocol in which a
    subscribe is possible only after the three requests of the same
    connection. *)
Theorem subscribe_follows_requests_on_every_connection (E : env) :
  (forall (s : SigenMQTT.t) (w : world),
     match SigenMQTT._ensure_token E s w with
     | (Ok token, s0, w0) =>
         let request :=
           PDict [ ("accessToken", token);
                   ("systemIdList", PList (map PStr (SigenMQTT.system_ids s))) ] in
         let topics system_id :=
           [ "openapi/period/" ++ SigenMQTT.app_key s ++ "/" ++ system_id;
             "openapi/change/" ++ SigenMQTT.app_key s ++ "/" ++ system_id;
             "openapi/alarm/" ++ SigenMQTT.app_key s ++ "/" ++ system_id ] in
         exists done rest,
           ([ EPublish "openapi/subscription/period" request;
              EPublish "openapi/subscription/change" request;
              EPublish "openapi/subscription/alarm" request ]
            ++ map ESubscribe (flat_map topics (SigenMQTT.system_ids s)))%list =
             (done ++ rest)%list /\
           trace (snd (SigenMQTT._subscribe E s w)) = (trace w0 ++ done)%list /\
           (fst (fst (SigenMQTT._subscribe E s w)) = Ok tt -> rest = [])
     | (_, s0, w0) => trace (snd (SigenMQTT._subscribe E s w)) = trace w0
     end) /\
  (forall (fuel : nat) (cbs : SigenMQTT.callbacks) (s s0 : SigenMQTT.t)
          (w w0 : world) (token : pyval),
     SigenMQTT._ensure_token E s w = (Ok token, s0, w0) ->
     env_cancel E (tick w0) = false ->
     env_io E (tick w0) = None ->
     SigenMQTT.listen_body E fuel cbs s w =
       (SigenMQTT._subscribe E ;; SigenMQTT.stream E fuel cbs)
         (connected_with token s0)
         (after (EConnect (SigenMQTT.broker s0) (SigenMQTT.port s0)
                   (SigenMQTT.app_key s0) token) w0)) /\
  (forall (fuel : nat) (cbs : SigenMQTT.callbacks) (s : SigenMQTT.t) (w : world),
     exists evs ph',
       trace (snd (SigenMQTT.listen_loop E fuel cbs s w)) = (trace w ++ evs)%list /\
       run (SigenMQTT.app_key s) (SigenMQTT.system_ids s) Idle evs ph').
Proof.
  split; [|split].
  - intros s w. pose proof (_subscribe_frame E s w) as H.
    destruct (SigenMQTT._ensure_token E s w) as [[[token|e|] s0] w0].
    + destruct H as (done & rest & Hscript & _ & Ht & Hok).
      exists done, rest.
      split; [exact Hscript|]. split; [exact Ht|exact Hok].
    + rewrite H. reflexivity.
    + rewrite H. reflexivity.
  - intros fuel cbs s s0 w w0 token Htok Hcancel Hio.
    rewrite listen_body_eq, Htok, perform_cases, Hcancel, Hio.
    unfold bind, connected_with, after.
    destruct (SigenMQTT._subscribe E _ _) as [[[[]|e|] s3] w3]; reflexivity.
  - intros fuel cbs s w. apply listen_loop_run. left. reflexivity.
Qed.

(** Two rounds of the example session (application key [key], systems
    [S1] and [S2], token [T1]) against a broker that drops the link: each
    connection is followed by the three requests and the six subscribes,
    and the first by the 30 s pause. *)
Lemma subscribe_follows_requests_on_every_connection_witness :
  let request :=
    PDict [ ("accessToken", PStr "T1");
            ("systemIdList", PList [ PStr "S1"; PStr "S2" ]) ] in
  let round :=
    [ EConnect "mqtt-eu.sigencloud.com" 8883 "key" (PStr "T1");
      EPublish "openapi/subscription/period" request;
      EPublish "openapi/subscription/change" request;
      EPublish "openapi/subscription/alarm" request;
      ESubscribe "openapi/period/key/S1";
      ESubscribe "openapi/change/key/S1";
      ESubscribe "openapi/alarm/key/S1";
      ESubscribe "openapi/period/key/S2";
      ESubscribe "openapi/change/key/S2";
      ESubscribe "openapi/alarm/key/S2" ] in
  SigenMQTT.listen_body (fault_env MqttError) 1 all_callbacks idle_session start =
    (SigenMQTT._subscribe (fault_env MqttError) ;;
     SigenMQTT.stream (fault_env MqttError) 1 all_callbacks)
      (connected_with (PStr "T1") idle_session)
      (after (EConnect "mqtt-eu.sigencloud.com" 8883 "key" (PStr "T1"))
         {| tick := 1; trace := [] |}) /\
  trace (snd (SigenMQTT._subscribe (fault_env MqttError)
                (connected_with (PStr "T1") idle_session)
                {| tick := 2; trace := [] |})) = tl round /\
  trace (snd (SigenMQTT.listen_loop (fault_env MqttError) 2 all_callbacks
                idle_session start)) =
    (round ++ [ ESleep 30 ] ++ round)%list.
Proof.
  cbv zeta.
  destruct (subscribe_follows_requests_on_every_connection (fault_env MqttError))
    as (Hscript & Hround & _).
  split; [|split].
  - apply (Hround 1%nat all_callbacks idle_session idle_session start
             {| tick := 1; trace := [] |} (PStr "T1"));
      reflexivity.
  - specialize (Hscript (connected_with (PStr "T1") idle_session)
                  {| tick := 2; trace := [] |}).
    assert (Htoken : SigenMQTT._ensure_token (fault_env MqttError)
                       (connected_with (PStr "T1") idle_session)
                       {| tick := 2; trace := [] |} =
                     (Ok (PStr "T1"), connected_with (PStr "T1") idle_session,
                      {| tick := 3; trace := [] |})) by reflexivity.
    rewrite Htoken in Hscript. cbv zeta in Hscript.
    destruct Hscript as (done & rest & Hsplit & Htrace & Hall).
    assert (Hok : fst (fst (SigenMQTT._subscribe (fault_env MqttError)
                              (connected_with (PStr "T1") idle_session)
                              {| tick := 2; trace := [] |})) = Ok tt)
      by reflexivity.
    rewrite (Hall Hok), app_nil_r in Hsplit. subst done.
    exact Htrace.
  - vm_compute. reflexivity.
Defined.

(** C1: whatever exception [e] the body of a round raises, the loop
    handles it by its class.  A broker error marks the session
    disconnected, sleeps 30 s and starts the next round; any other
    [Exception] marks it disconnected, sleeps 60 s and starts the next
    round; a cancellation marks it disconnected and leaves the loop at once
    with the same exception.  The loop is left by an exception only when
    that exception is not an [Exception] (a cancellation, possibly during
    the pause, or an interpreter exit), and after a cancellation the
    session is marked disconnected. *)
Theorem listen_fault_policy (E : env) (cbs : SigenMQTT.callbacks) :
  (forall (fuel : nat) (s s1 : SigenMQTT.t) (w w1 : world) (e : exn),
     SigenMQTT.listen_body E fuel cbs s w = (Raise e, s1, w1) ->
     let s2 := SigenMQTT.mark_disconnected s1 in
     SigenMQTT._connected s2 = false /\
     SigenMQTT._mqtt_client s2 = None /\
     (is_MqttError e = true ->
        SigenMQTT.listen_loop E (S fuel) cbs s w =
          if env_cancel E (tick w1)
          then (Raise CancelledError, s2, after (ESleep 30) w1)
          else SigenMQTT.listen_loop E fuel cbs s2 (after (ESleep 30) w1)) /\
     (is_MqttError e = false -> is_Exception e = true ->
        SigenMQTT.listen_loop E (S fuel) cbs s w =
          if env_cancel E (tick w1)
          then (Raise CancelledError, s2, after (ESleep 60) w1)
          else SigenMQTT.listen_loop E fuel cbs s2 (after (ESleep 60) w1)) /\
     (is_CancelledError e = true ->
        SigenMQTT.listen_loop E (S fuel) cbs s w = (Raise e, s2, w1))) /\
  (forall (fuel : nat) (s s' : SigenMQTT.t) (w w' : world) (e : exn),
     SigenMQTT.listen_loop E fuel cbs s w = (Raise e, s', w') ->
     is_Exception e = false /\
     (is_CancelledError e = true ->
        SigenMQTT._connected s' = false /\ SigenMQTT._mqtt_client s' = None)).
Proof.
  split.
  - intros fuel s s1 w w1 e Hbody s2.
    split; [reflexivity|]. split; [reflexivity|].
    rewrite listen_loop_eq, Hbody, listen_except_cases, !asyncio_sleep_cases.
    fold s2. unfold after.
    split; [|split].
    + intros ->. destruct (env_cancel E (tick w1)); reflexivity.
    + intros -> He.
      assert (Hc : is_CancelledError e = false) by (destruct e; simpl in *; congruence).
      rewrite Hc, He. destruct (env_cancel E (tick w1)); reflexivity.
    + intros Hc.
      assert (Hm : is_MqttError e = false) by (destruct e; simpl in *; congruence).
      rewrite Hm, Hc. reflexivity.
  - induction fuel as [|fuel IH]; intros s s' w w' e.
    + simpl. discriminate.
    + rewrite listen_loop_eq.
      destruct (SigenMQTT.listen_body E fuel cbs s w) as [[[[]|e0|] s1] w1];
        [apply IH| |discriminate].
      rewrite listen_except_cases, !asyncio_sleep_cases.
      destruct (is_MqttError e0) eqn:Hm;
        [|destruct (is_CancelledError e0) eqn:Hc;
          [|destruct (is_Exception e0) eqn:He]].
      * destruct (env_cancel E (tick w1)); [|apply IH].
        intros [= <- <- _]. split; [reflexivity|]. intros _. split; reflexivity.
      * intros [= <- <- _].
        split; [destruct e0; simpl in *; congruence|].
        intros _. split; reflexivity.
      * destruct (env_cancel E (tick w1)); [|apply IH].
        intros [= <- <- _]. split; [reflexivity|]. intros _. split; reflexivity.
      * intros [= <- <- _]. split; [exact He|]. congruence.
Qed.

(** The first round of the example session ends in the fault the broker
    raises.  After [MqttError] the session is marked disconnected, the 30 s
    pause is recorded and the next round starts; after another error the
    pause is 60 s; a cancellation leaves the loop with the session marked
    disconnected and nothing more recorded. *)
Lemma listen_fault_policy_witness :
  SigenMQTT.listen_loop (fault_env MqttError) 2 all_callbacks idle_session start =
    SigenMQTT.listen_loop (fault_env MqttError) 1 all_callbacks idle_session
      {| tick := 14; trace := (example_round ++ [ ESleep 30 ])%list |} /\
  SigenMQTT.listen_loop (fault_env (OtherException "OSError")) 2 all_callbacks
    idle_session start =
    SigenMQTT.listen_loop (fault_env (OtherException "OSError")) 1 all_callbacks
      idle_session
      {| tick := 14; trace := (example_round ++ [ ESleep 60 ])%list |} /\
  SigenMQTT.listen_loop (fault_env CancelledError) 2 all_callbacks
    idle_session start =
    (Raise CancelledError, idle_session, {| tick := 13; trace := example_round |}).
Proof.
  assert (Hbody : forall e,
            SigenMQTT.listen_body (fault_env e) 1 all_callbacks idle_session start =
              (Raise e, connected_with (PStr "T1") idle_session,
               {| tick := 13; trace := example_round |}))
    by (intros e; vm_compute; reflexivity).
  split; [|split].
  - destruct (listen_fault_policy (fault_env MqttError) all_callbacks) as [Hround _].
    destruct (Hround 1%nat idle_session _ start _ MqttError (Hbody MqttError))
      as (_ & _ & Hmqtt & _).
    rewrite (Hmqtt eq_refl). reflexivity.
  - destruct (listen_fault_policy (fault_env (OtherException "OSError")) all_callbacks)
      as [Hround _].
    destruct (Hround 1%nat idle_session _ start _ (OtherException "OSError")
                (Hbody (OtherException "OSError")))
      as (_ & _ & _ & Hother & _).
    rewrite (Hother eq_refl eq_refl). reflexivity.
  - destruct (listen_fault_policy (fault_env CancelledError) all_callbacks)
      as [Hround _].
    destruct (Hround 1%nat idle_session _ start _ CancelledError
                (Hbody CancelledError))
      as (_ & _ & _ & _ & Hcancel).
    rewrite (Hcancel eq_refl). reflexivity.
Defined.

(* ================================================================== *)
(** * Stream session: messages and handlers *)
(* ================================================================== *)

(** X1: a message whose payload [json.loads] rejects with
    [JSONDecodeError] or [TypeError] is skipped: no handler is invoked, the
    session and the world stay as they were, and the stream goes on with
    the next message.  A payload rejected with any other exception ends the
    round with that exception. *)
Theorem non_json_message_is_skipped (E : env) (cbs : SigenMQTT.callbacks)
    (msg : message) (e : exn) (s : SigenMQTT.t) (w : world) :
  payload_json msg = Raise e ->
  (is_JSONDecodeError_or_TypeError e = true ->
     SigenMQTT.dispatch E cbs msg s w = (Ok tt, s, w) /\
     forall fuel,
       env_cancel E (tick w) = false ->
       env_message E (tick w) = Some (Ok msg) ->
       SigenMQTT.stream E (S fuel) cbs s w =
         SigenMQTT.stream E fuel cbs s (waited 1 w)) /\
  (is_JSONDecodeError_or_TypeError e = false ->
     SigenMQTT.dispatch E cbs msg s w = (Raise e, s, w)).
Proof.
  intros Hjson. unfold SigenMQTT.dispatch. rewrite Hjson.
  split; intros He; rewrite He; [|reflexivity].
  split; [reflexivity|].
  intros fuel Hcancel Hmsg.
  cbn [SigenMQTT.stream].
  unfold suspend, next_tick, bind, ret, lift, waited. simpl.
  rewrite Hcancel. simpl. rewrite Hmsg.
  unfold SigenMQTT.dispatch. rewrite Hjson, He. reflexivity.
Qed.

(** The garbled message is passed over and the stream meets the broker
    error behind it. *)
Lemma non_json_message_is_skipped_witness :
  SigenMQTT.dispatch garbled_env all_callbacks garbled_message
    streaming_session start = (Ok tt, streaming_session, start) /\
  SigenMQTT.stream garbled_env 2 all_callbacks streaming_session start =
    (Raise MqttError, streaming_session, waited 2 start).
Proof.
  destruct (non_json_message_is_skipped garbled_env all_callbacks garbled_message
              JSONDecodeError streaming_session start eq_refl) as [Hskip _].
  destruct (Hskip eq_refl) as [Hdispatch Hstream].
  split; [exact Hdispatch|].
  rewrite (Hstream 1%nat eq_refl eq_refl). reflexivity.
Defined.

Section HandlerFrames.

Variable E : env.

Lemma frames_weaken {A : Type} (P Q : event -> Prop) (m : M SigenMQTT.t A) :
(forall ev, P ev -> Q ev) -> frames P m -> frames Q m.
Proof.
intros HPQ Hm s w. destruct (Hm s w) as (evs & Ht & HP & Hc).
exists evs. split; [exact Ht|]. split; [|exact Hc].
eapply Forall_impl; [exact HPQ|exact HP].
Qed.

Lemma frames_entries_with (P : event -> Prop) (entries : list pyval) :
(forall data, P (ETelemetry data)) ->
frames P (SigenMQTT.handle_entries E entries).
Proof.
intros HP. induction entries as [|entry entries IH]; simpl.
- apply frames_ret.
- apply frames_bind; [|intros _; exact IH].
  apply frames_try.
  + unfold SigenMQTT.process_entry.
    apply frames_bind; [apply frames_get|]. intros s0.
    apply frames_bind.
    * destruct (negb (SigenMQTT._telemetry_logged s0)); [|apply frames_ret].
      apply frames_bind;
        [apply frames_modify; intros ?; split; reflexivity|].
      intros _. apply frames_bind; [apply frames_lift|].
      intros values. apply frames_lift.
    * intros _. apply frames_bind; [apply frames_lift|].
      intros data. apply frames_perform, HP.
  + intros e. destruct (is_Exception e); [apply frames_ret|apply frames_raise].
Qed.

Lemma frames_dispatch_routed (cbs : SigenMQTT.callbacks) (msg : message) :
frames (fun ev => permitted cbs ev /\ routed (topic msg) ev)
  (SigenMQTT.dispatch E cbs msg).
Proof.
unfold SigenMQTT.dispatch, SigenMQTT._handle_telemetry.
destruct (payload_json msg) as [payload|e|].
- destruct (contains "/period/" (topic msg)) eqn:Hperiod;
    destruct (SigenMQTT.on_telemetry cbs) eqn:Htel; cbn [andb];
    try (apply frames_entries_with; intros data; split; assumption);
    (destruct (contains "/change/" (topic msg)) eqn:Hchange;
     destruct (SigenMQTT.on_system cbs) eqn:Hsys; cbn [andb];
     try (apply frames_perform; split; assumption);
     (destruct (contains "/alarm/" (topic msg)) eqn:Halarm;
      destruct (SigenMQTT.on_alarm cbs) eqn:Hal; cbn [andb];
      try (apply frames_perform; split; assumption);
      apply frames_ret)).
- destruct (is_JSONDecodeError_or_TypeError e);
    [apply frames_ret|apply frames_raise].
- apply frames_lift.
Qed.

Lemma frames_stream_permitted (fuel : nat) (cbs : SigenMQTT.callbacks) :
frames (permitted cbs) (SigenMQTT.stream E fuel cbs).
Proof.
induction fuel as [|fuel IH]; simpl.
- apply frames_lift.
- apply frames_bind; [apply frames_suspend|]. intros tk.
  destruct (env_message E tk) as [r|]; [|apply frames_ret].
  apply frames_bind; [apply frames_lift|]. intros msg.
  apply frames_bind; [|intros _; exact IH].
  eapply frames_weaken; [|apply frames_dispatch_routed].
  intros ev [Hp _]. exact Hp.
Qed.

Lemma frames_subscribe_systems (P : event -> Prop) (k : string)
  (systems : list string) :
(forall tp, P (ESubscribe tp)) ->
frames P (SigenMQTT.subscribe_systems E k systems).
Proof.
intros HP. induction systems as [|system_id systems IH].
- apply frames_ret.
- change (SigenMQTT.subscribe_systems E k (system_id :: systems))
    with (SigenMQTT.subscribe_topics E (SigenMQTT.topics_of k system_id) ;;
          SigenMQTT.subscribe_systems E k systems).
  apply frames_bind; [|intros _; exact IH].
  induction (SigenMQTT.topics_of k system_id) as [|tp topics IHt]; simpl.
  + apply frames_ret.
  + apply frames_bind; [apply frames_perform, HP|intros _; exact IHt].
Qed.

Lemma frames_listen_loop_permitted (fuel : nat) (cbs : SigenMQTT.callbacks) :
frames (permitted cbs) (SigenMQTT.listen_loop E fuel cbs).
Proof.
assert (Htoken : frames (permitted cbs) (SigenMQTT._ensure_token E)).
{ eapply frames_weaken; [|apply frames__ensure_token].
  intros [] Hev; simpl in *; trivial; contradiction. }
induction fuel as [|fuel IH]; simpl.
- apply frames_lift.
- apply frames_bind; [|intros _; exact IH].
  apply frames_try.
  + unfold SigenMQTT.listen_body.
    apply frames_bind; [exact Htoken|]. intros token.
    apply frames_bind; [apply frames_get|]. intros s0.
    apply frames_bind; [apply frames_perform; exact I|]. intros _.
    apply frames_bind;
      [apply frames_modify; intros ?; split; reflexivity|]. intros _.
    apply frames_bind;
      [apply frames_modify; intros ?; split; reflexivity|]. intros _.
    apply frames_bind; [|intros _; apply frames_stream_permitted].
    unfold SigenMQTT._subscribe.
    apply frames_bind; [exact Htoken|]. intros token'.
    apply frames_bind; [apply frames_get|]. intros s1.
    apply frames_bind; [apply frames_perform; exact I|]. intros _.
    apply frames_bind; [apply frames_perform; exact I|]. intros _.
    apply frames_bind; [apply frames_perform; exact I|]. intros _.
    apply frames_subscribe_systems. intros tp. exact I.
  + intros e. unfold SigenMQTT.listen_except, asyncio_sleep.
    destruct (is_MqttError e);
      [|destruct (is_CancelledError e); [|destruct (is_Exception e)]].
    * apply frames_bind;
        [apply frames_modify; intros ?; split; reflexivity|]. intros _.
      apply frames_bind;
        [intros s w; exists [ESleep 30]; simpl;
         split; [reflexivity|]; split; [repeat constructor|apply same_config_refl]|].
      intros _. apply frames_bind; [apply frames_suspend|].
      intros _. apply frames_ret.
    * apply frames_bind;
        [apply frames_modify; intros ?; split; reflexivity|]. intros _.
      apply frames_raise.
    * apply frames_bind;
        [apply frames_modify; intros ?; split; reflexivity|]. intros _.
      apply frames_bind;
        [intros s w; exists [ESleep 60]; simpl;
         split; [reflexivity|]; split; [repeat constructor|apply same_config_refl]|].
      intros _. apply frames_bind; [apply frames_suspend|].
      intros _. apply frames_ret.
    * apply frames_raise.
Qed.

End HandlerFrames.

(** X2: a handler is invoked only when it was given to [listen] and only
    for a message of its category.  One message invokes the telemetry
    handler only when its topic contains [/period/], the system handler
    only for [/change/], the alarm handler only for [/alarm/]; and in every
    run of the loop, whatever its length and whatever the broker sends, no
    event belongs to a handler that was not given. *)
Theorem handlers_are_invoked_by_topic (E : env) (cbs : SigenMQTT.callbacks) :
  (forall (msg : message) (s : SigenMQTT.t) (w : world),
     exists evs,
       trace (snd (SigenMQTT.dispatch E cbs msg s w)) = (trace w ++ evs)%list /\
       Forall (fun ev => permitted cbs ev /\ routed (topic msg) ev) evs) /\
  (forall (fuel : nat) (s : SigenMQTT.t) (w : world),
     exists evs,
       trace (snd (SigenMQTT.listen_loop E fuel cbs s w)) = (trace w ++ evs)%list /\
       Forall (permitted cbs) evs).
Proof.
  split.
  - intros msg s w.
    destruct (frames_dispatch_routed E cbs msg s w) as (evs & Ht & HP & _).
    exists evs. split; assumption.
  - intros fuel s w.
    destruct (frames_listen_loop_permitted E fuel cbs s w) as (evs & Ht & HP & _).
    exists evs. split; assumption.
Qed.

(* ================================================================== *)
(** * Stream session: telemetry entries *)
(* ================================================================== *)

Section TelemetryFacts.

Variable E : env.

Lemma _float_raises (values : pyval) (key : string) (default : float) (e : exn) :
TelemetryData._float values key default = Raise e ->
e = AttributeError \/ e = OverflowError.
Proof.
unfold TelemetryData._float, py_get.
destruct values; simpl; try (intros [= <-]; left; reflexivity).
destruct (dict_get_default d key PNone) as [ |b|z|f|str|l|d'] eqn:Hv;
  simpl; try discriminate.
- destruct (float_of_int_answers z) as [[f Hf]|Hf]; rewrite Hf; simpl.
  + discriminate.
  + intros [= <-]. right. reflexivity.
- destruct (float_of_str_answers str) as [[f Hf]|Hf]; rewrite Hf; simpl;
    discriminate.
Qed.

(** The decoder raises nothing but [AttributeError] and [OverflowError]. *)
Lemma from_mqtt_payload_raises (data : pyval) (e : exn) :
TelemetryData.from_mqtt_payload data = Raise e ->
e = AttributeError \/ e = OverflowError.
Proof.
unfold TelemetryData.from_mqtt_payload.
destruct (py_get data "value" (PDict [])) as [values|e0|] eqn:Hvalues;
  simpl; [| |discriminate].
2: { destruct data; simpl in Hvalues; try discriminate;
     injection Hvalues as <-; intros [= <-]; left; reflexivity. }
destruct data as [ |b|z|f|str|l|d]; simpl in Hvalues; try discriminate.
simpl.
repeat match goal with
       | |- context [TelemetryData._float values ?k 0] =>
           let H := fresh "H" in
           destruct (TelemetryData._float values k 0) eqn:H; simpl;
           [ | intros [= <-]; eapply _float_raises; eassumption
             | discriminate ]
       end.
discriminate.
Qed.

Lemma from_mqtt_payload_never_pends (data : pyval) :
TelemetryData.from_mqtt_payload data <> Pending.
Proof.
assert (Hf : forall values k, TelemetryData._float values k 0 <> Pending).
{ intros values k. unfold TelemetryData._float, py_get.
  destruct values; simpl; try discriminate.
  destruct (dict_get_default d k PNone) as [ |b|z|f|str|l|d'];
    simpl; try discriminate.
  - destruct (float_of_int_answers z) as [[f Hf]|Hf]; rewrite Hf; simpl;
      discriminate.
  - destruct (float_of_str_answers str) as [[f Hf]|Hf]; rewrite Hf; simpl;
      discriminate. }
unfold TelemetryData.from_mqtt_payload.
destruct data as [ |b|z|f|str|l|d]; simpl; try discriminate.
set (values := dict_get_default d "value" (PDict [])).
repeat match goal with
       | |- context [TelemetryData._float values ?k 0] =>
           let H := fresh "H" in
           destruct (TelemetryData._float values k 0) eqn:H; simpl;
           [ | discriminate | exfalso; eapply Hf; eassumption ]
       end.
discriminate.
Qed.

(** What [process_entry] raises is an [Exception] unless the handler
  itself raised it. *)
Lemma process_entry_on_bad_entry (entry : pyval) (e : exn)
  (s : SigenMQTT.t) (w : world) :
TelemetryData.from_mqtt_payload entry = Raise e ->
exists e',
  SigenMQTT.process_entry E entry s w = (Raise e', logged s, w) /\
  is_Exception e' = true.
Proof.
intros Hbad.
assert (He : is_Exception e = true).
{ destruct (from_mqtt_payload_raises entry e Hbad) as [-> | ->]; reflexivity. }
assert (Hs : SigenMQTT._telemetry_logged s = true -> logged s = s).
{ intros H. destruct s. simpl in H. subst. reflexivity. }
unfold SigenMQTT.process_entry, bind, get, modify, lift.
destruct (SigenMQTT._telemetry_logged s) eqn:Hlogged; simpl.
- rewrite Hbad. exists e. rewrite (Hs eq_refl). split; [reflexivity|exact He].
- destruct (py_get entry "value" (PDict [])) as [values|e0|] eqn:Hvalues.
  + destruct (SigenMQTT.log_fields values) as [[]|e1|] eqn:Hlog.
    * rewrite Hbad. exists e. split; [reflexivity|exact He].
    * exists e1. split; [reflexivity|].
      destruct values; simpl in Hlog; try discriminate;
        injection Hlog as <-; reflexivity.
    * destruct values; discriminate.
  + exists e0. split; [reflexivity|].
    destruct entry; simpl in Hvalues; try discriminate;
      injection Hvalues as <-; reflexivity.
  + destruct entry; discriminate.
Qed.

Lemma handle_entries_never_raises_exception (entries : list pyval) :
forall (s s' : SigenMQTT.t) (w w' : world) (e : exn),
  SigenMQTT.handle_entries E entries s w = (Raise e, s', w') ->
  is_Exception e = false.
Proof.
induction entries as [|entry entries IH]; intros s s' w w' e; simpl.
- discriminate.
- unfold bind, try_except.
  destruct (SigenMQTT.process_entry E entry s w) as [[[[]|e0|] s1] w1].
  + apply IH.
  + destruct (is_Exception e0) eqn:He0; simpl.
    * apply IH.
    * intros [= <- _ _]. exact He0.
  + discriminate.
Qed.

End TelemetryFacts.

(** X3: one bad telemetry entry costs only itself.  [_handle_telemetry]
    never raises an [Exception], whatever the payload and whatever the
    handler does; an entry the decoder rejects invokes no handler, marks
    the session as having seen telemetry, and the entries after it are
    handled as if it had not been there. *)
Theorem telemetry_entries_are_isolated (E : env) :
  (forall (payload : pyval) (s s' : SigenMQTT.t) (w w' : world) (e : exn),
     SigenMQTT._handle_telemetry E payload s w = (Raise e, s', w') ->
     is_Exception e = false) /\
  (forall (entry : pyval) (rest : list pyval) (e : exn)
          (s : SigenMQTT.t) (w : world),
     TelemetryData.from_mqtt_payload entry = Raise e ->
     SigenMQTT._handle_telemetry E (PList (entry :: rest)) s w =
       SigenMQTT._handle_telemetry E (PList rest) (logged s) w).
Proof.
  split.
  - intros payload s s' w w' e. unfold SigenMQTT._handle_telemetry.
    apply handle_entries_never_raises_exception.
  - intros entry rest e s w Hbad.
    unfold SigenMQTT._handle_telemetry.
    cbn [SigenMQTT.handle_entries]. unfold bind at 1. unfold try_except.
    destruct (process_entry_on_bad_entry E entry e s w Hbad) as (e' & -> & ->).
    reflexivity.
Qed.

(** In the mixed payload the entry without a mapping is dropped and the
    entry after it is handled on its own. *)
Lemma telemetry_entries_are_isolated_witness :
  TelemetryData.from_mqtt_payload bad_entry = Raise AttributeError /\
  SigenMQTT._handle_telemetry silent_env mixed_payload streaming_session start =
    SigenMQTT._handle_telemetry silent_env (PList [ example_entry ])
      (logged streaming_session) start.
Proof.
  split; [reflexivity|].
  exact (proj2 (telemetry_entries_are_isolated silent_env)
           bad_entry [ example_entry ] AttributeError streaming_session start
           eq_refl).
Defined.

Section DeliveryFacts.

Variable E : env.

Lemma decoded_entry_is_mapping (entry : pyval) (record : TelemetryData.t) :
TelemetryData.from_mqtt_payload entry = Ok record ->
exists values, py_get entry "value" (PDict []) = Ok (PDict values).
Proof.
unfold TelemetryData.from_mqtt_payload.
destruct entry as [ |b|z|f|str|l|d]; simpl; try discriminate.
destruct (dict_get_default d "value" (PDict [])) as [ |b|z|f|str|l|values];
  simpl; try discriminate.
intros _. exists values. reflexivity.
Qed.

Lemma logged_when_logged (s : SigenMQTT.t) :
SigenMQTT._telemetry_logged s = true -> logged s = s.
Proof. intros H. destruct s. simpl in H. subst. reflexivity. Qed.

Lemma process_entry_delivers (entry : pyval) (record : TelemetryData.t)
  (s : SigenMQTT.t) (w : world) :
TelemetryData.from_mqtt_payload entry = Ok record ->
SigenMQTT.process_entry E entry s w =
  (if env_cancel E (tick w) then Raise CancelledError
   else match env_io E (tick w) with
        | Some e => Raise e
        | None => Ok tt
        end,
   logged s, after (ETelemetry record) w).
Proof.
intros Hok.
destruct (decoded_entry_is_mapping entry record Hok) as [values Hvalues].
unfold SigenMQTT.process_entry, bind, get, modify, lift.
destruct (SigenMQTT._telemetry_logged s) eqn:Hlogged; simpl.
- rewrite Hok, perform_cases, (logged_when_logged s Hlogged). reflexivity.
- rewrite Hvalues. simpl. rewrite Hok, perform_cases. reflexivity.
Qed.

Lemma delivered_cons (record : TelemetryData.t) (records : list TelemetryData.t)
  (w : world) :
delivered records (after (ETelemetry record) w) = delivered (record :: records) w.
Proof.
unfold delivered, after. cbn [tick trace map List.length]. f_equal.
- lia.
- rewrite <- app_assoc. reflexivity.
Qed.

Lemma handle_entries_delivers (entries : list pyval)
  (records : list TelemetryData.t) :
Forall2 (fun entry record => TelemetryData.from_mqtt_payload entry = Ok record)
  entries records ->
forall (s : SigenMQTT.t) (w : world),
  (forall t, (tick w <= t < tick w + List.length entries)%nat ->
             env_cancel E t = false /\ env_io E t = None) ->
  SigenMQTT.handle_entries E entries s w =
    (Ok tt, match entries with [] => s | _ => logged s end, delivered records w).
Proof.
induction 1 as [|entry record entries records Hok _ IH]; intros s w Hquiet.
- simpl. unfold ret, delivered. destruct w. simpl. rewrite app_nil_r. reflexivity.
- cbn [SigenMQTT.handle_entries]. unfold bind at 1. unfold try_except.
  rewrite (process_entry_delivers entry record s w Hok).
  destruct (Hquiet (tick w)) as [-> ->]; [simpl; lia|].
  rewrite IH.
  + rewrite delivered_cons. destruct entries; reflexivity.
  + intros t Ht. apply Hquiet. unfold after in Ht. simpl in *. lia.
Qed.

(** A handler that raises an [Exception] loses only its own entry. *)
Lemma handle_entries_handler_fails (entry : pyval) (rest : list pyval)
  (record : TelemetryData.t) (e : exn) (s : SigenMQTT.t) (w : world) :
TelemetryData.from_mqtt_payload entry = Ok record ->
env_cancel E (tick w) = false ->
env_io E (tick w) = Some e ->
SigenMQTT.handle_entries E (entry :: rest) s w =
  if is_Exception e
  then SigenMQTT.handle_entries E rest (logged s) (after (ETelemetry record) w)
  else (Raise e, logged s, after (ETelemetry record) w).
Proof.
intros Hok Hcancel Hio.
cbn [SigenMQTT.handle_entries]. unfold bind at 1. unfold try_except.
rewrite (process_entry_delivers entry record s w Hok), Hcancel, Hio.
destruct (is_Exception e); reflexivity.
Qed.

End DeliveryFacts.

(** X4: a telemetry payload whose entries all decode reaches the handler
    once per entry, in the order of the payload, each call with the decoded
    record; a payload that is not a list is handled as the one-entry list
    of itself; afterwards the session is marked as having seen telemetry
    unless the payload was the empty list. *)
Theorem well_formed_entries_reach_the_handler (E : env) (entries : list pyval)
    (records : list TelemetryData.t) (s : SigenMQTT.t) (w : world) :
  Forall2 (fun entry record => TelemetryData.from_mqtt_payload entry = Ok record)
    entries records ->
  (forall t, (tick w <= t < tick w + List.length entries)%nat ->
             env_cancel E t = false /\ env_io E t = None) ->
  SigenMQTT._handle_telemetry E (PList entries) s w =
    (Ok tt, match entries with [] => s | _ => logged s end, delivered records w) /\
  (forall entry, entries = [ entry ] ->
     match entry with
     | PList _ => True
     | _ => SigenMQTT._handle_telemetry E entry s w =
              (Ok tt, logged s, delivered records w)
     end).
Proof.
  intros Hok Hquiet.
  assert (Hrun := handle_entries_delivers E entries records Hok s w Hquiet).
  split; [exact Hrun|].
  intros entry ->. destruct entry; try exact I; exact Hrun.
Qed.

Lemma well_formed_entries_reach_the_handler_witness :
  exists record,
    SigenMQTT._handle_telemetry silent_env (PList [ example_entry; example_entry ])
      streaming_session start =
      (Ok tt, logged streaming_session, delivered [ record; record ] start) /\
    TelemetryData.pv_power_kw record = 1.2%float.
Proof.
  eexists. split.
  - refine (proj1 (well_formed_entries_reach_the_handler silent_env
                     [ example_entry; example_entry ] [ _; _ ]
                     streaming_session start _ _)).
    + repeat constructor.
    + intros t _. split; reflexivity.
  - reflexivity.
Defined.

(** X5: a handler that raises an [Exception] loses only its own entry,
    the next entries are still delivered; what it raises outside
    [Exception] (a cancellation) ends [_handle_telemetry] at once. *)
Theorem failing_handler_is_contained (E : env) (entry : pyval)
    (rest : list pyval) (record : TelemetryData.t) (e : exn)
    (s : SigenMQTT.t) (w : world) :
  TelemetryData.from_mqtt_payload entry = Ok record ->
  env_cancel E (tick w) = false ->
  env_io E (tick w) = Some e ->
  SigenMQTT._handle_telemetry E (PList (entry :: rest)) s w =
    if is_Exception e
    then SigenMQTT._handle_telemetry E (PList rest) (logged s)
           (after (ETelemetry record) w)
    else (Raise e, logged s, after (ETelemetry record) w).
Proof. apply handle_entries_handler_fails. Qed.

Lemma failing_handler_is_contained_witness :
  exists record,
    SigenMQTT._handle_telemetry (failing_handler_env ValueError)
      (PList [ example_entry; example_entry ]) streaming_session start =
      SigenMQTT._handle_telemetry (failing_handler_env ValueError)
        (PList [ example_entry ]) (logged streaming_session)
        (after (ETelemetry record) start) /\
    SigenMQTT._handle_telemetry (failing_handler_env CancelledError)
      (PList [ example_entry; example_entry ]) streaming_session start =
      (Raise CancelledError, logged streaming_session,
       after (ETelemetry record) start).
Proof.
  eexists. split.
  - exact (failing_handler_is_contained (failing_handler_env ValueError)
             example_entry [ example_entry ] _ ValueError streaming_session start
             eq_refl eq_refl eq_refl).
  - exact (failing_handler_is_contained (failing_handler_env CancelledError)
             example_entry [ example_entry ] _ CancelledError streaming_session
             start eq_refl eq_refl eq_refl).
Defined.

Section DecoderFacts.

Lemma _float_in_range (values : list (string * pyval)) (key : string)
  (default : float) :
if field_in_range values key
then exists x, TelemetryData._float (PDict values) key default = Ok x
else TelemetryData._float (PDict values) key default = Raise OverflowError.
Proof.
unfold field_in_range, TelemetryData._float, py_get, dict_get_default.
cbn [rbind].
destruct (assoc values key) as [[ |b|z|f|str|l|d]|]; simpl;
  try (eexists; reflexivity).
- destruct (float_of_int_answers z) as [[f Hf]|Hf]; rewrite Hf; simpl.
  + eexists; reflexivity.
  + reflexivity.
- destruct (float_of_str_answers str) as [[f Hf]|Hf]; rewrite Hf; simpl;
    eexists; reflexivity.
Qed.

Lemma ints_in_range_fields (values : list (string * pyval)) :
ints_in_range values =
  (field_in_range values "storageChargeDischargePowerW" &&
   (field_in_range values "pvPowerW" &&
    (field_in_range values "storageSOC%" &&
     (field_in_range values "gridActivePowerW" &&
      (field_in_range values "loadActivePowerW" && true)))))%bool.
Proof. reflexivity. Qed.

End DecoderFacts.

(** X6: the decoder fails in exactly two ways.  It raises
    [AttributeError] when the entry, or what it holds under [value], is not
    a mapping; on a mapping it raises [OverflowError] when one of the five
    numeric fields is an [int] beyond the float range, and decodes
    otherwise. *)
Theorem decoder_failures (data : pyval) :
  match data with
  | PDict entry =>
      match dict_get_default entry "value" (PDict []) with
      | PDict values =>
          if ints_in_range values
          then exists record, TelemetryData.from_mqtt_payload data = Ok record
          else TelemetryData.from_mqtt_payload data = Raise OverflowError
      | _ => TelemetryData.from_mqtt_payload data = Raise AttributeError
      end
  | _ => TelemetryData.from_mqtt_payload data = Raise AttributeError
  end.
Proof.
  destruct data as [ |b|z|f|str|l|entry]; try reflexivity.
  unfold TelemetryData.from_mqtt_payload. cbn [py_get rbind].
  destruct (dict_get_default entry "value" (PDict [])) as [ |b|z|f|str|l|values];
    try reflexivity.
  rewrite ints_in_range_fields.
  repeat match goal with
         | |- context [field_in_range values ?k] =>
             let H := fresh "H" in
             let x := fresh "x" in
             pose proof (_float_in_range values k 0) as H;
             destruct (field_in_range values k);
             [ destruct H as [x H]; rewrite H; cbn [rbind andb]
             | rewrite H; reflexivity ]
         end.
  eexists. reflexivity.
Qed.

(* ================================================================== *)
(** * Stream session: TLS context, [connect] and [authenticate] *)
(* ================================================================== *)

Section SessionSetup.

Variable E : env.

Lemma call_cases {St : Type} (ev : event) (s : St) (w : world) :
call E ev s w =
  (match env_io E (tick w) with
   | Some e => Raise e
   | None => Ok tt
   end, s, after ev w).
Proof.
unfold call, emit, next_tick, bind, raise, ret, after. simpl.
destruct (env_io E (tick w)); reflexivity.
Qed.

Lemma session_post_cases {St : Type} (url : string) (payload : pyval)
  (s : St) (w : world) :
session_post E url payload s w =
  (if env_cancel E (tick w) then Raise CancelledError else env_http E (tick w),
   s, after (EHttpPost url payload) w).
Proof.
unfold session_post, suspend, emit, next_tick, bind, raise, ret, lift, after.
simpl. destruct (env_cancel E (tick w)); [reflexivity|].
destruct (env_http E (tick w)); reflexivity.
Qed.

Lemma time_time_cases {St : Type} (s : St) (w : world) :
time_time E s w = (Ok (env_time E (tick w)), s, waited 1 w).
Proof. reflexivity. Qed.

(** No step of the subscription protocol is a TLS event. *)
Lemma run_has_no_tls (k : string) (ids : list string) (ph ph' : phase)
  (evs : list event) :
run k ids ph evs ph' -> Forall (fun ev => ~ is_tls ev) evs.
Proof.
induction 1 as [|ph ph' ph'' ev evs Hstep _ IH]; constructor; [|exact IH].
destruct Hstep; simpl; tauto.
Qed.

Lemma _build_tls_context_cases (s : SigenMQTT.t) (w : world) :
match env_io E (tick w) with
| Some e =>
    SigenMQTT._build_tls_context E s w =
      (Raise e, s, after (ETlsContext (SigenMQTT.ca_cert_path s)) w)
| None =>
    snd (fst (SigenMQTT._build_tls_context E s w)) = s /\
    trace (snd (SigenMQTT._build_tls_context E s w)) =
      (trace w ++ tls_script s)%list
end.
Proof.
unfold SigenMQTT._build_tls_context, tls_script, after. coro_unfold. simpl.
destruct (env_io E (tick w)) as [e|]; [reflexivity|].
destruct (SigenMQTT.client_cert_path s) as [cert|];
  [destruct (SigenMQTT.client_key_path s) as [key|]|];
  try (split; reflexivity).
destruct (negb (String.eqb cert "") && negb (String.eqb key ""))%bool;
  [|split; reflexivity].
simpl. destruct (env_io E (S (tick w))); simpl;
  (split; [reflexivity|rewrite <- app_assoc; reflexivity]).
Qed.

Lemma accept_login_frame (resp : response) (s : NorthboundClient.t) (w : world) :
let s' := snd (fst (NorthboundClient.accept_login E resp s w)) in
NorthboundClient.base_url s' = NorthboundClient.base_url s /\
NorthboundClient.username s' = NorthboundClient.username s /\
NorthboundClient.password s' = NorthboundClient.password s /\
NorthboundClient._app_key s' = NorthboundClient._app_key s /\
match fst (fst (NorthboundClient.accept_login E resp s w)) with
| Ok token => NorthboundClient.access_token s' = token
| Raise e => e = SigenAuthError -> s' = s
| Pending => True
end.
Proof.
unfold NorthboundClient.accept_login. coro_unfold.
destruct (json resp) as [body|e|]; simpl; try tauto.
destruct (py_get body "code" PNone) as [code|e|]; simpl; try tauto.
destruct (negb (py_eq_int code 0)); simpl; [tauto|].
destruct (py_get body "data" (PStr "{}")) as [ds|e|]; simpl; try tauto.
assert (Hrest : forall data,
          let r :=
            (a <- lift (py_getitem data "accessToken") ;;
             modify (NorthboundClient.set_access_token a) ;;
             now <- time_time E ;;
             x <- lift (py_get data "expiresIn" (PInt 43199)) ;;
             expiry <- lift (py_float_add now x) ;;
             modify (NorthboundClient.set_token_expiry (Some expiry)) ;;
             s' <- get ;;
             ret (NorthboundClient.access_token s')) s w in
          NorthboundClient.base_url (snd (fst r)) = NorthboundClient.base_url s /\
          NorthboundClient.username (snd (fst r)) = NorthboundClient.username s /\
          NorthboundClient.password (snd (fst r)) = NorthboundClient.password s /\
          NorthboundClient._app_key (snd (fst r)) = NorthboundClient._app_key s /\
          match fst (fst r) with
          | Ok token => NorthboundClient.access_token (snd (fst r)) = token
          | Raise e => e = SigenAuthError -> snd (fst r) = s
          | Pending => True
          end).
{ intros data. coro_unfold.
  destruct data as [ |b|z|f|str|l|d]; simpl; try (repeat split; discriminate).
  destruct (assoc d "accessToken") as [a|]; simpl;
    [|repeat split; discriminate].
  destruct (dict_get_default d "expiresIn" (PInt 43199)) as [ |b|z|f|str|l|d'];
    simpl; try (repeat split; discriminate); try (repeat split; reflexivity).
  destruct (float_of_int_answers z) as [[f Hf]|Hf]; rewrite Hf; simpl;
    repeat split; discriminate. }
coro_unfold.
destruct ds as [ |b|z|f|str|l|d];
  try exact (Hrest PNone); try exact (Hrest (PBool b));
  try exact (Hrest (PInt z)); try exact (Hrest (PFloat f));
  try exact (Hrest (PList l)); try exact (Hrest (PDict d)).
destruct (json_loads E str) as [data|e|]; try (simpl; tauto).
exact (Hrest data).
Qed.

Lemma login_with_key_cases (s : NorthboundClient.t) (w : world)
  (k sec : string) :
NorthboundClient._app_key s = Some (k, sec) ->
NorthboundClient.login_with_key E s w =
  let w1 := after (key_login_request (NorthboundClient.base_url s) k sec) w in
  if env_cancel E (tick w) then (Raise CancelledError, s, w1)
  else match env_http E (tick w) with
       | Ok resp => NorthboundClient.accept_login E resp s w1
       | Raise e => (Raise e, s, w1)
       | Pending => (Pending, s, w1)
       end.
Proof.
intros Hk. unfold NorthboundClient.login_with_key.
unfold bind at 1, get. rewrite Hk. unfold bind at 1.
rewrite session_post_cases. unfold key_login_request.
destruct (env_cancel E (tick w)); [reflexivity|].
destruct (env_http E (tick w)); reflexivity.
Qed.

Lemma login_cases (s : NorthboundClient.t) (w : world) :
NorthboundClient.login E s w =
  let w1 := after (password_login_request s) w in
  if env_cancel E (tick w) then (Raise CancelledError, s, w1)
  else match env_http E (tick w) with
       | Ok resp => NorthboundClient.accept_login E resp s w1
       | Raise e => (Raise e, s, w1)
       | Pending => (Pending, s, w1)
       end.
Proof.
unfold NorthboundClient.login.
unfold bind at 1, get. unfold bind at 1.
rewrite session_post_cases. unfold password_login_request.
destruct (env_cancel E (tick w)); [reflexivity|].
destruct (env_http E (tick w)); reflexivity.
Qed.

End SessionSetup.

(** X7: [listen] builds the TLS context once, before its loop and outside
    its [try].  When the CA file cannot be loaded [listen] raises that
    error at once, with the session untouched: no login, no retry, no
    sleep.  Otherwise the trace of the whole call, however many times it
    reconnects, begins with the TLS script of the session and holds no TLS
    event after it. *)
Theorem tls_context_is_built_once (E : env) (fuel : nat)
    (cbs : SigenMQTT.callbacks) (s : SigenMQTT.t) (w : world) :
  match env_io E (tick w) with
  | Some e =>
      SigenMQTT.listen E fuel cbs s w =
        (Raise e, s, after (ETlsContext (SigenMQTT.ca_cert_path s)) w)
  | None =>
      exists evs,
        trace (snd (SigenMQTT.listen E fuel cbs s w)) =
          (trace w ++ tls_script s ++ evs)%list /\
        Forall (fun ev => ~ is_tls ev) evs
  end.
Proof.
  pose proof (_build_tls_context_cases E s w) as Htls.
  unfold SigenMQTT.listen, bind.
  destruct (env_io E (tick w)) as [e|].
  - rewrite Htls. reflexivity.
  - destruct Htls as [Hs Htrace].
    destruct (SigenMQTT._build_tls_context E s w) as [[[[]|e|] s1] w1];
      simpl in Hs, Htrace; subst s1.
    + destruct (listen_loop_run E fuel cbs s w1 Idle (or_introl eq_refl))
        as (evs & ph' & Hloop & Hrun).
      exists evs. split.
      * rewrite Hloop, Htrace, <- app_assoc. reflexivity.
      * exact (run_has_no_tls _ _ _ _ _ Hrun).
    + exists []. split; [rewrite app_nil_r; exact Htrace|constructor].
    + exists []. split; [rewrite app_nil_r; exact Htrace|constructor].
Qed.

(** X8: [connect] opens no connection.  It leaves [_connected] and
    [_mqtt_client] as they were and only exchanges HTTP requests, so a
    session that could not send battery commands before [connect] cannot
    send them after it either. *)
Theorem connect_opens_no_connection (E : env) (commands : list pyval)
    (s : SigenMQTT.t) (w : world) :
  let s' := snd (fst (SigenMQTT.connect E s w)) in
  let w' := snd (SigenMQTT.connect E s w) in
  SigenMQTT._mqtt_client s' = SigenMQTT._mqtt_client s /\
  SigenMQTT._connected s' = SigenMQTT._connected s /\
  (exists evs, trace w' = (trace w ++ evs)%list /\ Forall is_http evs) /\
  (SigenMQTT._mqtt_client s = None \/ SigenMQTT._connected s = false ->
   SigenMQTT.send_battery_commands E commands s' w' =
     (Raise (RuntimeError "MQTT not connected"), s', w')).
Proof.
  destruct (_ensure_token_frame E s w) as (nb' & evs & Hs & Htrace & Hhttp & _).
  assert (Hconnect : snd (fst (SigenMQTT.connect E s w)) =
                       snd (fst (SigenMQTT._ensure_token E s w)) /\
                     snd (SigenMQTT.connect E s w) =
                       snd (SigenMQTT._ensure_token E s w)).
  { unfold SigenMQTT.connect, bind, ret.
    destruct (SigenMQTT._ensure_token E s w) as [[[tok|e|] s1] w1];
      split; reflexivity. }
  destruct Hconnect as [Hcs Hcw]. cbv zeta. rewrite Hcs, Hcw, Hs.
  split; [reflexivity|]. split; [reflexivity|].
  split; [exists evs; split; assumption|].
  intros Hoff. unfold SigenMQTT.send_battery_commands, bind, get, raise.
  cbn [SigenMQTT._mqtt_client SigenMQTT._connected SigenMQTT.set_nb_client].
  destruct Hoff as [-> | ->]; [reflexivity|].
  destruct (SigenMQTT._mqtt_client s); reflexivity.
Qed.

Lemma connect_opens_no_connection_witness :
  SigenMQTT.send_battery_commands silent_env batch_25
    (snd (fst (SigenMQTT.connect silent_env idle_session start)))
    (snd (SigenMQTT.connect silent_env idle_session start)) =
    (Raise (RuntimeError "MQTT not connected"),
     snd (fst (SigenMQTT.connect silent_env idle_session start)),
     snd (SigenMQTT.connect silent_env idle_session start)).
Proof.
  exact (proj2 (proj2 (proj2
           (connect_opens_no_connection silent_env batch_25 idle_session start)))
           (or_introl eq_refl)).
Defined.

(** X9: [authenticate] sends one request, the key login carrying the
    Base64 text of [app_key:app_secret] to the session's base URL.  When
    the login succeeds the session holds a new client for that URL and
    those credentials whose token is the one returned; when it does not,
    the session is left as it was, with whatever client it had. *)
Theorem authenticate_posts_the_encoded_key (E : env) (s : SigenMQTT.t)
    (w : world) :
  trace (snd (SigenMQTT.authenticate E s w)) =
    (trace w ++
     [ key_login_request (SigenMQTT.base_url s) (SigenMQTT.app_key s)
         (SigenMQTT.app_secret s) ])%list /\
  match fst (fst (SigenMQTT.authenticate E s w)) with
  | Ok token =>
      exists nb,
        snd (fst (SigenMQTT.authenticate E s w)) =
          SigenMQTT.set_nb_client (Some nb) s /\
        NorthboundClient.access_token nb = token /\
        NorthboundClient.base_url nb = SigenMQTT.base_url s /\
        NorthboundClient._app_key nb =
          Some (SigenMQTT.app_key s, SigenMQTT.app_secret s)
  | _ => snd (fst (SigenMQTT.authenticate E s w)) = s
  end.
Proof.
  unfold SigenMQTT.authenticate, NorthboundClient.from_app_key.
  set (instance := {| NorthboundClient.base_url := SigenMQTT.base_url s;
                      NorthboundClient.username := PNone;
                      NorthboundClient.password := PNone;
                      NorthboundClient.access_token := PNone;
                      NorthboundClient.token_expiry := None;
                      NorthboundClient._app_key :=
                        Some (SigenMQTT.app_key s, SigenMQTT.app_secret s) |}).
  rewrite (login_with_key_cases E instance w _ _ eq_refl). cbv zeta.
  set (w1 := after _ w).
  destruct (env_cancel E (tick w)); [split; reflexivity|].
  destruct (env_http E (tick w)) as [resp|e|]; try (split; reflexivity).
  pose proof (accept_login_keeps_trace E resp instance w1) as Htrace.
  pose proof (accept_login_frame E resp instance w1) as Hframe.
  cbv zeta in Hframe.
  destruct (NorthboundClient.accept_login E resp instance w1)
    as [[[token|e|] nb] w2]; simpl in Htrace, Hframe |- *;
    (split; [exact Htrace|]); try reflexivity.
  destruct Hframe as (Hurl & _ & _ & Hkey & Htoken).
  exists nb. repeat split; assumption.
Qed.

(* ================================================================== *)
(** * Key mechanism: the login exchange *)
(* ================================================================== *)

Section LoginFacts.

Variable E : env.

Lemma accept_login_rejects (resp : response) (body code : pyval)
  (s : NorthboundClient.t) (w : world) :
json resp = Ok body ->
py_get body "code" PNone = Ok code ->
py_eq_int code 0 = false ->
NorthboundClient.accept_login E resp s w = (Raise SigenAuthError, s, w).
Proof.
intros Hjson Hcode Hne. unfold NorthboundClient.accept_login. coro_unfold.
rewrite Hjson, Hcode, Hne. reflexivity.
Qed.

Lemma accept_login_installs (resp : response) (body d : list (string * pyval))
  (a : pyval) (expiry : float) (s : NorthboundClient.t) (w : world) :
json resp = Ok (PDict body) ->
py_eq_int (dict_get_default body "code" PNone) 0 = true ->
decoded_data E (dict_get_default body "data" (PStr "{}")) = Ok (PDict d) ->
assoc d "accessToken" = Some a ->
py_float_add (env_time E (tick w))
  (dict_get_default d "expiresIn" (PInt 43199)) = Ok expiry ->
NorthboundClient.accept_login E resp s w =
  (Ok a,
   NorthboundClient.set_token_expiry (Some expiry)
     (NorthboundClient.set_access_token a s),
   waited 1 w).
Proof.
intros Hjson Hcode Hdata Ha Hexpiry.
unfold NorthboundClient.accept_login. coro_unfold.
rewrite Hjson. cbn [py_get]. rewrite Hcode. cbn [negb].
unfold decoded_data in Hdata. cbv beta iota.
destruct (dict_get_default body "data" (PStr "{}")) as [ |b|z|f|str|l|d'];
  try discriminate Hdata;
  [rewrite Hdata | injection Hdata as ->];
  cbn [py_getitem fst snd]; rewrite Ha; cbn [py_get fst snd tick];
  rewrite Hexpiry; reflexivity.
Qed.

End LoginFacts.

(** X10: a login answer whose [code] is not 0, or is absent, is refused
    with [SigenAuthError] whatever its HTTP status, after the one request
    and before anything is stored: the client keeps the token and the
    expiry it had.  This holds for the password login and for the key
    login. *)
Theorem rejected_login_changes_nothing (E : env) (s : NorthboundClient.t)
    (w : world) (resp : response) (body code : pyval) :
  env_cancel E (tick w) = false ->
  env_http E (tick w) = Ok resp ->
  json resp = Ok body ->
  py_get body "code" PNone = Ok code ->
  py_eq_int code 0 = false ->
  NorthboundClient.login E s w =
    (Raise SigenAuthError, s, after (password_login_request s) w) /\
  (forall k sec,
     NorthboundClient._app_key s = Some (k, sec) ->
     NorthboundClient.login_with_key E s w =
       (Raise SigenAuthError, s,
        after (key_login_request (NorthboundClient.base_url s) k sec) w)).
Proof.
  intros Hcancel Hhttp Hjson Hcode Hne. split.
  - rewrite login_cases. cbv zeta. rewrite Hcancel, Hhttp.
    apply (accept_login_rejects E resp body code); assumption.
  - intros k sec Hk. rewrite (login_with_key_cases E s w k sec Hk). cbv zeta.
    rewrite Hcancel, Hhttp.
    apply (accept_login_rejects E resp body code); assumption.
Qed.

(** An answer without [code] is refused like one with a failure code. *)
Lemma rejected_login_changes_nothing_witness :
  NorthboundClient.login_with_key
    (answer_env 200 (PDict [ ("msg", PStr "ok") ]) (fun _ => Raise JSONDecodeError))
    fresh_key_client start =
    (Raise SigenAuthError, fresh_key_client,
     after (key_login_request "https://api-eu.sigencloud.com/" "key" "secret")
       start).
Proof.
  exact (proj2 (rejected_login_changes_nothing
                  (answer_env 200 (PDict [ ("msg", PStr "ok") ])
                     (fun _ => Raise JSONDecodeError))
                  fresh_key_client start _ _ PNone eq_refl eq_refl eq_refl
                  eq_refl eq_refl)
           "key" "secret" eq_refl).
Defined.

(** X11: the [data] of a login answer may come as JSON text or as the
    decoded value itself.  When [data] is a text that the parser decodes
    to a value that is not a text, the login ends exactly as it does on
    the answer that carries the decoded value in its place. *)
Theorem login_data_may_be_text_or_mapping (E : env) (resp : response)
    (body : list (string * pyval)) (str : string) (decoded : pyval)
    (s : NorthboundClient.t) (w : world) :
  json resp = Ok (PDict body) ->
  assoc body "data" = Some (PStr str) ->
  json_loads E str = Ok decoded ->
  (forall t, decoded <> PStr t) ->
  NorthboundClient.accept_login E resp s w =
    NorthboundClient.accept_login E
      {| status := status resp; text := text resp;
         json := Ok (PDict (("data", decoded) :: body)) |} s w.
Proof.
  intros Hjson Hdata Hparse Hnot_text.
  unfold NorthboundClient.accept_login. coro_unfold.
  rewrite Hjson. cbn [json py_get].
  unfold dict_get_default. cbn [assoc String.eqb Ascii.eqb Bool.eqb].
  rewrite Hdata. cbv beta iota. rewrite Hparse.
  destruct (assoc body "code") as [code|];
    (destruct (negb (py_eq_int _ 0)); [reflexivity|]);
    (destruct decoded as [ |b|z|f|t|l|d]; try reflexivity;
     exfalso; exact (Hnot_text t eq_refl)).
Qed.

Lemma login_data_may_be_text_or_mapping_witness :
  NorthboundClient.accept_login (login_env 200)
    {| status := 200; text := ""; json := Ok login_answer |}
    fresh_key_client start =
  NorthboundClient.accept_login (login_env 200)
    {| status := 200; text := "";
       json := Ok (PDict [ ("data", token_data); ("code", PInt 0);
                           ("data", PStr token_text) ]) |}
    fresh_key_client start.
Proof.
  refine (login_data_may_be_text_or_mapping (login_env 200)
            {| status := 200; text := ""; json := Ok login_answer |}
            [ ("code", PInt 0); ("data", PStr token_text) ]
            token_text token_data fresh_key_client start
            eq_refl eq_refl eq_refl _).
  intros t. discriminate.
Defined.

(** X12: a key login that is accepted stores the token of the answer and
    the expiry [now + expiresIn], with 43199 seconds when the answer names
    no [expiresIn], and returns the token; as long as the clock has not
    reached that expiry, [ensure_token] on the client gives the same token
    back and sends nothing. *)
Theorem key_login_round_trip (E : env) (s : NorthboundClient.t) (w : world)
    (k sec : string) (resp : response) (body d : list (string * pyval))
    (a : pyval) (expiry : float) :
  NorthboundClient._app_key s = Some (k, sec) ->
  env_cancel E (tick w) = false ->
  env_http E (tick w) = Ok resp ->
  json resp = Ok (PDict body) ->
  py_eq_int (dict_get_default body "code" PNone) 0 = true ->
  decoded_data E (dict_get_default body "data" (PStr "{}")) = Ok (PDict d) ->
  assoc d "accessToken" = Some a ->
  py_float_add (env_time E (S (tick w)))
    (dict_get_default d "expiresIn" (PInt 43199)) = Ok expiry ->
  let s' := NorthboundClient.set_token_expiry (Some expiry)
              (NorthboundClient.set_access_token a s) in
  NorthboundClient.login_with_key E s w =
    (Ok a, s',
     waited 1 (after (key_login_request (NorthboundClient.base_url s) k sec) w)) /\
  (truthy a = true ->
   forall w2,
     PrimFloat.leb expiry (env_time E (tick w2)) = false ->
     exists w3,
       NorthboundClient.ensure_token E s' w2 = (Ok a, s', w3) /\
       trace w3 = trace w2).
Proof.
  intros Hk Hcancel Hhttp Hjson Hcode Hdata Ha Hexpiry s'. split.
  - rewrite (login_with_key_cases E s w k sec Hk). cbv zeta.
    rewrite Hcancel, Hhttp.
    apply (accept_login_installs E resp body d); assumption.
  - intros Htruthy w2 Hfresh.
    unfold NorthboundClient.ensure_token. coro_unfold.
    subst s'. cbn [NorthboundClient.access_token NorthboundClient.token_expiry
                   NorthboundClient.set_token_expiry
                   NorthboundClient.set_access_token].
    rewrite Htruthy. cbn [negb].
    destruct (NorthboundClient.expiry_truthy (Some expiry)); cbn [negb].
    + cbn [tick]. rewrite Hfresh. eexists. split; reflexivity.
    + eexists. split; reflexivity.
Qed.

(** The status of the answer plays no part: the example answers 500. *)
Lemma key_login_round_trip_witness :
  NorthboundClient.login_with_key (login_env 500) fresh_key_client start =
    (Ok (PStr "T2"),
     NorthboundClient.mk "https://api-eu.sigencloud.com/" PNone PNone
       (PStr "T2") (Some 44199%float) (Some ("key", "secret")),
     waited 1 (after (key_login_request "https://api-eu.sigencloud.com/"
                        "key" "secret") start)).
Proof.
  assert (Hexpiry : py_float_add 1000%float (PInt 43199) = Ok 44199%float)
    by (vm_compute; reflexivity).
  exact (proj1 (key_login_round_trip (login_env 500) fresh_key_client start
                  "key" "secret"
                  {| status := 500; text := ""; json := Ok login_answer |}
                  [ ("code", PInt 0); ("data", PStr token_text) ]
                  [ ("accessToken", PStr "T2") ] (PStr "T2") 44199%float
                  eq_refl eq_refl eq_refl eq_refl eq_refl eq_refl eq_refl
                  Hexpiry)).
Defined.

(* ================================================================== *)
(** * Password mechanism: the token exchange *)
(* ================================================================== *)

Lemma response_text_cases {St : Type} (E : env) (resp : response) (s : St)
    (w : world) :
  response_text E resp s w =
    (if env_cancel E (tick w) then Raise CancelledError
     else match env_io E (tick w) with
          | Some e => Raise e
          | None => Ok (text resp)
          end, s, waited 1 w).
Proof.
  unfold response_text, suspend, next_tick, bind, raise, ret, waited. simpl.
  destruct (env_cancel E (tick w)); [reflexivity|].
  destruct (env_io E (tick w)); reflexivity.
Qed.

(** X13: on a status other than 200 the password mechanism reads the text
    of the answer, for the message of its exception, and looks at nothing
    else.  Once the text is read, [get_access_token] raises
    [SigenAuthError] and [refresh_access_token] raises
    [SigenTokenExpiredError]; when reading the text fails or is cancelled,
    that exception is raised in their place.  In every case one request
    was sent and the store is as it was. *)
Theorem non_200_is_rejected (E : env) (url user pw : string)
    (s : TokenManager.t) (w : world) (resp : response) :
  env_cancel E (tick w) = false ->
  env_http E (tick w) = Ok resp ->
  status resp <> 200 ->
  let after_text (e : exn) : result unit :=
    if env_cancel E (S (tick w)) then Raise CancelledError
    else match env_io E (S (tick w)) with
         | Some failure => Raise failure
         | None => Raise e
         end in
  TokenManager.get_access_token E url user pw s w =
    (after_text SigenAuthError, s,
     waited 1 (after (password_grant_request url user pw) w)) /\
  TokenManager.refresh_access_token E url s w =
    (after_text SigenTokenExpiredError, s,
     waited 1 (after (refresh_grant_request url s) w)).
Proof.
  intros Hcancel Hhttp Hstatus.
  apply Z.eqb_neq in Hstatus.
  unfold TokenManager.get_access_token, TokenManager.refresh_access_token.
  cbv zeta. split.
  - unfold bind at 1. rewrite session_post_cases, Hcancel, Hhttp, Hstatus.
    unfold password_grant_request.
    destruct (status resp =? 401); cbn [negb];
      unfold bind, raise; rewrite response_text_cases; cbn [after tick];
      (destruct (env_cancel E (S (tick w))); [reflexivity|]);
      destruct (env_io E (S (tick w))); reflexivity.
  - unfold bind at 1, get. unfold bind at 1.
    rewrite session_post_cases, Hcancel, Hhttp, Hstatus. cbn [negb].
    unfold bind, raise. rewrite response_text_cases. cbn [after tick].
    unfold refresh_grant_request.
    (destruct (env_cancel E (S (tick w))); [reflexivity|]);
      destruct (env_io E (S (tick w))); reflexivity.
Qed.

(** A 500 answer whose text is read, and one whose text cannot be read. *)
Lemma non_200_is_rejected_witness :
  TokenManager.get_access_token silent_env "https://api-eu.sigencloud.com/"
    "user@example.com" "pw" expired_store start =
    (Raise SigenAuthError, expired_store,
     waited 1 (after (password_grant_request "https://api-eu.sigencloud.com/"
                        "user@example.com" "pw") start)) /\
  TokenManager.refresh_access_token
    (failing_handler_env (OtherException "ClientPayloadError"))
    "https://api-eu.sigencloud.com/" expired_store start =
    (Raise (OtherException "ClientPayloadError"), expired_store,
     waited 1 (after (refresh_grant_request "https://api-eu.sigencloud.com/"
                        expired_store) start)).
Proof.
  split.
  - apply (non_200_is_rejected silent_env "https://api-eu.sigencloud.com/"
             "user@example.com" "pw" expired_store start
             {| status := 500; text := ""; json := Raise JSONDecodeError |});
      [reflexivity | reflexivity | discriminate].
  - apply (non_200_is_rejected
             (failing_handler_env (OtherException "ClientPayloadError"))
             "https://api-eu.sigencloud.com/" "user@example.com" "pw"
             expired_store start
             {| status := 500; text := ""; json := Raise JSONDecodeError |});
      [reflexivity | reflexivity | discriminate].
Defined.

(** X14: the envelope guard.  A falsy [data] is incomplete; a mapping is
    incomplete exactly when it lacks one of the three keys, so the test of
    its truth adds nothing; and a [data] that passes the guard without
    being a mapping (a text or a list that mentions the three names) makes
    the installation raise [TypeError] with the store unchanged. *)
Theorem envelope_guard (data : pyval) :
  (truthy data = false -> TokenManager.response_incomplete data = Ok true) /\
  (forall d, data = PDict d ->
     TokenManager.response_incomplete data = Ok (negb (envelope_complete d))) /\
  (forall (E : env) (s : TokenManager.t) (w : world),
     TokenManager.response_incomplete data = Ok false ->
     (forall d, data <> PDict d) ->
     TokenManager.install E data s w = (Raise TypeError, s, w)).
Proof.
  split; [|split].
  - intros Hfalsy. unfold TokenManager.response_incomplete.
    rewrite Hfalsy. reflexivity.
  - intros d ->. unfold TokenManager.response_incomplete, envelope_complete.
    cbn [py_contains rbind truthy].
    destruct d as [|kv d].
    + reflexivity.
    + cbn [negb].
      destruct (dict_has (kv :: d) "access_token"),
        (dict_has (kv :: d) "refresh_token"),
        (dict_has (kv :: d) "expires_in"); reflexivity.
  - intros E s w _ Hnot_dict.
    destruct data as [ |b|z|f|str|l|d]; try reflexivity.
    exfalso. exact (Hnot_dict d eq_refl).
Qed.

Lemma envelope_guard_witness :
  TokenManager.response_incomplete (PDict []) = Ok true /\
  TokenManager.response_incomplete
    (PStr "access_token refresh_token expires_in") = Ok false /\
  TokenManager.install silent_env
    (PStr "access_token refresh_token expires_in") expired_store start =
    (Raise TypeError, expired_store, start).
Proof.
  split; [|split].
  - exact (proj1 (envelope_guard (PDict [])) eq_refl).
  - reflexivity.
  - refine (proj2 (proj2 (envelope_guard
              (PStr "access_token refresh_token expires_in")))
              silent_env expired_store start eq_refl _).
    intros d. discriminate.
Defined.

(** X15: a password grant answered 200 with a complete envelope under
    [data] stores the two tokens and the expiry [now + expires_in]; as
    long as the clock has not reached that expiry, [ensure_valid_token]
    leaves the store alone and sends nothing. *)
Theorem password_grant_round_trip (E : env) (url user pw : string)
    (s : TokenManager.t) (w : world) (resp : response)
    (body d : list (string * pyval)) (a r x : pyval) (expiry : float) :
  env_cancel E (tick w) = false ->
  env_http E (tick w) = Ok resp ->
  status resp = 200 ->
  json resp = Ok (PDict body) ->
  assoc body "data" = Some (PDict d) ->
  assoc d "access_token" = Some a ->
  assoc d "refresh_token" = Some r ->
  assoc d "expires_in" = Some x ->
  py_float_add (env_time E (S (tick w))) x = Ok expiry ->
  let s' := TokenManager.mk a r (Some expiry) in
  TokenManager.get_access_token E url user pw s w =
    (Ok tt, s', waited 1 (after (password_grant_request url user pw) w)) /\
  (forall w2,
     PrimFloat.leb expiry (env_time E (tick w2)) = false ->
     TokenManager.ensure_valid_token E url s' w2 = (Ok tt, s', waited 1 w2)).
Proof.
  intros Hcancel Hhttp Hstatus Hjson Hdata Ha Hr Hx Hexpiry s'. split.
  - unfold TokenManager.get_access_token.
    unfold bind at 1. rewrite session_post_cases, Hcancel, Hhttp, Hstatus.
    cbn [Z.eqb Pos.eqb negb].
    unfold TokenManager.install, TokenManager.response_incomplete.
    coro_unfold. rewrite Hjson. cbn [py_get].
    unfold dict_get_default. rewrite Hdata.
    assert (Htruthy : truthy (PDict d) = true)
      by (destruct d; [discriminate Ha|reflexivity]).
    rewrite Htruthy. cbn [negb py_contains rbind]. unfold dict_has.
    rewrite Ha, Hr, Hx. cbn [negb py_getitem]. rewrite Ha, Hr, Hx.
    cbn [after tick]. rewrite Hexpiry. reflexivity.
  - intros w2 Hfresh. unfold TokenManager.ensure_valid_token. coro_unfold.
    subst s'. cbn [TokenManager.token_expiry tick]. rewrite Hfresh.
    reflexivity.
Qed.

Lemma password_grant_round_trip_witness :
  let E := answer_env 200
             (PDict [ ("data", PDict [ ("access_token", PStr "A2");
                                       ("refresh_token", PStr "R2");
                                       ("expires_in", PInt 3600) ]) ])
             (fun _ => Raise JSONDecodeError) in
  let s' := TokenManager.mk (PStr "A2") (PStr "R2") (Some 4600%float) in
  TokenManager.get_access_token E "https://api-eu.sigencloud.com/"
    "user@example.com" "pw" TokenManager.init start =
    (Ok tt, s',
     waited 1 (after (password_grant_request "https://api-eu.sigencloud.com/"
                        "user@example.com" "pw") start)) /\
  TokenManager.ensure_valid_token E "https://api-eu.sigencloud.com/" s'
    {| tick := 2; trace := [] |} = (Ok tt, s', {| tick := 3; trace := [] |}).
Proof.
  cbv zeta.
  assert (Hexpiry : py_float_add 1000%float (PInt 3600) = Ok 4600%float)
    by (vm_compute; reflexivity).
  pose proof (password_grant_round_trip
                (answer_env 200
                   (PDict [ ("data", PDict [ ("access_token", PStr "A2");
                                             ("refresh_token", PStr "R2");
                                             ("expires_in", PInt 3600) ]) ])
                   (fun _ => Raise JSONDecodeError))
                "https://api-eu.sigencloud.com/" "user@example.com" "pw"
                TokenManager.init start _ _ _ (PStr "A2") (PStr "R2") (PInt 3600)
                4600%float eq_refl eq_refl eq_refl eq_refl eq_refl eq_refl
                eq_refl eq_refl Hexpiry) as [Hlogin Hvalid].
  split; [exact Hlogin|].
  exact (Hvalid {| tick := 2; trace := [] |} eq_refl).
Defined.

(* ================================================================== *)
(** * Operational modes: what the lookup reads *)
(* ================================================================== *)

(** X16: the current-mode answer must carry both [currentMode] and
    [currentProfileId].  Without either the lookup raises [KeyError]
    before it looks at the cached modes, also when the mode is a default
    one, for which the profile id is never used. *)
Theorem profile_id_is_required (repr : pyval -> string)
    (d : list (string * pyval)) (cached_modes : pyval) :
  dict_has d "currentMode" = false \/ dict_has d "currentProfileId" = false ->
  Modes.current_mode_label repr (PDict d) cached_modes = Raise KeyError.
Proof.
  unfold Modes.current_mode_label, dict_has. cbn [py_getitem].
  intros [H|H].
  - destruct (assoc d "currentMode"); [discriminate|reflexivity].
  - destruct (assoc d "currentMode"); [|reflexivity]. cbn [rbind].
    destruct (assoc d "currentProfileId"); [discriminate|reflexivity].
Qed.

Lemma profile_id_is_required_witness :
  Modes.current_mode_label (fun _ => "") (PDict [ ("currentMode", PInt 5) ])
    example_modes = Raise KeyError.
Proof.
  exact (profile_id_is_required (fun _ => "") [ ("currentMode", PInt 5) ]
           example_modes (or_intror eq_refl)).
Defined.

(** X17: the search through the cached modes stops at the first mode that
    matches.  Nothing after it is read: whatever follows the first match,
    well formed or not, the search gives what it gives when the list ends
    there. *)
Theorem first_match_reads_no_further (pre post : list pyval) (m : pyval)
    (key out : string) (wanted v : pyval) :
  py_getitem m key = Ok v ->
  py_eq v wanted = true ->
  Modes.first_match (pre ++ m :: post) key wanted out =
    Modes.first_match (pre ++ [ m ]) key wanted out.
Proof.
  intros Hkey Heq. induction pre as [|m' pre IH]; simpl.
  - rewrite Hkey. simpl. rewrite Heq. reflexivity.
  - destruct (py_getitem m' key) as [v'|e|]; simpl; try reflexivity.
    destruct (py_eq v' wanted); [reflexivity|exact IH].
Qed.

Lemma first_match_reads_no_further_witness :
  Modes.first_match
    [ PDict [ ("label", PStr "Maximum Self-Consumption"); ("value", PStr "0") ];
      PDict [ ("label", PStr "Fully Feed-in to Grid"); ("value", PStr "5") ];
      PNone ]
    "value" (PStr "5") "label" = Ok (Some (PStr "Fully Feed-in to Grid")).
Proof.
  exact (first_match_reads_no_further
           [ PDict [ ("label", PStr "Maximum Self-Consumption");
                     ("value", PStr "0") ] ]
           [ PNone ]
           (PDict [ ("label", PStr "Fully Feed-in to Grid"); ("value", PStr "5") ])
           "value" "label" (PStr "5") (PStr "5") eq_refl eq_refl).
Defined.

(* ================================================================== *)
(** * Stream session: [disconnect] *)
(* ================================================================== *)

(** X18: [disconnect] always leaves the session marked as not connected,
    sends nothing and keeps the login.  It returns with the broker client
    dropped when there is no listen task, when the task is done, and also
    when waiting for the task ends in a cancellation, which it swallows;
    an exception of the task other than a cancellation passes through,
    and then the broker client is still in place.  Either way a battery
    command sent afterwards is refused as not connected. *)
Theorem disconnect_marks_the_session (E : env)
    (listen_task : option Teardown.task) (commands : list pyval)
    (s : SigenMQTT.t) (w : world) :
  let r := fst (fst (Teardown.disconnect E listen_task s w)) in
  let s' := snd (fst (Teardown.disconnect E listen_task s w)) in
  let w' := snd (Teardown.disconnect E listen_task s w) in
  trace w' = trace w /\
  SigenMQTT._nb_client s' = SigenMQTT._nb_client s /\
  match r with
  | Ok _ => s' = SigenMQTT.mark_disconnected s
  | Raise e =>
      is_CancelledError e = false /\ s' = SigenMQTT.set_connected false s
  | Pending => False
  end /\
  match listen_task with
  | Some tk => Teardown.done tk = true -> r = Ok tt /\ w' = w
  | None => r = Ok tt /\ w' = w
  end /\
  SigenMQTT.send_battery_commands E commands s' w' =
    (Raise (RuntimeError "MQTT not connected"), s', w').
Proof.
  assert (Hsend : forall (s0 : SigenMQTT.t) (w0 : world),
            SigenMQTT._connected s0 = false ->
            SigenMQTT.send_battery_commands E commands s0 w0 =
              (Raise (RuntimeError "MQTT not connected"), s0, w0)).
  { intros s0 w0 Hoff.
    unfold SigenMQTT.send_battery_commands, bind, get, raise.
    rewrite Hoff. destruct (SigenMQTT._mqtt_client s0); reflexivity. }
  unfold Teardown.disconnect, Teardown.await_task. coro_unfold. cbv zeta.
  destruct listen_task as [[[|]]|]; simpl.
  - repeat split; apply Hsend; reflexivity.
  - destruct (env_cancel E (tick w)); simpl.
    + repeat split; try discriminate; apply Hsend; reflexivity.
    + destruct (env_io E (tick w)) as [e|]; simpl.
      * destruct e; simpl; repeat split; try discriminate;
          apply Hsend; reflexivity.
      * repeat split; try discriminate; apply Hsend; reflexivity.
  - repeat split; apply Hsend; reflexivity.
Qed.

(* ================================================================== *)
(** * The client: station, modes and northbound queries *)
(* ================================================================== *)

Section ClientFacts.

Variable E : env.
Variable repr : pyval -> string.

Lemma read_keys_on_mapping (d : list (string * pyval)) (keys : list string) :
Endpoints.read_keys (PDict d) keys =
  if forallb (dict_has d) keys then Ok tt else Raise KeyError.
Proof.
induction keys as [|key keys IH]; [reflexivity|].
cbn [Endpoints.read_keys forallb py_getitem]. unfold dict_has at 1.
destruct (assoc d key); [exact IH|reflexivity].
Qed.

Lemma session_get_cases {St : Type} (url : string)
  (headers : list (string * string)) (s : St) (w : world) :
session_get E url headers s w =
  (if env_cancel E (tick w) then Raise CancelledError else env_http E (tick w),
   s, after (EHttpGet url headers) w).
Proof.
unfold session_get, suspend, emit, next_tick, bind, raise, ret, lift, after.
simpl. destruct (env_cancel E (tick w)); [reflexivity|].
destruct (env_http E (tick w)); reflexivity.
Qed.

(** The key login and the password login keep the base URL, and so does
  [ensure_token]. *)
Lemma nb_ensure_token_keeps_url (s : NorthboundClient.t) (w : world) :
NorthboundClient.base_url (snd (fst (NorthboundClient.ensure_token E s w))) =
  NorthboundClient.base_url s.
Proof.
assert (Hrelogin : forall w0,
          NorthboundClient.base_url
            (snd (fst (NorthboundClient.relogin E s w0))) =
            NorthboundClient.base_url s).
{ intros w0. unfold NorthboundClient.relogin, bind, get.
  destruct (NorthboundClient._app_key s) as [[k sec]|] eqn:Hk.
  - rewrite (login_with_key_cases E s w0 k sec Hk). cbv zeta.
    destruct (env_cancel E (tick w0)); [reflexivity|].
    destruct (env_http E (tick w0)) as [resp|e|]; try reflexivity.
    apply accept_login_frame.
  - rewrite login_cases. cbv zeta.
    destruct (env_cancel E (tick w0)); [reflexivity|].
    destruct (env_http E (tick w0)) as [resp|e|]; try reflexivity.
    apply accept_login_frame. }
unfold NorthboundClient.ensure_token.
unfold bind at 1, get. unfold bind at 1.
assert (Hstale : forall (w0 : world),
          NorthboundClient.base_url
            (snd (fst (bind
               (bind (NorthboundClient.relogin E) (fun _ => ret tt))
               (fun _ => bind get
                  (fun s' => ret (NorthboundClient.access_token s'))) s w0))) =
            NorthboundClient.base_url s).
{ intros w0. specialize (Hrelogin w0). unfold bind, get, ret.
  destruct (NorthboundClient.relogin E s w0) as [[[a|e|] s1] w1];
    exact Hrelogin. }
destruct (negb (truthy (NorthboundClient.access_token s))).
- exact (Hstale w).
- destruct (negb (NorthboundClient.expiry_truthy
                    (NorthboundClient.token_expiry s))); [reflexivity|].
  unfold bind at 1. rewrite time_time_cases.
  destruct (match NorthboundClient.token_expiry s with
            | Some expiry => PrimFloat.leb expiry (env_time E (tick w))
            | None => false
            end).
  + exact (Hstale (waited 1 w)).
  + reflexivity.
Qed.

(** What [fetch_station_info] returns is a mapping with the nine keys. *)
Lemma fetch_station_info_returns (base_url : string) (s s' : TokenManager.t)
  (w w' : world) (data : pyval) :
Endpoints.fetch_station_info E repr base_url s w = (Ok data, s', w') ->
exists d, data = PDict d /\
          forallb (dict_has d) Endpoints.logged_keys = true.
Proof.
unfold Endpoints.fetch_station_info.
unfold bind at 1.
destruct (TokenManager.ensure_valid_token E base_url s w)
  as [[[[]|e|] s1] w1]; try discriminate.
unfold bind at 1, get. unfold bind at 1. rewrite session_get_cases.
destruct (env_cancel E (tick w1)); [discriminate|].
destruct (env_http E (tick w1)) as [resp|e|]; try discriminate.
unfold bind, lift, ret.
destruct (json resp) as [body|e|]; try discriminate.
destruct (py_getitem body "data") as [data0|e|]; try discriminate.
destruct data0 as [ |b|z|f|str|l|d]; try discriminate.
rewrite read_keys_on_mapping.
destruct (forallb (dict_has d) Endpoints.logged_keys) eqn:Hkeys;
  [|discriminate].
intros H. injection H as <- _ _. exists d. split; [reflexivity|exact Hkeys].
Qed.

End ClientFacts.

(** X19: [fetch_station_info] hands the station data back only when the
    data is a mapping that has all nine keys it logs; with one of them
    missing it raises [KeyError], and on data that is not a mapping
    [TypeError], after the request was answered. *)
Theorem station_info_needs_every_logged_key (E : env) (repr : pyval -> string)
    (base_url : string) (s s1 : TokenManager.t) (w w1 : world)
    (resp : response) (body data : pyval) :
  TokenManager.ensure_valid_token E base_url s w = (Ok tt, s1, w1) ->
  env_cancel E (tick w1) = false ->
  env_http E (tick w1) = Ok resp ->
  json resp = Ok body ->
  py_getitem body "data" = Ok data ->
  Endpoints.fetch_station_info E repr base_url s w =
    (match data with
     | PDict d =>
         if forallb (dict_has d) Endpoints.logged_keys
         then Ok data else Raise KeyError
     | _ => Raise TypeError
     end,
     s1,
     after (EHttpGet (base_url ++ "device/owner/station/home")
              (TokenManager.headers repr s1)) w1).
Proof.
  intros Hvalid Hcancel Hhttp Hjson Hdata.
  unfold Endpoints.fetch_station_info.
  unfold bind at 1. rewrite Hvalid.
  unfold bind at 1, get. unfold bind at 1.
  rewrite session_get_cases, Hcancel, Hhttp.
  unfold bind, lift, ret. rewrite Hjson, Hdata.
  destruct data as [ |b|z|f|str|l|d]; try reflexivity.
  rewrite read_keys_on_mapping.
  destruct (forallb (dict_has d) Endpoints.logged_keys); reflexivity.
Qed.

Lemma station_info_needs_every_logged_key_witness :
  fst (fst (Endpoints.fetch_station_info (data_env partial_station)
              (fun _ => "") "https://api-eu.sigencloud.com/" logged_in_store
              start)) = Raise KeyError.
Proof.
  rewrite (station_info_needs_every_logged_key (data_env partial_station)
             (fun _ => "") "https://api-eu.sigencloud.com/" logged_in_store
             logged_in_store start start _ _ partial_station
             eq_refl eq_refl eq_refl eq_refl eq_refl).
  reflexivity.
Defined.

(** X20: what [Sigen.fetch_station_info] keeps of station data whose
    serial lists are lists.  The station id is the [stationId] of the
    data.  The DC serial is written in every case: the first entry of
    [dcSnList], or [None] when the list is empty.  The AC serial is
    written only for a station whose [hasAcCharger] is truthy: the first
    entry of [acSnList], or [None] when that list is empty; without an AC
    charger the client keeps the AC serial it had, whatever [acSnList]
    holds. *)
Theorem station_serials (E : env) (repr : pyval -> string) (s : Sigen.t)
    (tm : TokenManager.t) (w w' : world) (d : list (string * pyval))
    (acs dcs : list pyval) :
  Endpoints.fetch_station_info E repr (Sigen.base_url s) (Sigen._token_mgr s) w =
    (Ok (PDict d), tm, w') ->
  assoc d "acSnList" = Some (PList acs) ->
  assoc d "dcSnList" = Some (PList dcs) ->
  exists sid s',
    assoc d "stationId" = Some sid /\
    Sigen.fetch_station_info E repr s w = (Ok (PDict d), s', w') /\
    Sigen.station_id s' = sid /\
    Sigen.dc_sn s' = hd PNone dcs /\
    Sigen.ac_sn s' =
      (if truthy (dict_get_default d "hasAcCharger" PNone)
       then hd PNone acs else Sigen.ac_sn s) /\
    Sigen._token_mgr s' = tm /\
    Sigen._nb_client s' = Sigen._nb_client s /\
    Sigen.operational_modes s' = Sigen.operational_modes s.
Proof.
  intros Hfetch Hacs Hdcs.
  assert (Hsid : exists sid, assoc d "stationId" = Some sid).
  { destruct (fetch_station_info_returns E repr _ _ _ _ _ _ Hfetch)
      as (d0 & [= <-] & Hkeys).
    cbn [Endpoints.logged_keys forallb] in Hkeys.
    apply andb_prop in Hkeys. destruct Hkeys as [Hkey _].
    unfold dict_has in Hkey.
    destruct (assoc d "stationId") as [sid|]; [|discriminate].
    exists sid. reflexivity. }
  assert (Hfirst : forall key l,
            assoc d key = Some (PList l) ->
            Sigen.first_serial (PDict d) key = Ok (hd PNone l)).
  { intros key l Hl. unfold Sigen.first_serial, dict_get_default.
    cbn [py_get rbind py_getitem]. unfold dict_get_default. rewrite Hl.
    destruct l; reflexivity. }
  destruct Hsid as [sid Hsid]. exists sid.
  unfold Sigen.fetch_station_info.
  unfold bind at 1, get. unfold bind at 1, on_part. rewrite Hfetch.
  unfold bind, lift, modify, ret. cbn [py_getitem py_get].
  rewrite Hsid, (Hfirst _ _ Hacs), (Hfirst _ _ Hdcs).
  destruct (truthy (dict_get_default d "hasAcCharger" PNone));
    (eexists; split; [reflexivity|]; split; [reflexivity|];
     repeat split; reflexivity).
Qed.

(** A station with an AC charger takes its first AC and DC serials; one
    without keeps the AC serial it had and, with no DC serial listed,
    loses its DC serial. *)
Lemma station_serials_witness :
  (exists s',
     fst (Sigen.fetch_station_info (data_env charger_station) (fun _ => "")
            example_client start) = (Ok charger_station, s') /\
     Sigen.station_id s' = PInt 8 /\
     Sigen.ac_sn s' = PStr "AC1" /\
     Sigen.dc_sn s' = PStr "DC1") /\
  (exists s',
     fst (Sigen.fetch_station_info (data_env example_station) (fun _ => "")
            example_client start) = (Ok example_station, s') /\
     Sigen.station_id s' = PInt 7 /\
     Sigen.ac_sn s' = PStr "AC0" /\
     Sigen.dc_sn s' = PNone).
Proof.
  split.
  - destruct (station_serials (data_env charger_station) (fun _ => "")
                example_client logged_in_store start _ _
                [ PStr "AC1" ] [ PStr "DC1"; PStr "DC2" ]
                eq_refl eq_refl eq_refl)
      as (sid & s' & Hsid & Hrun & Hstation & Hdc & Hac & _).
    injection Hsid as <-.
    exists s'. rewrite Hrun. repeat split; assumption.
  - destruct (station_serials (data_env example_station) (fun _ => "")
                example_client logged_in_store start _ _
                [ PStr "AC1" ] [] eq_refl eq_refl eq_refl)
      as (sid & s' & Hsid & Hrun & Hstation & Hdc & Hac & _).
    injection Hsid as <-.
    exists s'. rewrite Hrun. repeat split; assumption.
Defined.

(** X21: the operational modes are fetched once.  While the client holds
    modes that are not empty, [get_operational_modes] answers from them
    and sends nothing; a fetch stores what it returns, so the next
    [get_operational_modes] is answered from the store unless the fetched
    modes were empty. *)
Theorem operational_modes_are_cached (E : env) (repr : pyval -> string)
    (s : Sigen.t) (w : world) :
  (truthy (Sigen.operational_modes s) = true ->
   Sigen.get_operational_modes E repr s w =
     (Ok (Sigen.operational_modes s), s, w)) /\
  (forall modes s' w',
     Sigen.fetch_operational_modes E repr s w = (Ok modes, s', w') ->
     Sigen.operational_modes s' = modes /\
     (truthy modes = true ->
      forall w2, Sigen.get_operational_modes E repr s' w2 = (Ok modes, s', w2))).
Proof.
  assert (Hcached : forall s0 w0,
            truthy (Sigen.operational_modes s0) = true ->
            Sigen.get_operational_modes E repr s0 w0 =
              (Ok (Sigen.operational_modes s0), s0, w0)).
  { intros s0 w0 Htruthy. unfold Sigen.get_operational_modes, bind, get, ret.
    rewrite Htruthy. reflexivity. }
  split; [apply Hcached|].
  intros modes s' w'. unfold Sigen.fetch_operational_modes.
  unfold bind at 1, get. unfold bind at 1, on_part.
  destruct (Endpoints.fetch_operational_modes E repr (Sigen.base_url s)
              (Sigen.station_id s) (Sigen._token_mgr s) w)
    as [[[fetched|e|] tm] w1]; try discriminate.
  unfold bind, modify, get, ret. intros [= <- <- <-].
  split; [reflexivity|].
  intros Htruthy w2.
  exact (Hcached (Sigen.set_operational_modes fetched (Sigen.set_token_mgr tm s))
           w2 Htruthy).
Qed.

Lemma operational_modes_are_cached_witness :
  Sigen.get_operational_modes silent_env (fun _ => "") example_client start =
    (Ok example_modes, example_client, start).
Proof.
  exact (proj1 (operational_modes_are_cached silent_env (fun _ => "")
                  example_client start) eq_refl).
Defined.

(** X22: [nb_query_mode] needs the northbound client.  Without one it
    raises [RuntimeError] at once, with nothing sent and nothing changed;
    with one it is [query_mode] on that client for the client's station,
    and what [query_mode] did to the northbound client stays done,
    whether it returned or raised. *)
Theorem nb_query_mode_needs_a_client (E : env) (repr : pyval -> string)
    (s : Sigen.t) (w : world) :
  match Sigen._nb_client s with
  | None => Sigen.nb_query_mode E repr s w = (Raise Sigen.not_initialized, s, w)
  | Some nb =>
      Sigen.nb_query_mode E repr s w =
        (fst (fst (Instructions.query_mode E repr (Sigen.station_id s) nb w)),
         Sigen.set_nb_client
           (Some (snd (fst (Instructions.query_mode E repr (Sigen.station_id s)
                              nb w)))) s,
         snd (Instructions.query_mode E repr (Sigen.station_id s) nb w))
  end.
Proof.
  unfold Sigen.nb_query_mode, bind, get, raise, on_part.
  destruct (Sigen._nb_client s) as [nb|]; [|reflexivity].
  destruct (Instructions.query_mode E repr (Sigen.station_id s) nb w)
    as [[r nb'] w']. reflexivity.
Qed.

(** X23: [query_mode] asks with the token that [ensure_token] has just
    given it, which is the token the client then holds: after a new login
    the new one.  It sends one GET for the settings of the system to the
    base URL of the client, with that token as the bearer, and refuses an
    answer whose [code] is not 0 with [SigenAPIError]. *)
Theorem query_mode_sends_the_current_token (E : env) (repr : pyval -> string)
    (system_id : pyval) (s : NorthboundClient.t) (w : world) :
  match NorthboundClient.ensure_token E s w with
  | (Ok token, s1, w1) =>
      NorthboundClient.access_token s1 = token /\
      exists r,
        Instructions.query_mode E repr system_id s w =
          (r, s1,
           after (query_mode_request repr (NorthboundClient.base_url s)
                    system_id token) w1) /\
        forall resp body code,
          env_cancel E (tick w1) = false ->
          env_http E (tick w1) = Ok resp ->
          json resp = Ok body ->
          py_get body "code" PNone = Ok code ->
          py_eq_int code 0 = false ->
          r = Raise (OtherException "SigenAPIError")
  | (Raise e, s1, w1) =>
      Instructions.query_mode E repr system_id s w = (Raise e, s1, w1)
  | (Pending, s1, w1) =>
      Instructions.query_mode E repr system_id s w = (Pending, s1, w1)
  end.
Proof.
  pose proof (nb_ensure_token_frame E s w) as (evs & _ & _ & Htoken).
  pose proof (nb_ensure_token_keeps_url E s w) as Hurl.
  destruct (NorthboundClient.ensure_token E s w) as [[[token|e|] s1] w1]
    eqn:Hensure;
    try (unfold Instructions.query_mode; unfold bind at 1; rewrite Hensure;
         reflexivity).
  simpl in Htoken, Hurl. split; [symmetry; exact (Htoken token eq_refl)|].
  unfold Instructions.query_mode. unfold bind at 1. rewrite Hensure.
  unfold bind at 1, get. unfold bind at 1.
  rewrite session_get_cases, Hurl. unfold query_mode_request.
  destruct (env_cancel E (tick w1)) eqn:Hcancel;
    [eexists; split; [reflexivity|discriminate]|].
  destruct (env_http E (tick w1)) as [resp|e|] eqn:Hhttp;
    try (eexists; split; [reflexivity|discriminate]).
  unfold bind, lift, raise.
  destruct (json resp) as [body|e|] eqn:Hjson;
    try (eexists; split;
         [reflexivity
         |intros resp0 body0 code0 _ [= <-] Hj; rewrite Hjson in Hj;
          discriminate Hj]).
  destruct (py_get body "code" PNone) as [code|e|] eqn:Hcode;
    try (eexists; split;
         [reflexivity
         |intros resp0 body0 code0 _ [= <-] Hj Hco; rewrite Hjson in Hj;
          injection Hj as <-; rewrite Hcode in Hco; discriminate Hco]).
  destruct (negb (py_eq_int code 0)) eqn:Hne.
  - eexists. split; reflexivity.
  - destruct (py_getitem body "data") as [data|e|];
      (eexists; split;
       [reflexivity
       |intros resp0 body0 code0 _ [= <-] Hj Hco Hfalse; rewrite Hjson in Hj;
        injection Hj as <-; rewrite Hcode in Hco; injection Hco as <-;
        rewrite Hfalse in Hne; discriminate Hne]).
Qed.

(* ================================================================== *)
(** * Smart loads *)
(* ================================================================== *)

Section SmartLoadFacts.

Variable E : env.
Variable repr : pyval -> string.

Lemma session_request_cases (r : SmartLoads.request) (s : SmartLoads.store)
  (w : world) :
SmartLoads.session_request E r s w =
  (if env_cancel E (tick w) then Raise CancelledError else env_http E (tick w),
   SmartLoads.log r s, waited 1 w).
Proof.
unfold SmartLoads.session_request, suspend, next_tick, bind, modify, raise,
  ret, lift, waited. simpl.
destruct (env_cancel E (tick w)); [reflexivity|].
destruct (env_http E (tick w)); reflexivity.
Qed.

(** With no expiry to watch, checking the token does nothing. *)
Lemma ensure_valid_token_idle (base_url : string) (s : SmartLoads.store)
  (w : world) :
TokenManager.token_expiry (SmartLoads.token_mgr s) = None ->
SmartLoads.ensure_valid_token E base_url s w = (Ok tt, s, w).
Proof.
intros Hnone.
unfold SmartLoads.ensure_valid_token, on_part,
  TokenManager.ensure_valid_token, bind, get, ret.
rewrite Hnone. destruct s. reflexivity.
Qed.

Lemma ensure_valid_token_cache (base_url : string) (s : SmartLoads.store)
  (w : world) :
SmartLoads.id_map (snd (fst (SmartLoads.ensure_valid_token E base_url s w))) =
  SmartLoads.id_map s.
Proof.
unfold SmartLoads.ensure_valid_token, on_part.
destruct (TokenManager.ensure_valid_token E base_url (SmartLoads.token_mgr s) w)
  as [[r p] w']. reflexivity.
Qed.

Lemma data_or_fallback (fallback : pyval) (resp : response)
  (body : list (string * pyval)) :
status resp <> 200 \/
(json resp = Ok (PDict body) /\
 (py_eq_int (dict_get_default body "code" PNone) 0 = false \/
  dict_has body "data" = false)) ->
SmartLoads.data_or fallback resp = Ok fallback.
Proof.
unfold SmartLoads.data_or.
intros [Hstatus | [Hjson Hbody]].
- apply Z.eqb_neq in Hstatus. rewrite Hstatus. reflexivity.
- destruct (negb (status resp =? 200)); [reflexivity|].
  rewrite Hjson. cbn [rbind py_get py_contains].
  destruct Hbody as [-> | Hdata]; [reflexivity|].
  destruct (negb (py_eq_int (dict_get_default body "code" PNone) 0));
    [reflexivity|].
  rewrite Hdata. reflexivity.
Qed.

(** ** Writing to a load *)

Lemma dict_has_set (d : list (string * pyval)) (k k' : string) (v : pyval) :
dict_has (SmartLoads.dict_set d k v) k' =
  (String.eqb k k' || dict_has d k')%bool.
Proof.
unfold dict_has. induction d as [|[k0 v0] d IH]; simpl.
- destruct (String.eqb k k'); reflexivity.
- destruct (String.eqb k0 k) eqn:Hk0; simpl.
  + apply String.eqb_eq in Hk0. subst k0.
    destruct (String.eqb k k'); reflexivity.
  + destruct (String.eqb k0 k'); [rewrite orb_true_r; reflexivity|exact IH].
Qed.

Lemma assoc_set_other (d : list (string * pyval)) (k k' : string) (v : pyval) :
String.eqb k k' = false ->
assoc (SmartLoads.dict_set d k v) k' = assoc d k'.
Proof.
intros Hne. induction d as [|[k0 v0] d IH]; simpl.
- rewrite Hne. reflexivity.
- destruct (String.eqb k0 k) eqn:Hk0; simpl.
  + apply String.eqb_eq in Hk0. subst k0. rewrite Hne. reflexivity.
  + destruct (String.eqb k0 k'); [reflexivity|exact IH].
Qed.

Lemma setitem_keeps_consumption (load l : pyval) (k : string) (v : pyval) :
SmartLoads.py_setitem load k v = Ok l ->
has_consumption load = true -> has_consumption l = true.
Proof.
destruct load as [ | | | | | |d]; simpl; try discriminate.
intros [= <-]. simpl. rewrite !dict_has_set.
intros H. apply andb_prop in H. destruct H as [H Hl].
apply andb_prop in H. destruct H as [Ht Hm].
rewrite Ht, Hm, Hl, !orb_true_r. reflexivity.
Qed.

Lemma copy_keeps_consumption (consumption load l : pyval) (k : string) :
SmartLoads.copy_if_set consumption k load = Ok l ->
has_consumption load = true -> has_consumption l = true.
Proof.
unfold SmartLoads.copy_if_set.
destruct (py_get consumption k PNone) as [v|e|]; simpl; try discriminate.
destruct (truthy v).
- destruct (py_getitem consumption k) as [v'|e|]; simpl; try discriminate.
  apply setitem_keeps_consumption.
- intros [= <-]. trivial.
Qed.

Lemma defaults_give_consumption (load l1 l2 l3 : pyval) (a b c : pyval) :
SmartLoads.py_setitem load "todayConsumption" a = Ok l1 ->
SmartLoads.py_setitem l1 "monthConsumption" b = Ok l2 ->
SmartLoads.py_setitem l2 "lifetimeConsumption" c = Ok l3 ->
has_consumption l3 = true.
Proof.
destruct load as [ | | | | | |d]; simpl; try discriminate.
intros [= <-]. simpl. intros [= <-]. simpl. intros [= <-]. simpl.
rewrite !dict_has_set. simpl. rewrite ?orb_true_r. reflexivity.
Qed.

Lemma add_consumption_keeps (base_url : string)
  (station_id load_path smart_load_id load l : pyval)
  (s s' : SmartLoads.store) (w w' : world) :
SmartLoads.add_consumption E repr base_url station_id load_path smart_load_id
  load s w = (Ok l, s', w') ->
has_consumption load = true -> has_consumption l = true.
Proof.
unfold SmartLoads.add_consumption, try_except. unfold bind at 1.
destruct (SmartLoads.fetch_smart_load_consumption E repr base_url station_id
            load_path smart_load_id s w) as [[[c|e|] s1] w1].
- unfold bind, lift, ret.
  destruct (SmartLoads.copy_if_set c "todayConsumption" load)
    as [l1|e|] eqn:H1.
  + destruct (SmartLoads.copy_if_set c "monthConsumption" l1)
      as [l2|e|] eqn:H2.
    * destruct (SmartLoads.copy_if_set c "lifetimeConsumption" l2)
        as [l3|e|] eqn:H3.
      -- intros [= <- _ _] Hload.
         eauto using copy_keeps_consumption.
      -- destruct (is_Exception e); [|discriminate].
         intros [= <- _ _]. trivial.
      -- discriminate.
    * destruct (is_Exception e); [|discriminate].
      intros [= <- _ _]. trivial.
    * discriminate.
  + destruct (is_Exception e); [|discriminate].
    intros [= <- _ _]. trivial.
  + discriminate.
- unfold ret, raise. destruct (is_Exception e); [|discriminate].
  intros [= <- _ _]. trivial.
- discriminate.
Qed.

Lemma enrich_gives_consumption (base_url : string) (station_id load l : pyval)
  (s s' : SmartLoads.store) (w w' : world) :
SmartLoads.enrich E repr base_url station_id load s w = (Ok l, s', w') ->
has_consumption l = true.
Proof.
unfold SmartLoads.enrich.
unfold bind at 1, lift.
destruct (SmartLoads.py_setitem load "todayConsumption" (PStr "0.00 kWh"))
  as [l1|e|] eqn:H1; try discriminate.
unfold bind at 1.
destruct (SmartLoads.py_setitem l1 "monthConsumption" (PStr "0.00 kWh"))
  as [l2|e|] eqn:H2; try discriminate.
unfold bind at 1.
destruct (SmartLoads.py_setitem l2 "lifetimeConsumption" (PStr "0.00 kWh"))
  as [l3|e|] eqn:H3; try discriminate.
pose proof (defaults_give_consumption _ _ _ _ _ _ _ H1 H2 H3) as Hl3.
unfold bind at 1.
destruct (py_contains l3 "path") as [has_path|e|]; try discriminate.
destruct (negb has_path).
{ unfold ret. intros [= <- _ _]. exact Hl3. }
unfold bind at 1.
destruct (py_getitem l3 "path") as [load_path|e|]; try discriminate.
unfold bind at 1, get. unfold bind at 1.
destruct (SmartLoads.map_get (SmartLoads.id_map s) load_path)
  as [cached|e|]; try discriminate.
unfold bind at 1.
destruct (match cached with
          | PNone => SmartLoads.resolve_id E repr base_url station_id load_path
          | _ => ret cached
          end s w) as [[[smart_load_id|e|] s1] w1]; try discriminate.
assert (Hadd : forall l4,
          SmartLoads.py_setitem l3 "smartLoadId" smart_load_id = Ok l4 ->
          SmartLoads.add_consumption E repr base_url station_id load_path
            smart_load_id l4 s1 w1 = (Ok l, s', w') ->
          has_consumption l = true).
{ intros l4 H4 Hrun.
  apply (add_consumption_keeps _ _ _ _ _ _ _ _ _ _ Hrun).
  exact (setitem_keeps_consumption _ _ _ _ H4 Hl3). }
destruct smart_load_id;
  try (unfold ret; intros [= <- _ _]; exact Hl3);
  (unfold bind, lift;
   destruct (SmartLoads.py_setitem l3 "smartLoadId" _) as [l4|e|] eqn:H4;
   try discriminate; exact (Hadd l4 eq_refl)).
Qed.

Lemma enrich_all_gives_consumption (base_url : string) (station_id : pyval)
  (loads : list pyval) :
forall (enriched : list pyval) (s s' : SmartLoads.store) (w w' : world),
  SmartLoads.enrich_all E repr base_url station_id loads s w =
    (Ok enriched, s', w') ->
  List.length enriched = List.length loads /\
  forallb has_consumption enriched = true.
Proof.
induction loads as [|load loads IH]; intros enriched s s' w w'.
- simpl. unfold ret. intros [= <- _ _]. split; reflexivity.
- cbn [SmartLoads.enrich_all]. unfold bind at 1.
  destruct (SmartLoads.enrich E repr base_url station_id load s w)
    as [[[l|e|] s1] w1] eqn:Hload; try discriminate.
  unfold bind at 1.
  destruct (SmartLoads.enrich_all E repr base_url station_id loads s1 w1)
    as [[[ls|e|] s2] w2] eqn:Hrest; try discriminate.
  unfold ret. intros [= <- _ _].
  destruct (IH ls s1 s2 w1 w2 Hrest) as [Hlen Hall].
  split; [simpl; rewrite Hlen; reflexivity|].
  simpl. rewrite (enrich_gives_consumption _ _ _ _ _ _ _ _ Hload), Hall.
  reflexivity.
Qed.

(** ** The cache of ids *)

Lemma keeps_refl (m : list (pyval * pyval)) : keeps m m.
Proof. intros k v H _. exact H. Qed.

Lemma keeps_trans (m1 m2 m3 : list (pyval * pyval)) :
keeps m1 m2 -> keeps m2 m3 -> keeps m1 m3.
Proof. intros H12 H23 k v H Hv. apply H23; [apply H12|]; assumption. Qed.

Lemma keeps_map_set (m : list (pyval * pyval)) (k v : pyval) :
SmartLoads.lookup m k = None \/ SmartLoads.lookup m k = Some PNone ->
keeps m (SmartLoads.map_set m k v).
Proof.
induction m as [|[k0 v0] m IH]; intros Hfree k' v' Hk' Hv'.
- discriminate Hk'.
- simpl in Hfree, Hk' |- *.
  destruct (py_eq k0 k) eqn:Hk0; simpl.
  + destruct (py_eq k0 k') eqn:Hk0'.
    * exfalso. injection Hk' as <-.
      destruct Hfree as [Hnone | [= ->]]; [discriminate|].
      apply Hv'. reflexivity.
    * exact Hk'.
  + destruct (py_eq k0 k'); [exact Hk'|].
    exact (IH Hfree k' v' Hk' Hv').
Qed.

Lemma map_get_none (m : list (pyval * pyval)) (k : pyval) :
SmartLoads.map_get m k = Ok PNone ->
SmartLoads.lookup m k = None \/ SmartLoads.lookup m k = Some PNone.
Proof.
unfold SmartLoads.map_get. destruct (SmartLoads.hashable k); [|discriminate].
destruct (SmartLoads.lookup m k) as [v|]; [|left; reflexivity].
intros [= ->]. right. reflexivity.
Qed.

Lemma fetch_details_cache (base_url : string) (station_id load_path : pyval)
  (s : SmartLoads.store) (w : world) :
SmartLoads.id_map
  (snd (fst (SmartLoads.fetch_smart_load_details E repr base_url station_id
               load_path s w))) = SmartLoads.id_map s.
Proof.
unfold SmartLoads.fetch_smart_load_details.
unfold bind at 1, get. unfold bind at 1. rewrite session_request_cases.
destruct (env_cancel E (tick w)); [reflexivity|].
destruct (env_http E (tick w)) as [resp|e|]; reflexivity.
Qed.

Lemma fetch_consumption_store (base_url : string)
  (station_id load_path smart_load_id : pyval)
  (s : SmartLoads.store) (w : world) :
snd (fst (SmartLoads.fetch_smart_load_consumption E repr base_url station_id
            load_path smart_load_id s w)) =
  SmartLoads.log (SmartLoads.consumption_request repr base_url station_id
                    load_path smart_load_id s) s.
Proof.
unfold SmartLoads.fetch_smart_load_consumption.
unfold bind at 1, get. unfold bind at 1. rewrite session_request_cases.
destruct (env_cancel E (tick w)); [reflexivity|].
destruct (env_http E (tick w)) as [resp|e|]; reflexivity.
Qed.

Lemma add_consumption_store (base_url : string)
  (station_id load_path smart_load_id load : pyval)
  (s : SmartLoads.store) (w : world) :
snd (fst (SmartLoads.add_consumption E repr base_url station_id load_path
            smart_load_id load s w)) =
  SmartLoads.log (SmartLoads.consumption_request repr base_url station_id
                    load_path smart_load_id s) s.
Proof.
pose proof (fetch_consumption_store base_url station_id load_path
              smart_load_id s w) as Hstore.
unfold SmartLoads.add_consumption, try_except. unfold bind at 1.
destruct (SmartLoads.fetch_smart_load_consumption E repr base_url station_id
            load_path smart_load_id s w) as [[[c|e|] s1] w1];
  simpl in Hstore; subst s1.
- unfold bind, lift, ret, raise.
  destruct (SmartLoads.copy_if_set c "todayConsumption" load) as [l1|e|];
    [|destruct (is_Exception e); reflexivity|reflexivity].
  destruct (SmartLoads.copy_if_set c "monthConsumption" l1) as [l2|e|];
    [|destruct (is_Exception e); reflexivity|reflexivity].
  destruct (SmartLoads.copy_if_set c "lifetimeConsumption" l2) as [l3|e|];
    [|destruct (is_Exception e); reflexivity|reflexivity].
  reflexivity.
- unfold ret, raise. destruct (is_Exception e); reflexivity.
- reflexivity.
Qed.

Lemma resolve_id_cache (base_url : string) (station_id load_path : pyval)
  (s : SmartLoads.store) (w : world) :
SmartLoads.map_get (SmartLoads.id_map s) load_path = Ok PNone ->
keeps (SmartLoads.id_map s)
  (SmartLoads.id_map
     (snd (fst (SmartLoads.resolve_id E repr base_url station_id load_path
                  s w)))).
Proof.
intros Hfree. apply map_get_none in Hfree.
pose proof (fetch_details_cache base_url station_id load_path s w) as Hsame.
unfold SmartLoads.resolve_id, try_except. unfold bind at 1.
destruct (SmartLoads.fetch_smart_load_details E repr base_url station_id
            load_path s w) as [[[details|e|] s1] w1]; simpl in Hsame.
- destruct (truthy details).
  + unfold bind at 1, lift.
    destruct (py_get details "smartLoadId" PNone) as [id|e|].
    * destruct id; unfold bind, modify, ret; simpl; rewrite ?Hsame;
        try apply keeps_refl; apply keeps_map_set; exact Hfree.
    * unfold ret, raise. destruct (is_Exception e); simpl; rewrite Hsame;
        apply keeps_refl.
    * simpl. rewrite Hsame. apply keeps_refl.
  + unfold ret. simpl. rewrite Hsame. apply keeps_refl.
- unfold ret, raise. destruct (is_Exception e); simpl; rewrite Hsame;
    apply keeps_refl.
- simpl. rewrite Hsame. apply keeps_refl.
Qed.

Lemma enrich_cache (base_url : string) (station_id load : pyval)
  (s : SmartLoads.store) (w : world) :
keeps (SmartLoads.id_map s)
  (SmartLoads.id_map
     (snd (fst (SmartLoads.enrich E repr base_url station_id load s w)))).
Proof.
unfold SmartLoads.enrich.
unfold bind at 1, lift.
destruct (SmartLoads.py_setitem load "todayConsumption" (PStr "0.00 kWh"))
  as [l1|e|]; try apply keeps_refl.
unfold bind at 1.
destruct (SmartLoads.py_setitem l1 "monthConsumption" (PStr "0.00 kWh"))
  as [l2|e|]; try apply keeps_refl.
unfold bind at 1.
destruct (SmartLoads.py_setitem l2 "lifetimeConsumption" (PStr "0.00 kWh"))
  as [l3|e|]; try apply keeps_refl.
unfold bind at 1.
destruct (py_contains l3 "path") as [has_path|e|]; try apply keeps_refl.
destruct (negb has_path); [apply keeps_refl|].
unfold bind at 1.
destruct (py_getitem l3 "path") as [load_path|e|]; try apply keeps_refl.
unfold bind at 1, get. unfold bind at 1.
destruct (SmartLoads.map_get (SmartLoads.id_map s) load_path)
  as [cached|e|] eqn:Hcached; try apply keeps_refl.
assert (Hid : keeps (SmartLoads.id_map s)
                (SmartLoads.id_map
                   (snd (fst (match cached with
                              | PNone => SmartLoads.resolve_id E repr base_url
                                           station_id load_path
                              | _ => ret cached
                              end s w))))).
{ destruct cached; try apply keeps_refl.
  apply resolve_id_cache. exact Hcached. }
unfold bind at 1.
destruct (match cached with
          | PNone => SmartLoads.resolve_id E repr base_url station_id load_path
          | _ => ret cached
          end s w) as [[[smart_load_id|e|] s1] w1]; simpl in Hid;
  try exact Hid.
assert (Hadd : forall l4,
          keeps (SmartLoads.id_map s)
            (SmartLoads.id_map
               (snd (fst (SmartLoads.add_consumption E repr base_url station_id
                            load_path smart_load_id l4 s1 w1))))).
{ intros l4. rewrite add_consumption_store. exact Hid. }
destruct smart_load_id; try exact Hid;
  (unfold bind, lift;
   destruct (SmartLoads.py_setitem l3 "smartLoadId" _) as [l4|e|];
   try exact Hid; apply Hadd).
Qed.

Lemma enrich_all_cache (base_url : string) (station_id : pyval)
  (loads : list pyval) :
forall (s : SmartLoads.store) (w : world),
  keeps (SmartLoads.id_map s)
    (SmartLoads.id_map
       (snd (fst (SmartLoads.enrich_all E repr base_url station_id loads
                    s w)))).
Proof.
induction loads as [|load loads IH]; intros s w.
- apply keeps_refl.
- cbn [SmartLoads.enrich_all]. unfold bind at 1.
  pose proof (enrich_cache base_url station_id load s w) as Hload.
  destruct (SmartLoads.enrich E repr base_url station_id load s w)
    as [[[l|e|] s1] w1]; simpl in Hload; try exact Hload.
  unfold bind at 1.
  pose proof (IH s1 w1) as Hrest.
  destruct (SmartLoads.enrich_all E repr base_url station_id loads s1 w1)
    as [[[ls|e|] s2] w2]; simpl in Hrest;
    exact (keeps_trans _ _ _ Hload Hrest).
Qed.

Lemma fetch_list_cache (base_url : string) (station_id : pyval)
  (s : SmartLoads.store) (w : world) :
SmartLoads.id_map
  (snd (fst (SmartLoads.fetch_smart_load_list E repr base_url station_id
               s w))) = SmartLoads.id_map s.
Proof.
unfold SmartLoads.fetch_smart_load_list. unfold bind at 1.
pose proof (ensure_valid_token_cache base_url s w) as Hsame.
destruct (SmartLoads.ensure_valid_token E base_url s w) as [[[[]|e|] s1] w1];
  simpl in Hsame; try exact Hsame.
unfold bind at 1, get. unfold bind at 1. rewrite session_request_cases.
destruct (env_cancel E (tick w1)); [exact Hsame|].
destruct (env_http E (tick w1)) as [resp|e|]; exact Hsame.
Qed.

(** The module's token check is the token manager's, on the shared
  manager. *)
Lemma ensure_valid_token_shared (base_url : string) (s : SmartLoads.store)
  (w : world) :
SmartLoads.ensure_valid_token E base_url s w =
  (fst (fst (TokenManager.ensure_valid_token E base_url
               (SmartLoads.token_mgr s) w)),
   SmartLoads.set_token_mgr
     (snd (fst (TokenManager.ensure_valid_token E base_url
                  (SmartLoads.token_mgr s) w))) s,
   snd (TokenManager.ensure_valid_token E base_url (SmartLoads.token_mgr s) w)).
Proof.
unfold SmartLoads.ensure_valid_token, on_part.
destruct (TokenManager.ensure_valid_token E base_url (SmartLoads.token_mgr s) w)
  as [[r p] w']. reflexivity.
Qed.

Lemma assoc_set_same (d : list (string * pyval)) (k : string) (v : pyval) :
assoc (SmartLoads.dict_set d k v) k = Some v.
Proof.
induction d as [|[k0 v0] d IH]; simpl.
- rewrite String.eqb_refl. reflexivity.
- destruct (String.eqb k0 k) eqn:Hk0; simpl; rewrite Hk0;
    [reflexivity|exact IH].
Qed.

(** An answer that cannot be used, or an exchange that fails with an
  [Exception], leaves the load as it was given to [add_consumption]. *)
Lemma add_consumption_unfetched (base_url : string)
  (station_id load_path smart_load_id load : pyval)
  (s : SmartLoads.store) (w : world) :
env_cancel E (tick w) = false ->
(exists resp body,
   env_http E (tick w) = Ok resp /\
   (status resp <> 200 \/
    (json resp = Ok (PDict body) /\
     (py_eq_int (dict_get_default body "code" PNone) 0 = false \/
      dict_has body "data" = false)))) \/
(exists e, env_http E (tick w) = Raise e /\ is_Exception e = true) ->
fst (fst (SmartLoads.add_consumption E repr base_url station_id load_path
            smart_load_id load s w)) = Ok load.
Proof.
intros Hcancel Hbad.
unfold SmartLoads.add_consumption, try_except. unfold bind at 1.
unfold SmartLoads.fetch_smart_load_consumption.
unfold bind at 1, get. unfold bind at 1.
rewrite session_request_cases, Hcancel.
destruct Hbad as [(resp & body & Hhttp & Hresp) | (e & Hhttp & He)];
  rewrite Hhttp.
- unfold lift. rewrite (data_or_fallback (PDict []) resp body Hresp).
  reflexivity.
- rewrite He. reflexivity.
Qed.

End SmartLoadFacts.

(** X24: [set_smart_load_state] takes the states that equal 0 or 1 and
    no other: any other state raises [ValueError] before the token is
    looked at and before anything is sent.  For a state that passes, the
    token is checked first, and when that check fails nothing is sent;
    otherwise one PATCH goes out, with the headers of the token manager as
    the check left it and a URL that carries the station, the load path
    and the state as they print, so that [True] passes as 1 does and goes
    out as [manualSwitch=True]; the answer is returned as JSON whatever
    its status. *)
Theorem smart_load_state_is_guarded (E : env) (repr : pyval -> string)
    (base_url : string) (station_id load_path state : pyval)
    (s : SmartLoads.store) (w : world) :
  ((py_eq state (PInt 0) || py_eq state (PInt 1))%bool = false ->
   SmartLoads.set_smart_load_state E repr base_url station_id load_path state
     s w = (Raise ValueError, s, w)) /\
  ((py_eq state (PInt 0) || py_eq state (PInt 1))%bool = true ->
   match TokenManager.ensure_valid_token E base_url (SmartLoads.token_mgr s) w
   with
   | (Ok _, tm, w1) =>
       SmartLoads.set_smart_load_state E repr base_url station_id load_path
         state s w =
         (if env_cancel E (tick w1) then Raise CancelledError
          else let? response := env_http E (tick w1) in json response,
          SmartLoads.log
            {| SmartLoads.verb := "PATCH";
               SmartLoads.url :=
                 base_url
                 ++ "device/tp-device/smart-loads/control-mode/manual/switch"
                 ++ "?stationId=" ++ py_str repr station_id
                 ++ "&loadPath=" ++ py_str repr load_path
                 ++ "&manualSwitch=" ++ py_str repr state;
               SmartLoads.headers := TokenManager.headers repr tm;
               SmartLoads.params := [] |}
            (SmartLoads.set_token_mgr tm s),
          waited 1 w1)
   | (Raise e, tm, w1) =>
       SmartLoads.set_smart_load_state E repr base_url station_id load_path
         state s w = (Raise e, SmartLoads.set_token_mgr tm s, w1)
   | (Pending, tm, w1) =>
       SmartLoads.set_smart_load_state E repr base_url station_id load_path
         state s w = (Pending, SmartLoads.set_token_mgr tm s, w1)
   end).
Proof.
  split.
  - unfold SmartLoads.set_smart_load_state. intros ->. reflexivity.
  - intros Hstate.
    assert (Hrun : SmartLoads.set_smart_load_state E repr base_url station_id
                     load_path state s w =
                   (SmartLoads.ensure_valid_token E base_url ;;
                    s0 <- get ;;
                    response <- SmartLoads.session_request E
                                  (SmartLoads.switch_request repr base_url
                                     station_id load_path state s0) ;;
                    lift (json response)) s w).
    { unfold SmartLoads.set_smart_load_state. rewrite Hstate. reflexivity. }
    destruct (TokenManager.ensure_valid_token E base_url
                (SmartLoads.token_mgr s) w) as [[[[]|e|] tm] w1] eqn:Hcheck;
      rewrite Hrun; unfold bind at 1;
      rewrite ensure_valid_token_shared, Hcheck; cbn [fst snd];
      try reflexivity.
    unfold bind at 1, get. unfold bind at 1.
    rewrite session_request_cases.
    destruct (env_cancel E (tick w1)); [reflexivity|].
    destruct (env_http E (tick w1)) as [resp|e|]; reflexivity.
Qed.

(** On a store whose token is still good at the time of the call, the
    state 2 is refused with nothing sent, and the state [True] goes out in
    the URL as it prints. *)
Lemma smart_load_state_is_guarded_witness :
  SmartLoads.set_smart_load_state silent_env (fun _ => "")
    "https://api-eu.sigencloud.com/" (PInt 7) (PInt 3) (PInt 2) granted_store
    start = (Raise ValueError, granted_store, start) /\
  map SmartLoads.url
    (SmartLoads.sent
       (snd (fst (SmartLoads.set_smart_load_state silent_env (fun _ => "")
                    "https://api-eu.sigencloud.com/" (PInt 7) (PInt 3)
                    (PBool true) granted_store start)))) =
    [ "https://api-eu.sigencloud.com/device/tp-device/smart-loads/control-mode/manual/switch?stationId=7&loadPath=3&manualSwitch=True" ].
Proof.
  destruct (smart_load_state_is_guarded silent_env (fun _ => "")
              "https://api-eu.sigencloud.com/" (PInt 7) (PInt 3) (PInt 2)
              granted_store start) as [Hrefused _].
  destruct (smart_load_state_is_guarded silent_env (fun _ => "")
              "https://api-eu.sigencloud.com/" (PInt 7) (PInt 3) (PBool true)
              granted_store start) as [_ Hsent].
  split; [exact (Hrefused eq_refl)|].
  specialize (Hsent eq_refl).
  assert (Hcheck : TokenManager.ensure_valid_token silent_env
                     "https://api-eu.sigencloud.com/"
                     (SmartLoads.token_mgr granted_store) start =
                   (Ok tt, SmartLoads.token_mgr granted_store,
                    {| tick := 1; trace := [] |})) by reflexivity.
  rewrite Hcheck in Hsent. rewrite Hsent. reflexivity.
Defined.

(** X25: a list answer that cannot be used gives no loads.  The token
    is checked twice, by [get_smart_loads_with_consumption] and by
    [fetch_smart_load_list]; when both checks pass and the answer to the
    list request has a status other than 200, a [code] other than 0 or no
    [data], [get_smart_loads_with_consumption] returns the empty list
    after that one request, and the cache of ids is as it was. *)
Theorem unusable_list_gives_no_loads (E : env) (repr : pyval -> string)
    (base_url : string) (station_id : pyval) (s : SmartLoads.store)
    (tm1 tm2 : TokenManager.t) (w w1 w2 : world) (resp : response)
    (body : list (string * pyval)) :
  TokenManager.ensure_valid_token E base_url (SmartLoads.token_mgr s) w =
    (Ok tt, tm1, w1) ->
  TokenManager.ensure_valid_token E base_url tm1 w1 = (Ok tt, tm2, w2) ->
  env_cancel E (tick w2) = false ->
  env_http E (tick w2) = Ok resp ->
  status resp <> 200 \/
  (json resp = Ok (PDict body) /\
   (py_eq_int (dict_get_default body "code" PNone) 0 = false \/
    dict_has body "data" = false)) ->
  SmartLoads.get_smart_loads_with_consumption E repr base_url station_id s w =
    (Ok (PList []),
     {| SmartLoads.token_mgr := tm2;
        SmartLoads.id_map := SmartLoads.id_map s;
        SmartLoads.sent :=
          SmartLoads.sent s ++
          [ {| SmartLoads.verb := "GET";
               SmartLoads.url :=
                 base_url ++ "device/system/device/systemDevice/card";
               SmartLoads.headers := TokenManager.headers repr tm2;
               SmartLoads.params := [ ("stationId", station_id);
                                      ("showNewGenerator", PStr "true") ] |} ] |},
     waited 1 w2).
Proof.
  intros Hcheck1 Hcheck2 Hcancel Hhttp Hbad.
  unfold SmartLoads.get_smart_loads_with_consumption.
  unfold bind at 1. rewrite ensure_valid_token_shared, Hcheck1. cbn [fst snd].
  unfold bind at 1. unfold SmartLoads.fetch_smart_load_list.
  unfold bind at 1. rewrite ensure_valid_token_shared.
  cbn [SmartLoads.token_mgr SmartLoads.set_token_mgr]. rewrite Hcheck2.
  cbn [fst snd].
  unfold bind at 1, get. unfold bind at 1.
  rewrite session_request_cases, Hcancel, Hhttp.
  unfold lift. rewrite (data_or_fallback (PList []) resp body Hbad).
  reflexivity.
Qed.

Lemma unusable_list_gives_no_loads_witness :
  SmartLoads.get_smart_loads_with_consumption silent_env (fun _ => "")
    "https://api-eu.sigencloud.com/" (PInt 7) granted_store start =
    (Ok (PList []),
     {| SmartLoads.token_mgr := SmartLoads.token_mgr granted_store;
        SmartLoads.id_map := [ (PInt 3, PInt 501) ];
        SmartLoads.sent :=
          [ {| SmartLoads.verb := "GET";
               SmartLoads.url :=
                 "https://api-eu.sigencloud.com/device/system/device/systemDevice/card";
               SmartLoads.headers := [ ("Authorization", "Bearer A1");
                                       ("Content-Type", "application/json") ];
               SmartLoads.params := [ ("stationId", PInt 7);
                                      ("showNewGenerator", PStr "true") ] |} ] |},
     {| tick := 3; trace := [] |}).
Proof.
  apply (unusable_list_gives_no_loads silent_env (fun _ => "")
           "https://api-eu.sigencloud.com/" (PInt 7) granted_store
           (SmartLoads.token_mgr granted_store)
           (SmartLoads.token_mgr granted_store)
           start {| tick := 1; trace := [] |} {| tick := 2; trace := [] |}
           {| status := 500; text := ""; json := Raise JSONDecodeError |} []);
    [reflexivity | reflexivity | reflexivity | reflexivity | left; discriminate].
Defined.

(** X26: every load that [get_smart_loads_with_consumption] returns is a
    mapping with the three consumption figures, whatever the details and
    consumption requests did, and the loop returns as many loads as it was
    given.  A load for which nothing could be fetched carries the default
    figure [0.00 kWh] three times: a load without [path], for which
    nothing is sent, and a load with a cached id whose consumption request
    is answered unusably or fails with an [Exception], which also carries
    its id. *)
Theorem every_load_carries_consumption (E : env) (repr : pyval -> string)
    (base_url : string) (station_id : pyval) :
  (forall (loads enriched : list pyval) (s s' : SmartLoads.store)
          (w w' : world),
     SmartLoads.enrich_all E repr base_url station_id loads s w =
       (Ok enriched, s', w') ->
     List.length enriched = List.length loads /\
     forallb has_consumption enriched = true) /\
  (forall (enriched : list pyval) (s s' : SmartLoads.store) (w w' : world),
     SmartLoads.get_smart_loads_with_consumption E repr base_url station_id s w =
       (Ok (PList enriched), s', w') ->
     forallb has_consumption enriched = true) /\
  (forall (d : list (string * pyval)) (s : SmartLoads.store) (w : world),
     dict_has d "path" = false ->
     exists d',
       SmartLoads.enrich E repr base_url station_id (PDict d) s w =
         (Ok (PDict d'), s, w) /\
       assoc d' "todayConsumption" = Some (PStr "0.00 kWh") /\
       assoc d' "monthConsumption" = Some (PStr "0.00 kWh") /\
       assoc d' "lifetimeConsumption" = Some (PStr "0.00 kWh")) /\
  (forall (d : list (string * pyval)) (load_path smart_load_id : pyval)
          (s : SmartLoads.store) (w : world),
     assoc d "path" = Some load_path ->
     SmartLoads.hashable load_path = true ->
     SmartLoads.lookup (SmartLoads.id_map s) load_path = Some smart_load_id ->
     smart_load_id <> PNone ->
     env_cancel E (tick w) = false ->
     (exists resp body,
        env_http E (tick w) = Ok resp /\
        (status resp <> 200 \/
         (json resp = Ok (PDict body) /\
          (py_eq_int (dict_get_default body "code" PNone) 0 = false \/
           dict_has body "data" = false)))) \/
     (exists e, env_http E (tick w) = Raise e /\ is_Exception e = true) ->
     exists d',
       fst (fst (SmartLoads.enrich E repr base_url station_id (PDict d) s w)) =
         Ok (PDict d') /\
       assoc d' "todayConsumption" = Some (PStr "0.00 kWh") /\
       assoc d' "monthConsumption" = Some (PStr "0.00 kWh") /\
       assoc d' "lifetimeConsumption" = Some (PStr "0.00 kWh") /\
       assoc d' "smartLoadId" = Some smart_load_id).
Proof.
  split; [|split; [|split]].
  - intros loads enriched s s' w w'. apply enrich_all_gives_consumption.
  - intros enriched s s' w w'.
    unfold SmartLoads.get_smart_loads_with_consumption.
    unfold bind at 1.
    destruct (SmartLoads.ensure_valid_token E base_url s w)
      as [[[[]|e|] s1] w1]; try discriminate.
    unfold bind at 1.
    destruct (SmartLoads.fetch_smart_load_list E repr base_url station_id s1 w1)
      as [[[smart_loads|e|] s2] w2]; try discriminate.
    unfold bind at 1, lift.
    destruct (py_iter smart_loads) as [loads|e|]; try discriminate.
    unfold bind at 1.
    destruct (SmartLoads.enrich_all E repr base_url station_id loads s2 w2)
      as [[[ls|e|] s3] w3] eqn:Hloop; try discriminate.
    unfold ret.
    destruct smart_loads; try discriminate.
    intros [= <- _ _].
    exact (proj2 (enrich_all_gives_consumption E repr _ _ _ _ _ _ _ _ Hloop)).
  - intros d s w Hno_path.
    unfold SmartLoads.enrich. coro_unfold.
    cbn [SmartLoads.py_setitem py_contains py_getitem].
    unfold dict_has in Hno_path |- *.
    rewrite !assoc_set_other by reflexivity.
    destruct (assoc d "path"); [discriminate|]. cbv beta iota. cbn [negb].
    eexists. split; [reflexivity|].
    split; [|split].
    + rewrite !assoc_set_other by reflexivity. apply assoc_set_same.
    + rewrite assoc_set_other by reflexivity. apply assoc_set_same.
    + apply assoc_set_same.
  - intros d load_path smart_load_id s w Hpath Hhash Hcached Hid Hcancel Hbad.
    unfold SmartLoads.enrich. coro_unfold.
    cbn [SmartLoads.py_setitem py_contains py_getitem].
    unfold dict_has. rewrite !assoc_set_other by reflexivity. rewrite Hpath.
    cbv beta iota. cbn [negb]. cbv beta iota.
    unfold SmartLoads.map_get. rewrite Hhash, Hcached.
    set (d3 := SmartLoads.dict_set
                 (SmartLoads.dict_set
                    (SmartLoads.dict_set d "todayConsumption" (PStr "0.00 kWh"))
                    "monthConsumption" (PStr "0.00 kWh"))
                 "lifetimeConsumption" (PStr "0.00 kWh")).
    exists (SmartLoads.dict_set d3 "smartLoadId" smart_load_id).
    split.
    + destruct smart_load_id; try (exfalso; apply Hid; reflexivity);
        cbv beta iota;
        apply add_consumption_unfetched; assumption.
    + subst d3. split; [|split; [|split]].
      * rewrite !assoc_set_other by reflexivity. apply assoc_set_same.
      * rewrite !assoc_set_other by reflexivity. apply assoc_set_same.
      * rewrite assoc_set_other by reflexivity. apply assoc_set_same.
      * apply assoc_set_same.
Qed.

(** In the first example world the consumption answer is a list, not a
    mapping: the load comes back with the defaults and its cached id.  In
    the second every answer is a 500: the load again carries the
    defaults. *)
Lemma every_load_carries_consumption_witness :
  (exists s' w',
     SmartLoads.get_smart_loads_with_consumption one_load_env (fun _ => "")
       "https://api-eu.sigencloud.com/" (PInt 7) example_store start =
       (Ok (PList [ PDict [ ("name", PStr "Boiler"); ("path", PInt 3);
                            ("todayConsumption", PStr "0.00 kWh");
                            ("monthConsumption", PStr "0.00 kWh");
                            ("lifetimeConsumption", PStr "0.00 kWh");
                            ("smartLoadId", PInt 501) ] ]), s', w')) /\
  (exists d',
     fst (fst (SmartLoads.enrich silent_env (fun _ => "")
                 "https://api-eu.sigencloud.com/" (PInt 7) example_load
                 granted_store start)) = Ok (PDict d') /\
     assoc d' "todayConsumption" = Some (PStr "0.00 kWh") /\
     assoc d' "monthConsumption" = Some (PStr "0.00 kWh") /\
     assoc d' "lifetimeConsumption" = Some (PStr "0.00 kWh") /\
     assoc d' "smartLoadId" = Some (PInt 501)).
Proof.
  destruct (every_load_carries_consumption silent_env (fun _ => "")
              "https://api-eu.sigencloud.com/" (PInt 7))
    as (_ & _ & _ & Hunfetched).
  split.
  - do 2 eexists. reflexivity.
  - apply (Hunfetched [ ("name", PStr "Boiler"); ("path", PInt 3) ] (PInt 3)
             (PInt 501) granted_store start eq_refl eq_refl eq_refl).
    + discriminate.
    + reflexivity.
    + left. exists {| status := 500; text := ""; json := Raise JSONDecodeError |}, [].
      split; [reflexivity|left; discriminate].
Defined.

(** X27: the cache of ids only grows.  Whatever
    [get_smart_loads_with_consumption] does and however it ends, also by
    an exception, every path that had an id in the cache before the call
    has the same id after it. *)
Theorem known_ids_are_kept (E : env) (repr : pyval -> string)
    (base_url : string) (station_id : pyval) (s : SmartLoads.store)
    (w : world) :
  keeps (SmartLoads.id_map s)
    (SmartLoads.id_map
       (snd (fst (SmartLoads.get_smart_loads_with_consumption E repr base_url
                    station_id s w)))).
Proof.
  unfold SmartLoads.get_smart_loads_with_consumption.
  unfold bind at 1.
  pose proof (ensure_valid_token_cache E base_url s w) as H1.
  destruct (SmartLoads.ensure_valid_token E base_url s w)
    as [[[[]|e|] s1] w1]; simpl in H1;
    try (simpl; rewrite H1; apply keeps_refl).
  unfold bind at 1.
  pose proof (fetch_list_cache E repr base_url station_id s1 w1) as H2.
  destruct (SmartLoads.fetch_smart_load_list E repr base_url station_id s1 w1)
    as [[[smart_loads|e|] s2] w2]; simpl in H2;
    try (simpl; rewrite H2, H1; apply keeps_refl).
  unfold bind at 1, lift.
  destruct (py_iter smart_loads) as [loads|e|];
    try (simpl; rewrite H2, H1; apply keeps_refl).
  unfold bind at 1.
  pose proof (enrich_all_cache E repr base_url station_id loads s2 w2) as H3.
  rewrite H2, H1 in H3.
  destruct (SmartLoads.enrich_all E repr base_url station_id loads s2 w2)
    as [[[ls|e|] s3] w3]; simpl in H3; exact H3.
Qed.

(** X28: a load whose path has an id in the cache costs one request, the
    one for its consumption with that id; its details are not asked for
    and the cache is not written to. *)
Theorem cached_id_saves_the_details_request (E : env) (repr : pyval -> string)
    (base_url : string) (station_id : pyval) (d : list (string * pyval))
    (load_path smart_load_id : pyval) (s : SmartLoads.store) (w : world) :
  assoc d "path" = Some load_path ->
  SmartLoads.hashable load_path = true ->
  SmartLoads.lookup (SmartLoads.id_map s) load_path = Some smart_load_id ->
  smart_load_id <> PNone ->
  snd (fst (SmartLoads.enrich E repr base_url station_id (PDict d) s w)) =
    SmartLoads.log
      (SmartLoads.consumption_request repr base_url station_id load_path
         smart_load_id s) s.
Proof.
  intros Hpath Hhash Hcached Hid.
  unfold SmartLoads.enrich. coro_unfold.
  cbn [SmartLoads.py_setitem py_contains py_getitem].
  unfold dict_has. rewrite !assoc_set_other by reflexivity. rewrite Hpath.
  cbv beta iota. cbn [negb]. cbv beta iota.
  unfold SmartLoads.map_get. rewrite Hhash, Hcached.
  destruct smart_load_id; try (exfalso; apply Hid; reflexivity);
    cbv beta iota; apply add_consumption_store.
Qed.

Lemma cached_id_saves_the_details_request_witness :
  map SmartLoads.params
    (SmartLoads.sent
       (snd (fst (SmartLoads.enrich silent_env (fun _ => "")
                    "https://api-eu.sigencloud.com/" (PInt 7) example_load
                    example_store start)))) =
    [ [ ("stationId", PInt 7); ("loadPath", PInt 3);
        ("smartLoadId", PInt 501) ] ].
Proof.
  unfold example_load.
  rewrite (cached_id_saves_the_details_request silent_env (fun _ => "")
             "https://api-eu.sigencloud.com/" (PInt 7)
             [ ("name", PStr "Boiler"); ("path", PInt 3) ] (PInt 3) (PInt 501)
             example_store start eq_refl eq_refl eq_refl).
  - reflexivity.
  - discriminate.
Defined.
